(** * Schedulr: the scheduler router's conflict evaluator and batch commit

    A shallow embedding of [src/server/routers/scheduler.ts]: the two dry-run
    procedures [validateSessionCreate] and [validateSessionMove], and the
    transactional procedure [batchSaveChanges], over a relational store whose
    tables and constraints are those of the SQL schema of the repository.

    Numbers are integers ([Z]): every number the procedures handle is a row
    identifier or a day of the week, all INT columns of the schema. *)

From Stdlib Require Import ZArith List String Bool Lia DecimalString DecimalZ.
Import ListNotations.
Local Open Scope Z_scope.
Local Open Scope list_scope.

(** ** JavaScript values *)

(** [if (x)] and [!x] on a [number | null | undefined]: null, undefined and 0
    are falsy. *)
Definition truthy (x : option Z) : bool :=
  match x with
  | Some v => negb (v =? 0)
  | None => false
  end.

(** [x === y] on [number | null]. *)
Definition strictEq (x y : option Z) : bool :=
  match x, y with
  | Some a, Some b => a =? b
  | None, None => true
  | _, _ => false
  end.

Definition isNull (x : option Z) : bool :=
  match x with
  | Some _ => false
  | None => true
  end.

(** A number inside a template literal. *)
Definition numberToString (z : Z) : string :=
  NilZero.string_of_int (Z.to_int z).

(** [xs[i]] inside a template literal: an index outside the array reads
    [undefined]. *)
Definition arrayGet (xs : list string) (i : Z) : string :=
  if i <? 0 then "undefined"%string
  else nth (Z.to_nat i) xs "undefined"%string.

Definition push {A} (xs : list A) (x : A) : list A := xs ++ [x].

Definition DAY_NAMES : list string :=
  ["Monday"; "Tuesday"; "Wednesday"; "Thursday"; "Friday"]%string.

(** ** The store

    One record per table, with the columns the procedures read or write. *)

Module Grade.
Record t := mk { id : Z; name : string }.
End Grade.

Module Class.
Record t := mk { id : Z; name : string; gradeId : option Z }.
End Class.

Module Block.
Record t := mk { id : Z; name : string }.
End Block.

Module Room.
Record t := mk { id : Z; name : string }.
End Room.

Module Teacher.
Record t := mk { id : Z; name : string }.
End Teacher.

Module DutyType.
Record t := mk { id : Z; typeName : string }.
End DutyType.

Module ClassSession.
Record t := mk {
  id : Z;
  classId : Z;
  blockId : Z;
  dayOfWeek : Z;
  roomId : Z;
  semesterId : Z;
  homeroomId : option Z
}.
End ClassSession.

Module ClassSessionTeacher.
Record t := mk {
  id : Z;
  classSessionId : Z;
  teacherId : Z;
  role : string
}.
End ClassSessionTeacher.

Module Duty.
Record t := mk {
  id : Z;
  teacherId : Z;
  blockId : Z;
  dayOfWeek : Z;
  dutyTypeId : Z;
  roomId : Z;
  semesterId : Z
}.
End Duty.

(** The tables, in the order the store returns their rows, and the
    AUTO_INCREMENT counters of the two tables the procedures insert into.
    Semesters and homerooms are only referenced, so their keys suffice. *)
Module DB.
Record t := mk {
  grade : list Grade.t;
  class : list Class.t;
  block : list Block.t;
  room : list Room.t;
  teacher : list Teacher.t;
  dutyType : list DutyType.t;
  semester : list Z;
  homeroom : list Z;
  classSession : list ClassSession.t;
  classSessionTeacher : list ClassSessionTeacher.t;
  duty : list Duty.t;
  classSessionSeq : Z;
  classSessionTeacherSeq : Z
}.
End DB.

(** ** Errors

    [Thrown] is a [throw new TRPCError({ code, message })] of the router;
    [InputRejected] is the procedure's zod schema refusing the input;
    [PrismaError] is the client throwing on its own. *)

Inductive TRPCCode := BAD_REQUEST | NOT_FOUND | CONFLICT | INTERNAL_SERVER_ERROR.

Inductive PrismaFailure :=
| InconsistentQueryResult   (* a required relation has no row *)
| RecordNotFound            (* update of a row that does not exist *)
| UniqueConstraintFailed
| ForeignKeyConstraintFailed.

Inductive Error :=
| Thrown (code : TRPCCode) (message : string)
| InputRejected
| PrismaError (f : PrismaFailure).

(** The code the caller receives. *)
Definition errorCode (e : Error) : TRPCCode :=
  match e with
  | Thrown code _ => code
  | InputRejected => BAD_REQUEST
  | PrismaError _ => INTERNAL_SERVER_ERROR
  end.

Inductive Result (A : Type) :=
| Ok (a : A)
| Err (e : Error).
Arguments Ok {A} a.
Arguments Err {A} e.

Definition bind {A B} (m : Result A) (k : A -> Result B) : Result B :=
  match m with
  | Ok a => k a
  | Err e => Err e
  end.

Declare Scope result_scope.
Delimit Scope result_scope with result.
Notation "x <- m ;; k" := (bind m (fun x => k))
  (at level 61, m at next level, right associativity) : result_scope.
Notation "' pat <- m ;; k" := (bind m (fun x => match x with pat => k end))
  (at level 61, pat pattern, m at next level, right associativity) : result_scope.

Fixpoint mapM {A B} (f : A -> Result B) (xs : list A) : Result (list B) :=
  match xs with
  | [] => Ok []
  | x :: xs' =>
      (y <- f x ;;
       ys <- mapM f xs' ;;
       Ok (y :: ys))%result
  end.

(** ** Reads *)

Definition findUnique {A} (key : A -> Z) (k : Z) (rows : list A) : option A :=
  find (fun r => key r =? k) rows.

Definition findFirst {A} (where_ : A -> bool) (rows : list A) : option A :=
  find where_ rows.

Definition findMany {A} (where_ : A -> bool) (rows : list A) : list A :=
  filter where_ rows.

(** [if (!row) throw new TRPCError(...)]. *)
Definition orThrow {A} (row : option A) (code : TRPCCode) (message : string)
  : Result A :=
  match row with
  | Some r => Ok r
  | None => Err (Thrown code message)
  end.

(** A relation the schema declares NOT NULL with a FOREIGN KEY: the client
    throws when the referenced row is absent. *)
Definition required {A} (row : option A) : Result A :=
  match row with
  | Some r => Ok r
  | None => Err (PrismaError InconsistentQueryResult)
  end.

Definition zod (accepted : bool) : Result unit :=
  if accepted then Ok tt else Err InputRejected.

Section Includes.
Variable db : DB.t.

Definition classOf (s : ClassSession.t) : Result Class.t :=
  required (findUnique Class.id (ClassSession.classId s) (DB.class db)).

Definition roomOf (s : ClassSession.t) : Result Room.t :=
  required (findUnique Room.id (ClassSession.roomId s) (DB.room db)).

Definition blockOf (s : ClassSession.t) : Result Block.t :=
  required (findUnique Block.id (ClassSession.blockId s) (DB.block db)).

(** [include: { grade: true }] on a class: the relation is optional. *)
Definition gradeOf (c : Class.t) : option Grade.t :=
  match Class.gradeId c with
  | Some g => findUnique Grade.id g (DB.grade db)
  | None => None
  end.

Definition teacherOf (l : ClassSessionTeacher.t) : Result Teacher.t :=
  required (findUnique Teacher.id (ClassSessionTeacher.teacherId l)
              (DB.teacher db)).

Definition classSessionOf (l : ClassSessionTeacher.t)
  : Result ClassSession.t :=
  required (findUnique ClassSession.id
              (ClassSessionTeacher.classSessionId l) (DB.classSession db)).

Definition dutyTypeOf (d : Duty.t) : Result DutyType.t :=
  required (findUnique DutyType.id (Duty.dutyTypeId d) (DB.dutyType db)).

Definition dutyRoomOf (d : Duty.t) : Result Room.t :=
  required (findUnique Room.id (Duty.roomId d) (DB.room db)).

Definition dutyTeacherOf (d : Duty.t) : Result Teacher.t :=
  required (findUnique Teacher.id (Duty.teacherId d) (DB.teacher db)).

(** [where: { class: { gradeId } }]: a filter through the relation. *)
Definition classGradeIs (g : option Z) (s : ClassSession.t) : bool :=
  match findUnique Class.id (ClassSession.classId s) (DB.class db) with
  | Some c => strictEq (Class.gradeId c) g
  | None => false
  end.

(** [include] on the row a [findFirst] returned, if any. *)
Definition including {A B} (inc : A -> Result B) (row : option A)
  : Result (option (A * B)) :=
  match row with
  | Some r => (i <- inc r ;; Ok (Some (r, i)))%result
  | None => Ok None
  end.

(** [include] on every row a [findMany] returned. *)
Definition includingAll {A B} (inc : A -> Result B) (rows : list A)
  : Result (list (A * B)) :=
  mapM (fun r => (i <- inc r ;; Ok (r, i))%result) rows.
End Includes.

(** ** Verdicts *)

Module ConflictType.
Inductive t := teacher | room | homeroom | a_level.
End ConflictType.

Module WarningType.
Inductive t := duplicate_class.
End WarningType.

Module Conflict.
Record t := mk {
  type : ConflictType.t;
  message : string;
  relatedSessionId : option Z
}.
End Conflict.

Module Warning.
Record t := mk {
  type : WarningType.t;
  message : string;
  relatedSessionId : option Z
}.
End Warning.

Module ValidationResult.
Record t := mk {
  valid : bool;
  conflicts : list Conflict.t;
  warnings : list Warning.t
}.
End ValidationResult.

(** [conflicts.length === 0]. *)
Definition isEmpty {A} (xs : list A) : bool :=
  Nat.eqb (List.length xs) 0.

Fixpoint foldM {A B} (f : A -> B -> Result A) (xs : list B) (a : A)
  : Result A :=
  match xs with
  | [] => Ok a
  | x :: xs' => (a' <- f a x ;; foldM f xs' a')%result
  end.

(** ** Messages *)

Local Open Scope string_scope.

Definition dayLabel (targetDayOfWeek : Z) : string :=
  arrayGet DAY_NAMES (targetDayOfWeek - 1).

Definition roomBookedMessage (roomName className blockName : string)
  (targetDayOfWeek : Z) : string :=
  roomName ++ " is already booked for " ++ className ++ " in " ++ blockName
    ++ " (" ++ dayLabel targetDayOfWeek ++ ").".

Definition roomDutyMessage (roomName typeName teacherName blockName : string)
  (targetDayOfWeek : Z) : string :=
  roomName ++ " is in use for " ++ typeName ++ " duty by " ++ teacherName
    ++ " in " ++ blockName ++ " (" ++ dayLabel targetDayOfWeek ++ ").".

Definition studentsMessage (className blockName : string)
  (targetDayOfWeek : Z) : string :=
  "Students would have a conflict: " ++ className
    ++ " is scheduled at the same time in " ++ blockName
    ++ " (" ++ dayLabel targetDayOfWeek ++ ").".

Definition sharedPresentMessage (className blockName : string)
  (targetDayOfWeek : Z) : string :=
  "Cannot schedule grade-specific class. " ++ className
    ++ " (shared) is already scheduled in " ++ blockName
    ++ " (" ++ dayLabel targetDayOfWeek ++ ").".

Definition gradeSpecificPresentMessage (className blockName : string)
  (targetDayOfWeek : Z) : string :=
  "Cannot schedule shared class. " ++ className
    ++ " (grade-specific) is already scheduled in " ++ blockName
    ++ " (" ++ dayLabel targetDayOfWeek ++ ").".

Definition duplicateMessage (className : string) (count : nat)
  (targetDayOfWeek : Z) : string :=
  className ++ " is already scheduled "
    ++ numberToString (Z.of_nat count) ++ " time(s) on "
    ++ dayLabel targetDayOfWeek ++ ".".

Definition teacherTeachingMessage (teacherName className blockName : string)
  (targetDayOfWeek : Z) : string :=
  teacherName ++ " is already teaching " ++ className ++ " in " ++ blockName
    ++ " (" ++ dayLabel targetDayOfWeek ++ ").".

Definition teacherDutyMessage (teacherName typeName blockName : string)
  (targetDayOfWeek : Z) : string :=
  teacherName ++ " has " ++ typeName ++ " duty in " ++ blockName
    ++ " (" ++ dayLabel targetDayOfWeek ++ ").".

Definition gradeConflictMessage (gradeName className : string) : string :=
  "Grade Conflict: Grade " ++ gradeName ++ " already has " ++ className
    ++ " scheduled at this time.".

Local Close Scope string_scope.

(** ** [where] clauses shared by the two validations *)

(** [{ blockId, dayOfWeek, semesterId }] on a class session. *)
Definition inSlot (blockId dayOfWeek semesterId : Z) (s : ClassSession.t)
  : bool :=
  (ClassSession.blockId s =? blockId)
  && (ClassSession.dayOfWeek s =? dayOfWeek)
  && (ClassSession.semesterId s =? semesterId).

(** [{ blockId, dayOfWeek, roomId, semesterId }] on a class session. *)
Definition inRoomSlot (blockId dayOfWeek roomId semesterId : Z)
  (s : ClassSession.t) : bool :=
  (ClassSession.blockId s =? blockId)
  && (ClassSession.dayOfWeek s =? dayOfWeek)
  && (ClassSession.roomId s =? roomId)
  && (ClassSession.semesterId s =? semesterId).

(** [{ blockId, dayOfWeek, roomId, semesterId }] on a duty. *)
Definition dutyInRoomSlot (blockId dayOfWeek roomId semesterId : Z)
  (d : Duty.t) : bool :=
  (Duty.blockId d =? blockId)
  && (Duty.dayOfWeek d =? dayOfWeek)
  && (Duty.roomId d =? roomId)
  && (Duty.semesterId d =? semesterId).

(** [{ teacherId, blockId, dayOfWeek, semesterId }] on a duty. *)
Definition dutyOfTeacherInSlot (teacherId blockId dayOfWeek semesterId : Z)
  (d : Duty.t) : bool :=
  (Duty.teacherId d =? teacherId)
  && (Duty.blockId d =? blockId)
  && (Duty.dayOfWeek d =? dayOfWeek)
  && (Duty.semesterId d =? semesterId).

(** [{ dayOfWeek, semesterId, classId }] on a class session. *)
Definition sameClassSameDay (dayOfWeek semesterId classId : Z)
  (s : ClassSession.t) : bool :=
  (ClassSession.dayOfWeek s =? dayOfWeek)
  && (ClassSession.semesterId s =? semesterId)
  && (ClassSession.classId s =? classId).

(** [{ id: { not: classSessionId } }]. *)
Definition notSession (classSessionId : Z) (s : ClassSession.t) : bool :=
  negb (ClassSession.id s =? classSessionId).

(** The body of the loop over [conflictingSessions], the same in both
    validations: [gradeId] is that of the class being placed. *)
Definition gradeExclusivityStep (gradeId : option Z) (targetBlock : Block.t)
  (targetDayOfWeek : Z) (conflicts : list Conflict.t)
  (conflictSession : ClassSession.t * Class.t) : list Conflict.t :=
  let '(cs, csClass) := conflictSession in
  let conflicts :=
    if negb (isNull gradeId) && isNull (Class.gradeId csClass)
    then push conflicts
           {| Conflict.type := ConflictType.homeroom;
              Conflict.message :=
                sharedPresentMessage (Class.name csClass)
                  (Block.name targetBlock) targetDayOfWeek;
              Conflict.relatedSessionId := Some (ClassSession.id cs) |}
    else conflicts in
  let conflicts :=
    if isNull gradeId && negb (isNull (Class.gradeId csClass))
    then push conflicts
           {| Conflict.type := ConflictType.homeroom;
              Conflict.message :=
                gradeSpecificPresentMessage (Class.name csClass)
                  (Block.name targetBlock) targetDayOfWeek;
              Conflict.relatedSessionId := Some (ClassSession.id cs) |}
    else conflicts in
  conflicts.

(** [duplicateCheck[0].id]. *)
Definition firstId (rows : list (ClassSession.t * (Class.t * Block.t)))
  : option Z :=
  match rows with
  | (s, _) :: _ => Some (ClassSession.id s)
  | [] => None
  end.

(** ** validateSessionCreate *)

Module ValidateSessionCreateInput.
Record t := mk {
  classId : Z;
  targetBlockId : Z;
  targetDayOfWeek : Z;
  targetRoomId : Z;
  semesterId : Z
}.
End ValidateSessionCreateInput.

Definition validateSessionCreate (db : DB.t)
  (input : ValidateSessionCreateInput.t) : Result ValidationResult.t :=
  let classId := ValidateSessionCreateInput.classId input in
  let targetBlockId := ValidateSessionCreateInput.targetBlockId input in
  let targetDayOfWeek := ValidateSessionCreateInput.targetDayOfWeek input in
  let targetRoomId := ValidateSessionCreateInput.targetRoomId input in
  let semesterId := ValidateSessionCreateInput.semesterId input in
  (_ <- zod ((1 <=? targetDayOfWeek) && (targetDayOfWeek <=? 5)) ;;
   let conflicts : list Conflict.t := [] in
   let warnings : list Warning.t := [] in
   (* Get the class being scheduled *)
   classToSchedule <-
     orThrow (findUnique Class.id classId (DB.class db))
       NOT_FOUND "Class not found" ;;
   (* Get block info *)
   targetBlock <-
     orThrow (findUnique Block.id targetBlockId (DB.block db))
       NOT_FOUND "Target block not found" ;;
   (* 1. Check room conflicts *)
   roomConflict <-
     including (fun s => c <- classOf db s ;; r <- roomOf db s ;; Ok (c, r))
       (findFirst
          (inRoomSlot targetBlockId targetDayOfWeek targetRoomId semesterId)
          (DB.classSession db)) ;;
   let conflicts :=
     match roomConflict with
     | Some (s, (c, r)) =>
         push conflicts
           {| Conflict.type := ConflictType.room;
              Conflict.message :=
                roomBookedMessage (Room.name r) (Class.name c)
                  (Block.name targetBlock) targetDayOfWeek;
              Conflict.relatedSessionId := Some (ClassSession.id s) |}
     | None => conflicts
     end in
   (* 2. Check room conflicts (duties) *)
   roomDutyConflict <-
     including
       (fun d =>
          dt <- dutyTypeOf db d ;; r <- dutyRoomOf db d ;;
          t <- dutyTeacherOf db d ;; Ok (dt, r, t))
       (findFirst
          (dutyInRoomSlot targetBlockId targetDayOfWeek targetRoomId
             semesterId)
          (DB.duty db)) ;;
   let conflicts :=
     match roomDutyConflict with
     | Some (_, (dt, r, t)) =>
         push conflicts
           {| Conflict.type := ConflictType.room;
              Conflict.message :=
                roomDutyMessage (Room.name r) (DutyType.typeName dt)
                  (Teacher.name t) (Block.name targetBlock) targetDayOfWeek;
              Conflict.relatedSessionId := None |}
     | None => conflicts
     end in
   (* 3. Check homeroom overlap *)
   conflicts <-
     (if truthy (Class.gradeId classToSchedule)
      then
        homeroomConflict <-
          including (classOf db)
            (findFirst
               (fun s =>
                  inSlot targetBlockId targetDayOfWeek semesterId s
                  && classGradeIs db (Class.gradeId classToSchedule) s)
               (DB.classSession db)) ;;
        Ok match homeroomConflict with
           | Some (s, c) =>
               push conflicts
                 {| Conflict.type := ConflictType.homeroom;
                    Conflict.message :=
                      studentsMessage (Class.name c) (Block.name targetBlock)
                        targetDayOfWeek;
                    Conflict.relatedSessionId := Some (ClassSession.id s) |}
           | None => conflicts
           end
      else Ok conflicts) ;;
   (* 4. Check grade-independent vs grade-specific conflicts *)
   conflictingSessions <-
     includingAll (classOf db)
       (findMany (inSlot targetBlockId targetDayOfWeek semesterId)
          (DB.classSession db)) ;;
   let conflicts :=
     fold_left
       (gradeExclusivityStep (Class.gradeId classToSchedule) targetBlock
          targetDayOfWeek)
       conflictingSessions conflicts in
   (* 5. Check for duplicate classes in the same day *)
   duplicateCheck <-
     includingAll
       (fun s => c <- classOf db s ;; b <- blockOf db s ;; Ok (c, b))
       (findMany (sameClassSameDay targetDayOfWeek semesterId classId)
          (DB.classSession db)) ;;
   let warnings :=
     if (0 <? List.length duplicateCheck)%nat
     then push warnings
            {| Warning.type := WarningType.duplicate_class;
               Warning.message :=
                 duplicateMessage (Class.name classToSchedule)
                   (List.length duplicateCheck) targetDayOfWeek;
               Warning.relatedSessionId := firstId duplicateCheck |}
     else warnings in
   Ok {| ValidationResult.valid := isEmpty conflicts;
         ValidationResult.conflicts := conflicts;
         ValidationResult.warnings := warnings |})%result.

(** ** validateSessionMove *)

Module ValidateSessionMoveInput.
Record t := mk {
  classSessionId : Z;
  targetBlockId : Z;
  targetDayOfWeek : Z;
  targetRoomId : Z;
  semesterId : Z
}.
End ValidateSessionMoveInput.

(** [{ teacherId, classSession: { id: { not }, blockId, dayOfWeek,
    semesterId } }] on a teacher link: the inner clause filters through the
    relation. *)
Definition linkOfTeacherElsewhere (db : DB.t)
  (teacherId classSessionId blockId dayOfWeek semesterId : Z)
  (l : ClassSessionTeacher.t) : bool :=
  (ClassSessionTeacher.teacherId l =? teacherId)
  && match findUnique ClassSession.id (ClassSessionTeacher.classSessionId l)
             (DB.classSession db) with
     | Some cs =>
         notSession classSessionId cs && inSlot blockId dayOfWeek semesterId cs
     | None => false
     end.

(** The body of the loop over [session.teachers]. *)
Definition teacherStep (db : DB.t)
  (classSessionId targetBlockId targetDayOfWeek semesterId : Z)
  (targetBlock : Block.t) (conflicts : list Conflict.t)
  (teacherAssignment : ClassSessionTeacher.t * Teacher.t)
  : Result (list Conflict.t) :=
  let '(link, linkTeacher) := teacherAssignment in
  (* Check if teacher has another class at this time *)
  (teacherConflict <-
     including
       (fun l => cs <- classSessionOf db l ;; c <- classOf db cs ;; Ok (cs, c))
       (findFirst
          (linkOfTeacherElsewhere db (ClassSessionTeacher.teacherId link)
             classSessionId targetBlockId targetDayOfWeek semesterId)
          (DB.classSessionTeacher db)) ;;
   let conflicts :=
     match teacherConflict with
     | Some (_, (cs, c)) =>
         push conflicts
           {| Conflict.type := ConflictType.teacher;
              Conflict.message :=
                teacherTeachingMessage (Teacher.name linkTeacher)
                  (Class.name c) (Block.name targetBlock) targetDayOfWeek;
              Conflict.relatedSessionId := Some (ClassSession.id cs) |}
     | None => conflicts
     end in
   (* Check if teacher has a duty at this time *)
   dutyConflict <-
     including (dutyTypeOf db)
       (findFirst
          (dutyOfTeacherInSlot (ClassSessionTeacher.teacherId link)
             targetBlockId targetDayOfWeek semesterId)
          (DB.duty db)) ;;
   let conflicts :=
     match dutyConflict with
     | Some (_, dt) =>
         push conflicts
           {| Conflict.type := ConflictType.teacher;
              Conflict.message :=
                teacherDutyMessage (Teacher.name linkTeacher)
                  (DutyType.typeName dt) (Block.name targetBlock)
                  targetDayOfWeek;
              Conflict.relatedSessionId := None |}
     | None => conflicts
     end in
   Ok conflicts)%result.

(** [include: { teachers: { include: { teacher: true } }, class: true }] on
    the session being moved. *)
Definition teachersAndClassOf (db : DB.t) (s : ClassSession.t)
  : Result (list (ClassSessionTeacher.t * Teacher.t) * Class.t) :=
  (teachers <-
     includingAll (teacherOf db)
       (findMany
          (fun l => ClassSessionTeacher.classSessionId l =? ClassSession.id s)
          (DB.classSessionTeacher db)) ;;
   c <- classOf db s ;;
   Ok (teachers, c))%result.

Definition validateSessionMove (db : DB.t)
  (input : ValidateSessionMoveInput.t) : Result ValidationResult.t :=
  let classSessionId := ValidateSessionMoveInput.classSessionId input in
  let targetBlockId := ValidateSessionMoveInput.targetBlockId input in
  let targetDayOfWeek := ValidateSessionMoveInput.targetDayOfWeek input in
  let targetRoomId := ValidateSessionMoveInput.targetRoomId input in
  let semesterId := ValidateSessionMoveInput.semesterId input in
  (_ <- zod ((1 <=? targetDayOfWeek) && (targetDayOfWeek <=? 5)) ;;
   let conflicts : list Conflict.t := [] in
   let warnings : list Warning.t := [] in
   (* Get the session being moved *)
   session <-
     including (teachersAndClassOf db)
       (findUnique ClassSession.id classSessionId (DB.classSession db)) ;;
   '(session, (sessionTeachers, sessionClass)) <-
     orThrow session NOT_FOUND "Class session not found" ;;
   (* Get block info for better error messages *)
   targetBlock <-
     orThrow (findUnique Block.id targetBlockId (DB.block db))
       NOT_FOUND "Target block not found" ;;
   (* 1. Check teacher double booking *)
   conflicts <-
     foldM
       (teacherStep db classSessionId targetBlockId targetDayOfWeek semesterId
          targetBlock)
       sessionTeachers conflicts ;;
   (* 2. Check room conflicts (classes) *)
   roomConflict <-
     including (fun s => c <- classOf db s ;; r <- roomOf db s ;; Ok (c, r))
       (findFirst
          (fun s =>
             notSession classSessionId s
             && inRoomSlot targetBlockId targetDayOfWeek targetRoomId
                  semesterId s)
          (DB.classSession db)) ;;
   let conflicts :=
     match roomConflict with
     | Some (s, (c, r)) =>
         push conflicts
           {| Conflict.type := ConflictType.room;
              Conflict.message :=
                roomBookedMessage (Room.name r) (Class.name c)
                  (Block.name targetBlock) targetDayOfWeek;
              Conflict.relatedSessionId := Some (ClassSession.id s) |}
     | None => conflicts
     end in
   (* 3. Check room conflicts (duties) *)
   roomDutyConflict <-
     including
       (fun d =>
          dt <- dutyTypeOf db d ;; r <- dutyRoomOf db d ;;
          t <- dutyTeacherOf db d ;; Ok (dt, r, t))
       (findFirst
          (dutyInRoomSlot targetBlockId targetDayOfWeek targetRoomId
             semesterId)
          (DB.duty db)) ;;
   let conflicts :=
     match roomDutyConflict with
     | Some (_, (dt, r, t)) =>
         push conflicts
           {| Conflict.type := ConflictType.room;
              Conflict.message :=
                roomDutyMessage (Room.name r) (DutyType.typeName dt)
                  (Teacher.name t) (Block.name targetBlock) targetDayOfWeek;
              Conflict.relatedSessionId := None |}
     | None => conflicts
     end in
   (* 4. Check homeroom overlap *)
   let classGradeId := Class.gradeId sessionClass in
   conflicts <-
     (if truthy classGradeId
      then
        homeroomConflict <-
          including (classOf db)
            (findFirst
               (fun s =>
                  notSession classSessionId s
                  && inSlot targetBlockId targetDayOfWeek semesterId s
                  && classGradeIs db classGradeId s)
               (DB.classSession db)) ;;
        Ok match homeroomConflict with
           | Some (s, c) =>
               push conflicts
                 {| Conflict.type := ConflictType.homeroom;
                    Conflict.message :=
                      studentsMessage (Class.name c) (Block.name targetBlock)
                        targetDayOfWeek;
                    Conflict.relatedSessionId := Some (ClassSession.id s) |}
           | None => conflicts
           end
      else Ok conflicts) ;;
   (* 5. Check grade-independent vs grade-specific conflicts *)
   conflictingSessions <-
     includingAll (classOf db)
       (findMany
          (fun s =>
             notSession classSessionId s
             && inSlot targetBlockId targetDayOfWeek semesterId s)
          (DB.classSession db)) ;;
   let conflicts :=
     fold_left
       (gradeExclusivityStep (Class.gradeId sessionClass) targetBlock
          targetDayOfWeek)
       conflictingSessions conflicts in
   (* 6. Check for duplicate classes in the same day *)
   duplicateCheck <-
     includingAll
       (fun s => c <- classOf db s ;; b <- blockOf db s ;; Ok (c, b))
       (findMany
          (fun s =>
             notSession classSessionId s
             && sameClassSameDay targetDayOfWeek semesterId
                  (ClassSession.classId session) s)
          (DB.classSession db)) ;;
   let warnings :=
     if (0 <? List.length duplicateCheck)%nat
     then push warnings
            {| Warning.type := WarningType.duplicate_class;
               Warning.message :=
                 duplicateMessage (Class.name sessionClass)
                   (List.length duplicateCheck) targetDayOfWeek;
               Warning.relatedSessionId := firstId duplicateCheck |}
     else warnings in
   Ok {| ValidationResult.valid := isEmpty conflicts;
         ValidationResult.conflicts := conflicts;
         ValidationResult.warnings := warnings |})%result.

(** ** Transactions

    A computation on the transaction client [tx] reads and writes the
    in-transaction state of the store; when it throws, the state reached so
    far comes out with the error. *)

Definition Tx (A : Type) : Type := DB.t -> Result A * DB.t.

Definition txRet {A} (a : A) : Tx A := fun db => (Ok a, db).

Definition txThrow {A} (code : TRPCCode) (message : string) : Tx A :=
  fun db => (Err (Thrown code message), db).

Definition txBind {A B} (m : Tx A) (k : A -> Tx B) : Tx B :=
  fun db =>
    match m db with
    | (Ok a, db') => k a db'
    | (Err e, db') => (Err e, db')
    end.

(** A read of the in-transaction state. *)
Definition txRead {A} (query : DB.t -> Result A) : Tx A :=
  fun db => (query db, db).

Declare Scope tx_scope.
Delimit Scope tx_scope with tx.
Notation "x <- m ;; k" := (txBind m (fun x => k))
  (at level 61, m at next level, right associativity) : tx_scope.
Notation "' pat <- m ;; k" := (txBind m (fun x => match x with pat => k end))
  (at level 61, pat pattern, m at next level, right associativity) : tx_scope.

(** [for (const x of xs) { ... }] on [tx], threading the variables the body
    assigns. *)
Fixpoint forOf {A B} (body : A -> B -> Tx A) (xs : list B) (a : A) : Tx A :=
  match xs with
  | [] => txRet a
  | x :: xs' => (a' <- body a x ;; forOf body xs' a')%tx
  end.

(** [db.$transaction(async (tx) => body)]: the writes of [body] are kept when
    it returns and discarded when it throws. *)
Definition transaction {A} (body : Tx A) (db : DB.t) : Result A * DB.t :=
  match body db with
  | (Ok a, db') => (Ok a, db')
  | (Err e, _) => (Err e, db)
  end.

(** ** Writes

    Each write checks the constraints the schema puts on the table:
    [UNIQUE (block_id, day_of_week, room_id, semester_id)] and the FOREIGN
    KEYs of [class_sessions], the unique index on [(teacher_id,
    class_session_id)] and the FOREIGN KEYs of [class_session_teachers]. The
    CHECK on [day_of_week] has nothing to refuse: every day the procedures
    write has passed [min(1).max(5)]. *)

Definition hasKey {A} (key : A -> Z) (k : Z) (rows : list A) : bool :=
  existsb (fun r => key r =? k) rows.

Definition hasOptionalKey (k : option Z) (keys : list Z) : bool :=
  match k with
  | Some v => existsb (Z.eqb v) keys
  | None => true
  end.

(** The foreign keys of a class session all resolve. *)
Definition classSessionRefsOk (db : DB.t) (s : ClassSession.t) : bool :=
  hasKey Class.id (ClassSession.classId s) (DB.class db)
  && hasKey Block.id (ClassSession.blockId s) (DB.block db)
  && hasKey Room.id (ClassSession.roomId s) (DB.room db)
  && existsb (Z.eqb (ClassSession.semesterId s)) (DB.semester db)
  && hasOptionalKey (ClassSession.homeroomId s) (DB.homeroom db).

(** The foreign keys an update of the slot can break. *)
Definition slotRefsOk (db : DB.t) (s : ClassSession.t) : bool :=
  hasKey Block.id (ClassSession.blockId s) (DB.block db)
  && hasKey Room.id (ClassSession.roomId s) (DB.room db).

(** One of [rows] holds the (block, day, room, semester) of [s]. *)
Definition slotTaken (rows : list ClassSession.t) (s : ClassSession.t)
  : bool :=
  existsb
    (inRoomSlot (ClassSession.blockId s) (ClassSession.dayOfWeek s)
       (ClassSession.roomId s) (ClassSession.semesterId s))
    rows.

Definition setClassSessions (db : DB.t) (rows : list ClassSession.t)
  (seq : Z) : DB.t :=
  {| DB.grade := DB.grade db;
     DB.class := DB.class db;
     DB.block := DB.block db;
     DB.room := DB.room db;
     DB.teacher := DB.teacher db;
     DB.dutyType := DB.dutyType db;
     DB.semester := DB.semester db;
     DB.homeroom := DB.homeroom db;
     DB.classSession := rows;
     DB.classSessionTeacher := DB.classSessionTeacher db;
     DB.duty := DB.duty db;
     DB.classSessionSeq := seq;
     DB.classSessionTeacherSeq := DB.classSessionTeacherSeq db |}.

Definition setClassSessionTeachers (db : DB.t)
  (rows : list ClassSessionTeacher.t) (seq : Z) : DB.t :=
  {| DB.grade := DB.grade db;
     DB.class := DB.class db;
     DB.block := DB.block db;
     DB.room := DB.room db;
     DB.teacher := DB.teacher db;
     DB.dutyType := DB.dutyType db;
     DB.semester := DB.semester db;
     DB.homeroom := DB.homeroom db;
     DB.classSession := DB.classSession db;
     DB.classSessionTeacher := rows;
     DB.duty := DB.duty db;
     DB.classSessionSeq := DB.classSessionSeq db;
     DB.classSessionTeacherSeq := seq |}.

(** [tx.classSession.create({ data })]: the new row takes the next
    identifier. Of a row that breaks both the UNIQUE key and a FOREIGN KEY
    the store reports the UNIQUE key. *)
Definition classSession_create
  (classId blockId dayOfWeek roomId semesterId : Z) (homeroomId : option Z)
  : Tx ClassSession.t :=
  fun db =>
    let created :=
      {| ClassSession.id := DB.classSessionSeq db;
         ClassSession.classId := classId;
         ClassSession.blockId := blockId;
         ClassSession.dayOfWeek := dayOfWeek;
         ClassSession.roomId := roomId;
         ClassSession.semesterId := semesterId;
         ClassSession.homeroomId := homeroomId |} in
    if slotTaken (DB.classSession db) created
    then (Err (PrismaError UniqueConstraintFailed), db)
    else if negb (classSessionRefsOk db created)
    then (Err (PrismaError ForeignKeyConstraintFailed), db)
    else
      (Ok created,
       setClassSessions db (DB.classSession db ++ [created])
         (DB.classSessionSeq db + 1)).

(** The rows of the table with the one whose key is [id] replaced. *)
Definition replaceRow (id : Z) (updated : ClassSession.t)
  (rows : list ClassSession.t) : list ClassSession.t :=
  map (fun r => if ClassSession.id r =? id then updated else r) rows.

(** [tx.classSession.update({ where: { id }, data })]: [data] sets the
    block, the day and the room of the row, or some of them. *)
Definition classSession_update (id : Z)
  (data : ClassSession.t -> ClassSession.t) : Tx ClassSession.t :=
  fun db =>
    match findUnique ClassSession.id id (DB.classSession db) with
    | None => (Err (PrismaError RecordNotFound), db)
    | Some row =>
        let updated := data row in
        if negb (slotRefsOk db updated)
        then (Err (PrismaError ForeignKeyConstraintFailed), db)
        else if slotTaken (findMany (notSession id) (DB.classSession db))
                  updated
        then (Err (PrismaError UniqueConstraintFailed), db)
        else
          (Ok updated,
           setClassSessions db (replaceRow id updated (DB.classSession db))
             (DB.classSessionSeq db))
    end.

(** [data: { blockId, dayOfWeek, roomId }]. *)
Definition setSlot (blockId dayOfWeek roomId : Z) (row : ClassSession.t)
  : ClassSession.t :=
  {| ClassSession.id := ClassSession.id row;
     ClassSession.classId := ClassSession.classId row;
     ClassSession.blockId := blockId;
     ClassSession.dayOfWeek := dayOfWeek;
     ClassSession.roomId := roomId;
     ClassSession.semesterId := ClassSession.semesterId row;
     ClassSession.homeroomId := ClassSession.homeroomId row |}.

(** [data: { roomId }]. *)
Definition setRoom (roomId : Z) (row : ClassSession.t) : ClassSession.t :=
  {| ClassSession.id := ClassSession.id row;
     ClassSession.classId := ClassSession.classId row;
     ClassSession.blockId := ClassSession.blockId row;
     ClassSession.dayOfWeek := ClassSession.dayOfWeek row;
     ClassSession.roomId := roomId;
     ClassSession.semesterId := ClassSession.semesterId row;
     ClassSession.homeroomId := ClassSession.homeroomId row |}.

(** [tx.classSessionTeacher.deleteMany({ where: { classSessionId } })]. *)
Definition classSessionTeacher_deleteMany (classSessionId : Z) : Tx unit :=
  fun db =>
    (Ok tt,
     setClassSessionTeachers db
       (filter
          (fun l =>
             negb (ClassSessionTeacher.classSessionId l =? classSessionId))
          (DB.classSessionTeacher db))
       (DB.classSessionTeacherSeq db)).

(** [tx.classSessionTeacher.create({ data })]. *)
Definition classSessionTeacher_create (classSessionId teacherId : Z)
  (role : string) : Tx ClassSessionTeacher.t :=
  fun db =>
    let created :=
      {| ClassSessionTeacher.id := DB.classSessionTeacherSeq db;
         ClassSessionTeacher.classSessionId := classSessionId;
         ClassSessionTeacher.teacherId := teacherId;
         ClassSessionTeacher.role := role |} in
    if negb (hasKey ClassSession.id classSessionId (DB.classSession db)
             && hasKey Teacher.id teacherId (DB.teacher db))
    then (Err (PrismaError ForeignKeyConstraintFailed), db)
    else if existsb
              (fun l =>
                 (ClassSessionTeacher.teacherId l =? teacherId)
                 && (ClassSessionTeacher.classSessionId l =? classSessionId))
              (DB.classSessionTeacher db)
    then (Err (PrismaError UniqueConstraintFailed), db)
    else
      (Ok created,
       setClassSessionTeachers db (DB.classSessionTeacher db ++ [created])
         (DB.classSessionTeacherSeq db + 1)).

(** ** batchSaveChanges *)

Module ChangeType.
Inductive t := move | create | update_room | update_teacher.
End ChangeType.

Module Change.
Record t := mk {
  type : ChangeType.t;
  sessionId : Z;
  blockId : option Z;
  dayOfWeek : option Z;
  roomId : option Z;
  classId : option Z;
  semesterId : option Z;
  homeroomId : option Z;
  teacherId : option Z
}.
End Change.

Module BatchResult.
Record t := mk { type : ChangeType.t; id : Z }.
End BatchResult.

(** The value of an optional field once a [!field] guard has let the
    control through. *)
Definition narrowed (x : option Z) : Z :=
  match x with
  | Some v => v
  | None => 0
  end.

(** [z.number().min(1).max(5).optional()]. *)
Definition dayAccepted (dayOfWeek : option Z) : bool :=
  match dayOfWeek with
  | Some d => (1 <=? d) && (d <=? 5)
  | None => true
  end.

(** [cls.grade ? cls.grade.name : cls.gradeId], inside a template literal. *)
Definition gradeLabel (grade : option Grade.t) (gradeId : option Z) : string :=
  match grade with
  | Some g => Grade.name g
  | None =>
      match gradeId with
      | Some v => numberToString v
      | None => "null"%string
      end
  end.

(** The grade conflict check of the create and move branches: [where_] is
    the clause of the [findFirst], [grade] and [gradeId] those of the class
    being placed. *)
Definition gradeConflictCheck (where_ : DB.t -> ClassSession.t -> bool)
  (grade : option Grade.t) (gradeId : option Z) : Tx unit :=
  (gradeConflict <-
     txRead (fun db =>
               including (classOf db)
                 (findFirst (where_ db) (DB.classSession db))) ;;
   match gradeConflict with
   | Some (_, c) =>
       txThrow CONFLICT
         (gradeConflictMessage (gradeLabel grade gradeId) (Class.name c))
   | None => txRet tt
   end)%tx.

(** One iteration of [for (const change of changes)]: the result is the
    [results] array after it. *)
Definition applyChange (results : list BatchResult.t) (change : Change.t)
  : Tx (list BatchResult.t) :=
  match Change.type change with
  | ChangeType.create =>
      if negb (truthy (Change.classId change))
         || negb (truthy (Change.blockId change))
         || negb (truthy (Change.dayOfWeek change))
         || negb (truthy (Change.roomId change))
         || negb (truthy (Change.semesterId change))
      then txThrow BAD_REQUEST "Missing required fields for create"
      else
        let classId := narrowed (Change.classId change) in
        let blockId := narrowed (Change.blockId change) in
        let dayOfWeek := narrowed (Change.dayOfWeek change) in
        let roomId := narrowed (Change.roomId change) in
        let semesterId := narrowed (Change.semesterId change) in
        (cls <-
           txRead (fun db => Ok (findUnique Class.id classId (DB.class db))) ;;
         match cls with
         | None => txRet results (* Skip invalid *)
         | Some cls =>
             grade <- txRead (fun db => Ok (gradeOf db cls)) ;;
             (* 1. Grade Conflict Check *)
             _ <-
               (if truthy (Class.gradeId cls)
                then
                  gradeConflictCheck
                    (fun db s =>
                       inSlot blockId dayOfWeek semesterId s
                       && classGradeIs db (Class.gradeId cls) s)
                    grade (Class.gradeId cls)
                else txRet tt) ;;
             created <-
               classSession_create classId blockId dayOfWeek roomId semesterId
                 (Change.homeroomId change) ;;
             txRet
               (push results
                  {| BatchResult.type := ChangeType.create;
                     BatchResult.id := ClassSession.id created |})
         end)%tx
  | ChangeType.move =>
      if negb (truthy (Change.blockId change))
         || negb (truthy (Change.dayOfWeek change))
         || negb (truthy (Change.roomId change))
         || negb (truthy (Some (Change.sessionId change)))
      then txThrow BAD_REQUEST "Missing required fields for move"
      else
        let blockId := narrowed (Change.blockId change) in
        let dayOfWeek := narrowed (Change.dayOfWeek change) in
        let roomId := narrowed (Change.roomId change) in
        let sessionId := Change.sessionId change in
        (session <-
           txRead (fun db =>
                     including (classOf db)
                       (findUnique ClassSession.id sessionId
                          (DB.classSession db))) ;;
         match session with
         | None =>
             txThrow NOT_FOUND
               ("Session " ++ numberToString sessionId ++ " not found")
         | Some (session, sessionClass) =>
             grade <- txRead (fun db => Ok (gradeOf db sessionClass)) ;;
             (* 1. Grade Conflict Check *)
             _ <-
               (if truthy (Class.gradeId sessionClass)
                then
                  gradeConflictCheck
                    (fun db s =>
                       notSession sessionId s
                       && inSlot blockId dayOfWeek
                            (ClassSession.semesterId session) s
                       && classGradeIs db (Class.gradeId sessionClass) s)
                    grade (Class.gradeId sessionClass)
                else txRet tt) ;;
             updated <-
               classSession_update sessionId
                 (setSlot blockId dayOfWeek roomId) ;;
             txRet
               (push results
                  {| BatchResult.type := ChangeType.move;
                     BatchResult.id := ClassSession.id updated |})
         end)%tx
  | ChangeType.update_room =>
      if negb (truthy (Change.roomId change))
         || negb (truthy (Some (Change.sessionId change)))
      then txThrow BAD_REQUEST "Missing required fields for update_room"
      else
        let roomId := narrowed (Change.roomId change) in
        (updated <-
           classSession_update (Change.sessionId change) (setRoom roomId) ;;
         txRet
           (push results
              {| BatchResult.type := ChangeType.update_room;
                 BatchResult.id := ClassSession.id updated |}))%tx
  | ChangeType.update_teacher =>
      if negb (truthy (Change.teacherId change))
         || negb (truthy (Some (Change.sessionId change)))
      then txThrow BAD_REQUEST "Missing required fields for update_teacher"
      else
        let teacherId := narrowed (Change.teacherId change) in
        ((* First, remove existing teacher assignments for this session *)
         _ <- classSessionTeacher_deleteMany (Change.sessionId change) ;;
         (* Then add the new teacher assignment *)
         _ <-
           classSessionTeacher_create (Change.sessionId change) teacherId
             "Primary" ;;
         txRet
           (push results
              {| BatchResult.type := ChangeType.update_teacher;
                 BatchResult.id := Change.sessionId change |}))%tx
  end.

(** The callback handed to [$transaction]. *)
Definition batchBody (changes : list Change.t) : Tx (list BatchResult.t) :=
  forOf applyChange changes [].

Definition batchSaveChanges (db : DB.t) (changes : list Change.t)
  : Result (list BatchResult.t) * DB.t :=
  if forallb (fun change => dayAccepted (Change.dayOfWeek change)) changes
  then transaction (batchBody changes) db
  else (Err InputRejected, db).

(** ** Referential integrity

    The schema declares every reference below a FOREIGN KEY, so a store the
    database can hold satisfies [refsOk]. *)

Definition linkRefsOk (db : DB.t) (l : ClassSessionTeacher.t) : bool :=
  hasKey ClassSession.id (ClassSessionTeacher.classSessionId l)
    (DB.classSession db)
  && hasKey Teacher.id (ClassSessionTeacher.teacherId l) (DB.teacher db).

Definition dutyRefsOk (db : DB.t) (d : Duty.t) : bool :=
  hasKey DutyType.id (Duty.dutyTypeId d) (DB.dutyType db)
  && hasKey Room.id (Duty.roomId d) (DB.room db)
  && hasKey Teacher.id (Duty.teacherId d) (DB.teacher db).

Definition refsOk (db : DB.t) : bool :=
  forallb (classSessionRefsOk db) (DB.classSession db)
  && forallb (linkRefsOk db) (DB.classSessionTeacher db)
  && forallb (dutyRefsOk db) (DB.duty db).

(** ** Vocabulary of the statements *)

(** The changes [applyChange] leaves without a result record: a create whose
    class is not in the store goes to the next iteration. *)
Definition skipped (db : DB.t) (change : Change.t) : bool :=
  match Change.type change with
  | ChangeType.create =>
      match findUnique Class.id (narrowed (Change.classId change))
              (DB.class db) with
      | Some _ => false
      | None => true
      end
  | _ => false
  end.

(** The teacher links of a session. *)
Definition linksOf (db : DB.t) (classSessionId : Z)
  : list ClassSessionTeacher.t :=
  findMany (fun l => ClassSessionTeacher.classSessionId l =? classSessionId)
    (DB.classSessionTeacher db).

(** The teacher links of the other sessions. *)
Definition linksElsewhere (db : DB.t) (classSessionId : Z)
  : list ClassSessionTeacher.t :=
  findMany
    (fun l => negb (ClassSessionTeacher.classSessionId l =? classSessionId))
    (DB.classSessionTeacher db).

(** The errors a validation can fail with: the schema refusing the input, a
    [NOT_FOUND] of the router, or the client finding a reference without its
    row. *)
Inductive validationError : Error -> Prop :=
| rejected : validationError InputRejected
| notFound message : validationError (Thrown NOT_FOUND message)
| inconsistent : validationError (PrismaError InconsistentQueryResult).

(** A duty in the (block, day, semester), whoever holds it and wherever. *)
Definition dutyInSlot (blockId dayOfWeek semesterId : Z) (d : Duty.t) : bool :=
  (Duty.blockId d =? blockId)
  && (Duty.dayOfWeek d =? dayOfWeek)
  && (Duty.semesterId d =? semesterId).

(** A change with another value in its [semesterId] field. *)
Definition withSemesterId (semesterId : option Z) (change : Change.t)
  : Change.t :=
  {| Change.type := Change.type change;
     Change.sessionId := Change.sessionId change;
     Change.blockId := Change.blockId change;
     Change.dayOfWeek := Change.dayOfWeek change;
     Change.roomId := Change.roomId change;
     Change.classId := Change.classId change;
     Change.semesterId := semesterId;
     Change.homeroomId := Change.homeroomId change;
     Change.teacherId := Change.teacherId change |}.

(** The entries each check of a validation adds to [conflicts] and
    [warnings], as a function of what its query returned. *)

Definition roomConflictsOf (targetBlock : Block.t) (targetDayOfWeek : Z)
  (roomConflict : option (ClassSession.t * (Class.t * Room.t)))
  : list Conflict.t :=
  match roomConflict with
  | Some (s, (c, r)) =>
      [{| Conflict.type := ConflictType.room;
          Conflict.message :=
            roomBookedMessage (Room.name r) (Class.name c)
              (Block.name targetBlock) targetDayOfWeek;
          Conflict.relatedSessionId := Some (ClassSession.id s) |}]
  | None => []
  end.

Definition roomDutyConflictsOf (targetBlock : Block.t) (targetDayOfWeek : Z)
  (roomDutyConflict : option (Duty.t * (DutyType.t * Room.t * Teacher.t)))
  : list Conflict.t :=
  match roomDutyConflict with
  | Some (_, (dt, r, t)) =>
      [{| Conflict.type := ConflictType.room;
          Conflict.message :=
            roomDutyMessage (Room.name r) (DutyType.typeName dt)
              (Teacher.name t) (Block.name targetBlock) targetDayOfWeek;
          Conflict.relatedSessionId := None |}]
  | None => []
  end.

Definition homeroomConflictsOf (targetBlock : Block.t) (targetDayOfWeek : Z)
  (homeroomConflict : option (ClassSession.t * Class.t)) : list Conflict.t :=
  match homeroomConflict with
  | Some (s, c) =>
      [{| Conflict.type := ConflictType.homeroom;
          Conflict.message :=
            studentsMessage (Class.name c) (Block.name targetBlock)
              targetDayOfWeek;
          Conflict.relatedSessionId := Some (ClassSession.id s) |}]
  | None => []
  end.

Definition duplicateWarningsOf (className : string) (targetDayOfWeek : Z)
  (duplicateCheck : list (ClassSession.t * (Class.t * Block.t)))
  : list Warning.t :=
  if (0 <? List.length duplicateCheck)%nat
  then
    [{| Warning.type := WarningType.duplicate_class;
        Warning.message :=
          duplicateMessage className (List.length duplicateCheck)
            targetDayOfWeek;
        Warning.relatedSessionId := firstId duplicateCheck |}]
  else [].

(** ** A small school

    Semester 1; blocks B1..B3; rooms R1..R3; teachers T1 and T2. Math 10
    (session 1: B1, Monday, R1, taught by T1 with T2 assisting), Math 11
    (session 2: B2, Monday, R2, taught by T1) and Bio 10 (session 3: B2,
    Tuesday, R3, taught by T2) are scheduled, and so is the shared class
    Spanish (session 4: B3, Wednesday, R2, no teacher yet); the shared class
    Art has no session. T2 has a supervision duty in B3 on Friday in R1. *)

Local Open Scope string_scope.

Definition school : DB.t :=
  {| DB.grade := [Grade.mk 1 "Grade 10"; Grade.mk 2 "Grade 11"];
     DB.class :=
       [Class.mk 1 "Math10" (Some 1); Class.mk 2 "Math11" (Some 2);
        Class.mk 3 "Spanish" None; Class.mk 4 "Bio10" (Some 1);
        Class.mk 5 "Art" None];
     DB.block := [Block.mk 1 "B1"; Block.mk 2 "B2"; Block.mk 3 "B3"];
     DB.room := [Room.mk 1 "R1"; Room.mk 2 "R2"; Room.mk 3 "R3"];
     DB.teacher := [Teacher.mk 1 "T1"; Teacher.mk 2 "T2"];
     DB.dutyType := [DutyType.mk 1 "Supervision"];
     DB.semester := [1];
     DB.homeroom := [1];
     DB.classSession :=
       [ClassSession.mk 1 1 1 1 1 1 (Some 1);
        ClassSession.mk 2 2 2 1 2 1 (Some 1);
        ClassSession.mk 3 4 2 2 3 1 None;
        ClassSession.mk 4 3 3 3 2 1 None];
     DB.classSessionTeacher :=
       [ClassSessionTeacher.mk 1 1 1 "Primary";
        ClassSessionTeacher.mk 2 1 2 "Assistant";
        ClassSessionTeacher.mk 3 2 1 "Primary";
        ClassSessionTeacher.mk 4 3 2 "Primary"];
     DB.duty := [Duty.mk 1 2 3 5 1 1 1];
     DB.classSessionSeq := 5;
     DB.classSessionTeacherSeq := 5 |}.

Local Close Scope string_scope.

(** ** The single-session mutations

    [moveClassSession], [removeClassSession], [updateSessionRoom] and
    [createClassSession] run on [ctx.db], outside any transaction: each
    statement of the client is on its own. *)

Module TeacherView.
Record t := mk { id : Z; name : string; role : string }.
End TeacherView.

(** The object [moveClassSession] and [updateSessionRoom] return. *)
Module SessionView.
Record t := mk {
  id : Z;
  classId : Z;
  classCode : string;
  className : string;
  blockId : Z;
  blockName : string;
  dayOfWeek : Z;
  roomId : Z;
  roomName : string;
  semesterId : Z;
  teachers : list TeacherView.t
}.
End SessionView.

(** The object [createClassSession] returns. *)
Module CreatedSessionView.
Record t := mk {
  id : Z;
  classId : Z;
  classCode : string;
  className : string;
  classGradeId : option Z;
  blockId : Z;
  blockName : string;
  dayOfWeek : Z;
  roomId : Z;
  roomName : string;
  semesterId : Z;
  teachers : list TeacherView.t
}.
End CreatedSessionView.

(** [xs[i] ?? fallback]. *)
Definition arrayGetOr (xs : list string) (i : Z) (fallback : string) : string :=
  if i <? 0 then fallback else nth (Z.to_nat i) xs fallback.

(** [include: { class, room, block, teachers: { include: { teacher } } }]. *)
Definition sessionIncludes (db : DB.t) (s : ClassSession.t)
  : Result (Class.t * Room.t * Block.t
            * list (ClassSessionTeacher.t * Teacher.t)) :=
  (c <- classOf db s ;;
   r <- roomOf db s ;;
   b <- blockOf db s ;;
   teachers <-
     includingAll (teacherOf db)
       (findMany
          (fun l => ClassSessionTeacher.classSessionId l =? ClassSession.id s)
          (DB.classSessionTeacher db)) ;;
   Ok (c, r, b, teachers))%result.

(** A write that returns the written row with its [include]s: one operation
    of the client, whose write is not kept when it throws. *)
Definition returning {A} (write : Tx ClassSession.t)
  (inc : DB.t -> ClassSession.t -> Result A) : Tx (ClassSession.t * A) :=
  fun db =>
    match write db with
    | (Ok row, db') =>
        match inc db' row with
        | Ok i => (Ok (row, i), db')
        | Err e => (Err e, db)
        end
    | (Err e, _) => (Err e, db)
    end.

(** [ctx.db.classSession.delete({ where: { id } })]: the teacher links of the
    session go with it ([ON DELETE CASCADE]). *)
Definition classSession_delete (id : Z) : Tx ClassSession.t :=
  fun db =>
    match findUnique ClassSession.id id (DB.classSession db) with
    | None => (Err (PrismaError RecordNotFound), db)
    | Some row =>
        (Ok row,
         setClassSessionTeachers
           (setClassSessions db
              (findMany (notSession id) (DB.classSession db))
              (DB.classSessionSeq db))
           (findMany
              (fun l => negb (ClassSessionTeacher.classSessionId l =? id))
              (DB.classSessionTeacher db))
           (DB.classSessionTeacherSeq db))
    end.

(** [teachers: updated.teachers.map((t) => ({ id: t.teacher.id, name:
    t.teacher.name, role: t.role }))]. *)
Definition teacherViews (teachers : list (ClassSessionTeacher.t * Teacher.t))
  : list TeacherView.t :=
  map
    (fun t =>
       {| TeacherView.id := Teacher.id (snd t);
          TeacherView.name := Teacher.name (snd t);
          TeacherView.role := ClassSessionTeacher.role (fst t) |})
    teachers.

Local Open Scope string_scope.

Definition teacherBusyMessage (teacherName className : string) : string :=
  teacherName ++ " is already teaching " ++ className ++ " at this time.".

Definition teacherHasDutyMessage (teacherName : string) : string :=
  teacherName ++ " has a duty at this time.".

Definition roomBookedForMessage (className : string) : string :=
  "Room is already booked for " ++ className ++ " at this time.".

Definition occupiedMessage (blockName dayName roomName className gradeInfo
  : string) : string :=
  blockName ++ " on " ++ dayName ++ " in " ++ roomName
    ++ " is already occupied by " ++ className ++ gradeInfo.

Definition sharedScheduledMessage (className : string) : string :=
  "Cannot schedule grade-specific class. " ++ className
    ++ " (shared) is already scheduled at this time.".

Definition gradeSpecificScheduledMessage (className : string) : string :=
  "Cannot schedule shared class. " ++ className
    ++ " (grade-specific) is already scheduled at this time.".

Local Close Scope string_scope.

(** The body of the loop over [session.teachers] in [moveClassSession]. *)
Definition moveTeacherStep (db : DB.t)
  (classSessionId targetBlockId targetDayOfWeek semesterId : Z)
  (conflicts : list Conflict.t)
  (teacherAssignment : ClassSessionTeacher.t * Teacher.t)
  : Result (list Conflict.t) :=
  let '(link, linkTeacher) := teacherAssignment in
  (teacherConflict <-
     including
       (fun l => cs <- classSessionOf db l ;; c <- classOf db cs ;; Ok (cs, c))
       (findFirst
          (linkOfTeacherElsewhere db (ClassSessionTeacher.teacherId link)
             classSessionId targetBlockId targetDayOfWeek semesterId)
          (DB.classSessionTeacher db)) ;;
   let conflicts :=
     match teacherConflict with
     | Some (_, (cs, c)) =>
         push conflicts
           {| Conflict.type := ConflictType.teacher;
              Conflict.message :=
                teacherBusyMessage (Teacher.name linkTeacher) (Class.name c);
              Conflict.relatedSessionId := Some (ClassSession.id cs) |}
     | None => conflicts
     end in
   let dutyConflict :=
     findFirst
       (dutyOfTeacherInSlot (ClassSessionTeacher.teacherId link)
          targetBlockId targetDayOfWeek semesterId)
       (DB.duty db) in
   let conflicts :=
     match dutyConflict with
     | Some _ =>
         push conflicts
           {| Conflict.type := ConflictType.teacher;
              Conflict.message :=
                teacherHasDutyMessage (Teacher.name linkTeacher);
              Conflict.relatedSessionId := None |}
     | None => conflicts
     end in
   Ok conflicts)%result.

Module CreateClassSessionInput.
Record t := mk {
  classId : Z;
  blockId : Z;
  dayOfWeek : Z;
  roomId : Z;
  semesterId : Z;
  homeroomId : Z
}.
End CreateClassSessionInput.

(** The body of the loop over [conflictingSessions] in [createClassSession]:
    it throws at the first session that excludes the class. *)
Definition exclusivityThrowStep (gradeId : option Z) (_ : unit)
  (session : ClassSession.t * Class.t) : Result unit :=
  let '(_, sessionClass) := session in
  if negb (isNull gradeId) && isNull (Class.gradeId sessionClass)
  then Err (Thrown CONFLICT (sharedScheduledMessage (Class.name sessionClass)))
  else if isNull gradeId && negb (isNull (Class.gradeId sessionClass))
  then
    Err (Thrown CONFLICT
           (gradeSpecificScheduledMessage (Class.name sessionClass)))
  else Ok tt.

(** [existing.class.grade ? ` (${existing.class.grade.name})` : ""]. *)
Definition gradeInfoOf (grade : option Grade.t) : string :=
  match grade with
  | Some g => (" (" ++ Grade.name g ++ ")")%string
  | None => EmptyString
  end.

Section Mutations.

(** The [code] column of a class, which no check reads: only the returned
    objects carry it. *)
Variable codeOf : Class.t -> string.

Definition sessionView (updated : ClassSession.t)
  (included : Class.t * Room.t * Block.t
              * list (ClassSessionTeacher.t * Teacher.t))
  : SessionView.t :=
  let '(c, r, b, teachers) := included in
  {| SessionView.id := ClassSession.id updated;
     SessionView.classId := ClassSession.classId updated;
     SessionView.classCode := codeOf c;
     SessionView.className := Class.name c;
     SessionView.blockId := ClassSession.blockId updated;
     SessionView.blockName := Block.name b;
     SessionView.dayOfWeek := ClassSession.dayOfWeek updated;
     SessionView.roomId := ClassSession.roomId updated;
     SessionView.roomName := Room.name r;
     SessionView.semesterId := ClassSession.semesterId updated;
     SessionView.teachers := teacherViews teachers |}.

Definition createdSessionView (created : ClassSession.t)
  (included : Class.t * Room.t * Block.t
              * list (ClassSessionTeacher.t * Teacher.t))
  : CreatedSessionView.t :=
  let '(c, r, b, teachers) := included in
  {| CreatedSessionView.id := ClassSession.id created;
     CreatedSessionView.classId := ClassSession.classId created;
     CreatedSessionView.classCode := codeOf c;
     CreatedSessionView.className := Class.name c;
     CreatedSessionView.classGradeId := Class.gradeId c;
     CreatedSessionView.blockId := ClassSession.blockId created;
     CreatedSessionView.blockName := Block.name b;
     CreatedSessionView.dayOfWeek := ClassSession.dayOfWeek created;
     CreatedSessionView.roomId := ClassSession.roomId created;
     CreatedSessionView.roomName := Room.name r;
     CreatedSessionView.semesterId := ClassSession.semesterId created;
     CreatedSessionView.teachers := teacherViews teachers |}.

(** *** moveClassSession *)

Definition moveClassSession (input : ValidateSessionMoveInput.t)
  : Tx SessionView.t :=
  let classSessionId := ValidateSessionMoveInput.classSessionId input in
  let targetBlockId := ValidateSessionMoveInput.targetBlockId input in
  let targetDayOfWeek := ValidateSessionMoveInput.targetDayOfWeek input in
  let targetRoomId := ValidateSessionMoveInput.targetRoomId input in
  let semesterId := ValidateSessionMoveInput.semesterId input in
  (_ <-
     txRead (fun _ =>
               zod ((1 <=? targetDayOfWeek) && (targetDayOfWeek <=? 5))) ;;
   (* Re-validate before making changes *)
   session <-
     txRead (fun db =>
               including (teachersAndClassOf db)
                 (findUnique ClassSession.id classSessionId
                    (DB.classSession db))) ;;
   match session with
   | None => txThrow NOT_FOUND "Class session not found"
   | Some (session, (sessionTeachers, sessionClass)) =>
       targetBlock <-
         txRead (fun db => Ok (findUnique Block.id targetBlockId (DB.block db))) ;;
       match targetBlock with
       | None => txThrow NOT_FOUND "Target block not found"
       | Some targetBlock =>
           (* Collect all conflicts *)
           let conflicts : list Conflict.t := [] in
           (* Check teacher conflicts *)
           conflicts <-
             txRead (fun db =>
                       foldM
                         (moveTeacherStep db classSessionId targetBlockId
                            targetDayOfWeek semesterId)
                         sessionTeachers conflicts) ;;
           (* Check room conflicts *)
           roomConflict <-
             txRead (fun db =>
                       Ok (findFirst
                             (fun s =>
                                notSession classSessionId s
                                && inRoomSlot targetBlockId targetDayOfWeek
                                     targetRoomId semesterId s)
                             (DB.classSession db))) ;;
           let conflicts :=
             match roomConflict with
             | Some s =>
                 push conflicts
                   {| Conflict.type := ConflictType.room;
                      Conflict.message :=
                        "Room is already booked at this time.";
                      Conflict.relatedSessionId :=
                        Some (ClassSession.id s) |}
             | None => conflicts
             end in
           if (0 <? List.length conflicts)%nat
           then
             txThrow CONFLICT
               (String.concat "; " (map Conflict.message conflicts))
           else
             (* Perform the update *)
             updated <-
               returning
                 (classSession_update classSessionId
                    (setSlot targetBlockId targetDayOfWeek targetRoomId))
                 sessionIncludes ;;
             txRet (sessionView (fst updated) (snd updated))
       end
   end)%tx.

(** *** removeClassSession *)

Definition removeClassSession (classSessionId : Z) : Tx bool :=
  (session <-
     txRead (fun db =>
               Ok (findUnique ClassSession.id classSessionId
                     (DB.classSession db))) ;;
   match session with
   | None => txThrow NOT_FOUND "Class session not found"
   | Some _ =>
       _ <- classSession_delete classSessionId ;;
       txRet true
   end)%tx.

(** *** updateSessionRoom *)

Definition updateSessionRoom (classSessionId roomId : Z) : Tx SessionView.t :=
  (session <-
     txRead (fun db =>
               Ok (findUnique ClassSession.id classSessionId
                     (DB.classSession db))) ;;
   match session with
   | None => txThrow NOT_FOUND "Class session not found"
   | Some session =>
       (* Check room availability *)
       roomConflict <-
         txRead (fun db =>
                   including
                     (fun s =>
                        c <- classOf db s ;; r <- roomOf db s ;;
                        Ok (c, r))%result
                     (findFirst
                        (fun s =>
                           notSession classSessionId s
                           && inRoomSlot (ClassSession.blockId session)
                                (ClassSession.dayOfWeek session) roomId
                                (ClassSession.semesterId session) s)
                        (DB.classSession db))) ;;
       match roomConflict with
       | Some (_, (c, _)) =>
           txThrow CONFLICT (roomBookedForMessage (Class.name c))
       | None =>
           updated <-
             returning (classSession_update classSessionId (setRoom roomId))
               sessionIncludes ;;
           txRet (sessionView (fst updated) (snd updated))
       end
   end)%tx.

(** *** createClassSession *)

Definition createClassSession (input : CreateClassSessionInput.t)
  : Tx CreatedSessionView.t :=
  let classId := CreateClassSessionInput.classId input in
  let blockId := CreateClassSessionInput.blockId input in
  let dayOfWeek := CreateClassSessionInput.dayOfWeek input in
  let roomId := CreateClassSessionInput.roomId input in
  let semesterId := CreateClassSessionInput.semesterId input in
  let homeroomId := CreateClassSessionInput.homeroomId input in
  (_ <- txRead (fun _ => zod ((1 <=? dayOfWeek) && (dayOfWeek <=? 5))) ;;
   (* Get the class being scheduled *)
   classToSchedule <-
     txRead (fun db =>
               orThrow (findUnique Class.id classId (DB.class db))
                 NOT_FOUND "Class not found") ;;
   (* Check if a session already exists for this block/day/room/semester *)
   existing <-
     txRead (fun db =>
               including
                 (fun s =>
                    c <- classOf db s ;; b <- blockOf db s ;;
                    r <- roomOf db s ;; Ok (c, gradeOf db c, b, r))%result
                 (findFirst (inRoomSlot blockId dayOfWeek roomId semesterId)
                    (DB.classSession db))) ;;
   match existing with
   | Some (existing, (c, grade, b, r)) =>
       let dayName :=
         arrayGetOr DAY_NAMES (ClassSession.dayOfWeek existing - 1)
           "Unknown Day" in
       txThrow CONFLICT
         (occupiedMessage (Block.name b) dayName (Room.name r) (Class.name c)
            (gradeInfoOf grade))
   | None =>
       (* Check for grade-independent/grade-specific conflicts *)
       conflictingSessions <-
         txRead (fun db =>
                   includingAll (classOf db)
                     (findMany (inSlot blockId dayOfWeek semesterId)
                        (DB.classSession db))) ;;
       _ <-
         txRead (fun _ =>
                   foldM (exclusivityThrowStep (Class.gradeId classToSchedule))
                     conflictingSessions tt) ;;
       (* Create the session *)
       created <-
         returning
           (classSession_create classId blockId dayOfWeek roomId semesterId
              (Some homeroomId))
           sessionIncludes ;;
       txRet (createdSessionView (fst created) (snd created))
   end)%tx.

End Mutations.

(** The input of [validateSessionCreate] that asks about the session a
    [createClassSession] would write. *)
Definition dryRunOf (input : CreateClassSessionInput.t)
  : ValidateSessionCreateInput.t :=
  {| ValidateSessionCreateInput.classId :=
       CreateClassSessionInput.classId input;
     ValidateSessionCreateInput.targetBlockId :=
       CreateClassSessionInput.blockId input;
     ValidateSessionCreateInput.targetDayOfWeek :=
       CreateClassSessionInput.dayOfWeek input;
     ValidateSessionCreateInput.targetRoomId :=
       CreateClassSessionInput.roomId input;
     ValidateSessionCreateInput.semesterId :=
       CreateClassSessionInput.semesterId input |}.

(** The row [createClassSession] asks the store to write. *)
Definition rowOf (db : DB.t) (input : CreateClassSessionInput.t)
  : ClassSession.t :=
  {| ClassSession.id := DB.classSessionSeq db;
     ClassSession.classId := CreateClassSessionInput.classId input;
     ClassSession.blockId := CreateClassSessionInput.blockId input;
     ClassSession.dayOfWeek := CreateClassSessionInput.dayOfWeek input;
     ClassSession.roomId := CreateClassSessionInput.roomId input;
     ClassSession.semesterId := CreateClassSessionInput.semesterId input;
     ClassSession.homeroomId :=
       Some (CreateClassSessionInput.homeroomId input) |}.

(** ** Grades kept apart

    The overlap the grade conflict check of [batchSaveChanges] looks for: two
    sessions in one (block, day, semester) whose classes belong to one grade.
    The check is run for a class whose [gradeId] is truthy. *)

Definition sameGradeOverlap (db : DB.t) (s1 s2 : ClassSession.t) : bool :=
  negb (ClassSession.id s1 =? ClassSession.id s2)
  && inSlot (ClassSession.blockId s1) (ClassSession.dayOfWeek s1)
       (ClassSession.semesterId s1) s2
  && match findUnique Class.id (ClassSession.classId s1) (DB.class db) with
     | Some c =>
         truthy (Class.gradeId c) && classGradeIs db (Class.gradeId c) s2
     | None => false
     end.

Definition gradesApart (db : DB.t) : bool :=
  forallb
    (fun s1 =>
       forallb (fun s2 => negb (sameGradeOverlap db s1 s2))
         (DB.classSession db))
    (DB.classSession db).

(** ** A change of a batch and its dry run *)

(** The row a create of a batch asks the store to write. *)
Definition batchRowOf (db : DB.t) (change : Change.t) : ClassSession.t :=
  {| ClassSession.id := DB.classSessionSeq db;
     ClassSession.classId := narrowed (Change.classId change);
     ClassSession.blockId := narrowed (Change.blockId change);
     ClassSession.dayOfWeek := narrowed (Change.dayOfWeek change);
     ClassSession.roomId := narrowed (Change.roomId change);
     ClassSession.semesterId := narrowed (Change.semesterId change);
     ClassSession.homeroomId := Change.homeroomId change |}.

(** The input of [validateSessionCreate] that asks about a create. *)
Definition dryRunOfCreate (change : Change.t) : ValidateSessionCreateInput.t :=
  {| ValidateSessionCreateInput.classId := narrowed (Change.classId change);
     ValidateSessionCreateInput.targetBlockId :=
       narrowed (Change.blockId change);
     ValidateSessionCreateInput.targetDayOfWeek :=
       narrowed (Change.dayOfWeek change);
     ValidateSessionCreateInput.targetRoomId :=
       narrowed (Change.roomId change);
     ValidateSessionCreateInput.semesterId :=
       narrowed (Change.semesterId change) |}.

(** The input of [validateSessionMove] that asks about a move, in the
    semester [semesterId]. *)
Definition dryRunOfMove (semesterId : Z) (change : Change.t)
  : ValidateSessionMoveInput.t :=
  {| ValidateSessionMoveInput.classSessionId := Change.sessionId change;
     ValidateSessionMoveInput.targetBlockId :=
       narrowed (Change.blockId change);
     ValidateSessionMoveInput.targetDayOfWeek :=
       narrowed (Change.dayOfWeek change);
     ValidateSessionMoveInput.targetRoomId := narrowed (Change.roomId change);
     ValidateSessionMoveInput.semesterId := semesterId |}.

(** ** The results of a batch, read off its changes

    What a batch that commits returns, change by change: no record for a
    create that is passed over, a record with the identifier the store gives
    next for a create, a record with the change's own session identifier for
    the others. [next] is the counter of the class sessions as the batch
    finds it. *)
Fixpoint resultsOf (db : DB.t) (next : Z) (changes : list Change.t)
  : list BatchResult.t :=
  match changes with
  | [] => []
  | change :: changes' =>
      if skipped db change then resultsOf db next changes'
      else
        match Change.type change with
        | ChangeType.create =>
            {| BatchResult.type := ChangeType.create;
               BatchResult.id := next |}
            :: resultsOf db (next + 1) changes'
        | type =>
            {| BatchResult.type := type;
               BatchResult.id := Change.sessionId change |}
            :: resultsOf db next changes'
        end
  end.

(** * The scheduler page

    The state of the page ([scheduler-store.ts]) and the handlers of
    [SchedulerGrid.tsx] that build the pending changes, ask for their dry
    runs and send them to [batchSaveChanges]. *)

(** ** [Map<number, V>] and [Set<number>]

    Both keep the order of insertion; [set] on a key the map holds replaces
    the value where it is. *)

Definition JsMap (V : Type) : Type := list (Z * V).

Fixpoint mapSet {V} (m : JsMap V) (key : Z) (value : V) : JsMap V :=
  match m with
  | [] => [(key, value)]
  | (k, v) :: m' =>
      if k =? key then (key, value) :: m' else (k, v) :: mapSet m' key value
  end.

Definition mapDelete {V} (m : JsMap V) (key : Z) : JsMap V :=
  filter (fun e => negb (fst e =? key)) m.

Definition mapGet {V} (m : JsMap V) (key : Z) : option V :=
  option_map snd (find (fun e => fst e =? key) m).

Definition mapValues {V} (m : JsMap V) : list V := map snd m.

Definition mapSize {V} (m : JsMap V) : Z := Z.of_nat (List.length m).

Definition setAdd (s : list Z) (x : Z) : list Z :=
  if existsb (Z.eqb x) s then s else s ++ [x].

(** [x ?? y]. *)
Definition nullish {A} (x : option A) (y : A) : A :=
  match x with
  | Some v => v
  | None => y
  end.

(** A string tested as a condition: [undefined] and the empty string are
    falsy. *)
Definition truthyString (x : option string) : bool :=
  match x with
  | Some EmptyString => false
  | Some _ => true
  | None => false
  end.

(** An optional string inside a template literal. *)
Definition stringOrUndefined (x : option string) : string :=
  match x with
  | Some s => s
  | None => "undefined"%string
  end.

(** ** scheduler-store.ts *)

Module DragPreview.
Record t := mk {
  sessionId : Z;
  sourceBlockId : Z;
  sourceDayOfWeek : Z;
  targetBlockId : option Z;
  targetDayOfWeek : option Z
}.
End DragPreview.

Module ConflictHighlight.
Record t := mk {
  blockId : Z;
  dayOfWeek : Z;
  type : ConflictType.t;
  message : string
}.
End ConflictHighlight.

(** An optional field that is absent is [None]; [classGradeId] can also be
    present and [null]. *)
Module PendingChange.
Record t := mk {
  sessionId : Z;
  originalBlockId : Z;
  originalDayOfWeek : Z;
  newBlockId : Z;
  newDayOfWeek : Z;
  originalRoomId : option Z;
  newRoomId : option Z;
  originalTeacherId : option Z;
  newTeacherId : option Z;
  homeroomId : option Z;
  isNew : option bool;
  classId : option Z;
  className : option string;
  classCode : option string;
  classGradeId : option (option Z)
}.
End PendingChange.

Module SchedulerState.
Record t := mk {
  selectedSemesterId : option Z;
  selectedHomeroomId : option Z;
  selectedSessionId : option Z;
  gradeViewMode : string;
  isDragging : bool;
  dragPreview : option DragPreview.t;
  conflictHighlights : list ConflictHighlight.t;
  isValidating : bool;
  pendingChanges : JsMap PendingChange.t;
  hasUnsavedChanges : bool
}.
End SchedulerState.

Definition initialState : SchedulerState.t :=
  {| SchedulerState.selectedSemesterId := None;
     SchedulerState.selectedHomeroomId := None;
     SchedulerState.selectedSessionId := None;
     SchedulerState.gradeViewMode := "all";
     SchedulerState.isDragging := false;
     SchedulerState.dragPreview := None;
     SchedulerState.conflictHighlights := [];
     SchedulerState.isValidating := false;
     SchedulerState.pendingChanges := [];
     SchedulerState.hasUnsavedChanges := false |}.

(** Each action is [set] with the fields it gives; the others are kept. *)

Definition setSelectedSemester (semesterId : option Z)
  (state : SchedulerState.t) : SchedulerState.t :=
  {| SchedulerState.selectedSemesterId := semesterId;
     SchedulerState.selectedHomeroomId := None;
     SchedulerState.selectedSessionId := None;
     SchedulerState.gradeViewMode := SchedulerState.gradeViewMode state;
     SchedulerState.isDragging := SchedulerState.isDragging state;
     SchedulerState.dragPreview := SchedulerState.dragPreview state;
     SchedulerState.conflictHighlights :=
       SchedulerState.conflictHighlights state;
     SchedulerState.isValidating := SchedulerState.isValidating state;
     SchedulerState.pendingChanges := SchedulerState.pendingChanges state;
     SchedulerState.hasUnsavedChanges :=
       SchedulerState.hasUnsavedChanges state |}.

Definition setSelectedHomeroom (homeroomId : option Z)
  (state : SchedulerState.t) : SchedulerState.t :=
  {| SchedulerState.selectedSemesterId :=
       SchedulerState.selectedSemesterId state;
     SchedulerState.selectedHomeroomId := homeroomId;
     SchedulerState.selectedSessionId := None;
     SchedulerState.gradeViewMode := SchedulerState.gradeViewMode state;
     SchedulerState.isDragging := SchedulerState.isDragging state;
     SchedulerState.dragPreview := SchedulerState.dragPreview state;
     SchedulerState.conflictHighlights :=
       SchedulerState.conflictHighlights state;
     SchedulerState.isValidating := SchedulerState.isValidating state;
     SchedulerState.pendingChanges := SchedulerState.pendingChanges state;
     SchedulerState.hasUnsavedChanges :=
       SchedulerState.hasUnsavedChanges state |}.

Definition setSelectedSession (sessionId : option Z)
  (state : SchedulerState.t) : SchedulerState.t :=
  {| SchedulerState.selectedSemesterId :=
       SchedulerState.selectedSemesterId state;
     SchedulerState.selectedHomeroomId :=
       SchedulerState.selectedHomeroomId state;
     SchedulerState.selectedSessionId := sessionId;
     SchedulerState.gradeViewMode := SchedulerState.gradeViewMode state;
     SchedulerState.isDragging := SchedulerState.isDragging state;
     SchedulerState.dragPreview := SchedulerState.dragPreview state;
     SchedulerState.conflictHighlights :=
       SchedulerState.conflictHighlights state;
     SchedulerState.isValidating := SchedulerState.isValidating state;
     SchedulerState.pendingChanges := SchedulerState.pendingChanges state;
     SchedulerState.hasUnsavedChanges :=
       SchedulerState.hasUnsavedChanges state |}.

Definition setGradeViewMode (mode : string) (state : SchedulerState.t)
  : SchedulerState.t :=
  {| SchedulerState.selectedSemesterId :=
       SchedulerState.selectedSemesterId state;
     SchedulerState.selectedHomeroomId :=
       SchedulerState.selectedHomeroomId state;
     SchedulerState.selectedSessionId :=
       SchedulerState.selectedSessionId state;
     SchedulerState.gradeViewMode := mode;
     SchedulerState.isDragging := SchedulerState.isDragging state;
     SchedulerState.dragPreview := SchedulerState.dragPreview state;
     SchedulerState.conflictHighlights :=
       SchedulerState.conflictHighlights state;
     SchedulerState.isValidating := SchedulerState.isValidating state;
     SchedulerState.pendingChanges := SchedulerState.pendingChanges state;
     SchedulerState.hasUnsavedChanges :=
       SchedulerState.hasUnsavedChanges state |}.

(** [set({ isDragging, dragPreview, conflictHighlights })] with the fields
    the drag actions give. *)
Definition setDrag (isDragging : bool) (dragPreview : option DragPreview.t)
  (conflictHighlights : list ConflictHighlight.t) (state : SchedulerState.t)
  : SchedulerState.t :=
  {| SchedulerState.selectedSemesterId :=
       SchedulerState.selectedSemesterId state;
     SchedulerState.selectedHomeroomId :=
       SchedulerState.selectedHomeroomId state;
     SchedulerState.selectedSessionId :=
       SchedulerState.selectedSessionId state;
     SchedulerState.gradeViewMode := SchedulerState.gradeViewMode state;
     SchedulerState.isDragging := isDragging;
     SchedulerState.dragPreview := dragPreview;
     SchedulerState.conflictHighlights := conflictHighlights;
     SchedulerState.isValidating := SchedulerState.isValidating state;
     SchedulerState.pendingChanges := SchedulerState.pendingChanges state;
     SchedulerState.hasUnsavedChanges :=
       SchedulerState.hasUnsavedChanges state |}.

Definition startDrag (sessionId sourceBlockId sourceDayOfWeek : Z)
  (state : SchedulerState.t) : SchedulerState.t :=
  setDrag true
    (Some {| DragPreview.sessionId := sessionId;
             DragPreview.sourceBlockId := sourceBlockId;
             DragPreview.sourceDayOfWeek := sourceDayOfWeek;
             DragPreview.targetBlockId := None;
             DragPreview.targetDayOfWeek := None |})
    (SchedulerState.conflictHighlights state) state.

Definition updateDragTarget (blockId dayOfWeek : option Z)
  (state : SchedulerState.t) : SchedulerState.t :=
  setDrag (SchedulerState.isDragging state)
    match SchedulerState.dragPreview state with
    | Some dragPreview =>
        Some {| DragPreview.sessionId := DragPreview.sessionId dragPreview;
                DragPreview.sourceBlockId :=
                  DragPreview.sourceBlockId dragPreview;
                DragPreview.sourceDayOfWeek :=
                  DragPreview.sourceDayOfWeek dragPreview;
                DragPreview.targetBlockId := blockId;
                DragPreview.targetDayOfWeek := dayOfWeek |}
    | None => None
    end
    (SchedulerState.conflictHighlights state) state.

Definition endDrag (state : SchedulerState.t) : SchedulerState.t :=
  setDrag false None [] state.

Definition setConflictHighlights (conflicts : list ConflictHighlight.t)
  (state : SchedulerState.t) : SchedulerState.t :=
  setDrag (SchedulerState.isDragging state) (SchedulerState.dragPreview state)
    conflicts state.

Definition clearConflictHighlights (state : SchedulerState.t)
  : SchedulerState.t :=
  setConflictHighlights [] state.

Definition setIsValidating (isValidating : bool) (state : SchedulerState.t)
  : SchedulerState.t :=
  {| SchedulerState.selectedSemesterId :=
       SchedulerState.selectedSemesterId state;
     SchedulerState.selectedHomeroomId :=
       SchedulerState.selectedHomeroomId state;
     SchedulerState.selectedSessionId :=
       SchedulerState.selectedSessionId state;
     SchedulerState.gradeViewMode := SchedulerState.gradeViewMode state;
     SchedulerState.isDragging := SchedulerState.isDragging state;
     SchedulerState.dragPreview := SchedulerState.dragPreview state;
     SchedulerState.conflictHighlights :=
       SchedulerState.conflictHighlights state;
     SchedulerState.isValidating := isValidating;
     SchedulerState.pendingChanges := SchedulerState.pendingChanges state;
     SchedulerState.hasUnsavedChanges :=
       SchedulerState.hasUnsavedChanges state |}.

(** [set({ pendingChanges, hasUnsavedChanges })]. *)
Definition setPending (pendingChanges : JsMap PendingChange.t)
  (hasUnsavedChanges : bool) (state : SchedulerState.t) : SchedulerState.t :=
  {| SchedulerState.selectedSemesterId :=
       SchedulerState.selectedSemesterId state;
     SchedulerState.selectedHomeroomId :=
       SchedulerState.selectedHomeroomId state;
     SchedulerState.selectedSessionId :=
       SchedulerState.selectedSessionId state;
     SchedulerState.gradeViewMode := SchedulerState.gradeViewMode state;
     SchedulerState.isDragging := SchedulerState.isDragging state;
     SchedulerState.dragPreview := SchedulerState.dragPreview state;
     SchedulerState.conflictHighlights :=
       SchedulerState.conflictHighlights state;
     SchedulerState.isValidating := SchedulerState.isValidating state;
     SchedulerState.pendingChanges := pendingChanges;
     SchedulerState.hasUnsavedChanges := hasUnsavedChanges |}.

Definition addPendingChange (change : PendingChange.t)
  (state : SchedulerState.t) : SchedulerState.t :=
  let newPending :=
    mapSet (SchedulerState.pendingChanges state)
      (PendingChange.sessionId change) change in
  setPending newPending true state.

Definition clearPendingChanges (state : SchedulerState.t) : SchedulerState.t :=
  setPending [] false state.

Definition removePendingChange (sessionId : Z) (state : SchedulerState.t)
  : SchedulerState.t :=
  let newPending := mapDelete (SchedulerState.pendingChanges state) sessionId in
  setPending newPending (0 <? mapSize newPending) state.

Definition getHomeroomsWithPendingChanges (state : SchedulerState.t)
  : list Z :=
  fold_left
    (fun homeroomIds change =>
       match PendingChange.homeroomId change with
       | Some homeroomId => setAdd homeroomIds homeroomId
       | None => homeroomIds
       end)
    (mapValues (SchedulerState.pendingChanges state)) [].

Definition reset (_ : SchedulerState.t) : SchedulerState.t := initialState.

(** The actions of the store, and the state after a sequence of them. *)
Inductive Action :=
| SetSelectedSemester (semesterId : option Z)
| SetSelectedHomeroom (homeroomId : option Z)
| SetSelectedSession (sessionId : option Z)
| SetGradeViewMode (mode : string)
| StartDrag (sessionId sourceBlockId sourceDayOfWeek : Z)
| UpdateDragTarget (blockId dayOfWeek : option Z)
| EndDrag
| SetConflictHighlights (conflicts : list ConflictHighlight.t)
| ClearConflictHighlights
| SetIsValidating (isValidating : bool)
| AddPendingChange (change : PendingChange.t)
| ClearPendingChanges
| RemovePendingChange (sessionId : Z)
| Reset.

Definition dispatch (state : SchedulerState.t) (action : Action)
  : SchedulerState.t :=
  match action with
  | SetSelectedSemester semesterId => setSelectedSemester semesterId state
  | SetSelectedHomeroom homeroomId => setSelectedHomeroom homeroomId state
  | SetSelectedSession sessionId => setSelectedSession sessionId state
  | SetGradeViewMode mode => setGradeViewMode mode state
  | StartDrag sessionId sourceBlockId sourceDayOfWeek =>
      startDrag sessionId sourceBlockId sourceDayOfWeek state
  | UpdateDragTarget blockId dayOfWeek =>
      updateDragTarget blockId dayOfWeek state
  | EndDrag => endDrag state
  | SetConflictHighlights conflicts => setConflictHighlights conflicts state
  | ClearConflictHighlights => clearConflictHighlights state
  | SetIsValidating isValidating => setIsValidating isValidating state
  | AddPendingChange change => addPendingChange change state
  | ClearPendingChanges => clearPendingChanges state
  | RemovePendingChange sessionId => removePendingChange sessionId state
  | Reset => reset state
  end.

Definition stateAfter (actions : list Action) : SchedulerState.t :=
  fold_left dispatch actions initialState.

(** ** SchedulerGrid.tsx *)

(** A session as [getSchedulerData] returns it. *)
Module SessionData := CreatedSessionView.

(** What the handlers read of [schedulerData]. *)
Module SchedulerData.
Record t := mk {
  rooms : list Room.t;
  sessions : list SessionData.t
}.
End SchedulerData.

(** [change.isNew && change.classId]. *)
Definition isNewClass (change : PendingChange.t) : bool :=
  match PendingChange.isNew change with
  | Some true => truthy (PendingChange.classId change)
  | _ => false
  end.

(** [schedulerData.sessions.find((s) => s.id === sessionId)]. *)
Definition loadedSession (schedulerData : SchedulerData.t) (sessionId : Z)
  : option SessionData.t :=
  find (fun s => SessionData.id s =? sessionId)
    (SchedulerData.sessions schedulerData).

(** [change.newRoomId ?? schedulerData.rooms[0]?.id ?? 0]. *)
Definition roomOrFirst (schedulerData : SchedulerData.t)
  (change : PendingChange.t) : Z :=
  nullish (PendingChange.newRoomId change)
    (nullish (option_map Room.id (head (SchedulerData.rooms schedulerData)))
       0).

(** [x !== undefined && x !== y] on optional numbers. *)
Definition definedAndNot (x y : option Z) : bool :=
  match x with
  | Some _ => negb (strictEq x y)
  | None => false
  end.

(** The callback of [pendingArray.flatMap] in [handleSaveChanges]: the
    operations of one pending change. *)
Definition operationsOf (schedulerData : SchedulerData.t)
  (selectedSemesterId : Z) (selectedHomeroomId : option Z)
  (change : PendingChange.t) : list Change.t :=
  let operations : list Change.t := [] in
  if isNewClass change
  then
    push operations
      {| Change.type := ChangeType.create;
         Change.sessionId := -1; (* Ignored *)
         Change.blockId := Some (PendingChange.newBlockId change);
         Change.dayOfWeek := Some (PendingChange.newDayOfWeek change);
         Change.roomId := Some (roomOrFirst schedulerData change);
         Change.classId := Some (narrowed (PendingChange.classId change));
         Change.semesterId := Some selectedSemesterId;
         Change.homeroomId := selectedHomeroomId;
         Change.teacherId := None |}
  else
    let session :=
      loadedSession schedulerData (PendingChange.sessionId change) in
    let currentRoomId :=
      match session with
      | Some session => SessionData.roomId session
      | None => 0
      end in
    (* Move (includes room change if specified) *)
    let operations :=
      if negb (PendingChange.newBlockId change
               =? PendingChange.originalBlockId change)
         || negb (PendingChange.newDayOfWeek change
                  =? PendingChange.originalDayOfWeek change)
      then
        push operations
          {| Change.type := ChangeType.move;
             Change.sessionId := PendingChange.sessionId change;
             Change.blockId := Some (PendingChange.newBlockId change);
             Change.dayOfWeek := Some (PendingChange.newDayOfWeek change);
             Change.roomId :=
               Some (nullish (PendingChange.newRoomId change) currentRoomId);
             Change.classId := None;
             Change.semesterId := None;
             Change.homeroomId := None;
             Change.teacherId := None |}
      (* Room update only (no move) *)
      else if definedAndNot (PendingChange.newRoomId change)
                (PendingChange.originalRoomId change)
      then
        push operations
          {| Change.type := ChangeType.update_room;
             Change.sessionId := PendingChange.sessionId change;
             Change.blockId := None;
             Change.dayOfWeek := None;
             Change.roomId := PendingChange.newRoomId change;
             Change.classId := None;
             Change.semesterId := None;
             Change.homeroomId := None;
             Change.teacherId := None |}
      else operations in
    (* Teacher update (independent of move/room) *)
    let operations :=
      if definedAndNot (PendingChange.newTeacherId change)
           (PendingChange.originalTeacherId change)
      then
        push operations
          {| Change.type := ChangeType.update_teacher;
             Change.sessionId := PendingChange.sessionId change;
             Change.blockId := None;
             Change.dayOfWeek := None;
             Change.roomId := None;
             Change.classId := None;
             Change.semesterId := None;
             Change.homeroomId := None;
             Change.teacherId := PendingChange.newTeacherId change |}
      else operations in
    operations.


(** [handleRoomChange]: the room chosen for a session in the room selector
    becomes a pending change. *)
Definition handleRoomChange (schedulerData : option SchedulerData.t)
  (sessionId newRoomId : Z) (state : SchedulerState.t) : SchedulerState.t :=
  let session :=
    match schedulerData with
    | Some schedulerData => loadedSession schedulerData sessionId
    | None => None
    end in
  match session with
  | Some session =>
      (* Existing session - add/update pending change *)
      addPendingChange
        {| PendingChange.sessionId := SessionData.id session;
           PendingChange.originalBlockId := SessionData.blockId session;
           PendingChange.originalDayOfWeek := SessionData.dayOfWeek session;
           PendingChange.newBlockId := SessionData.blockId session;
           PendingChange.newDayOfWeek := SessionData.dayOfWeek session;
           PendingChange.originalRoomId := Some (SessionData.roomId session);
           PendingChange.newRoomId := Some newRoomId;
           PendingChange.originalTeacherId := None;
           PendingChange.newTeacherId := None;
           PendingChange.homeroomId := SchedulerState.selectedHomeroomId state;
           PendingChange.isNew := None;
           PendingChange.classId := None;
           PendingChange.className := None;
           PendingChange.classCode := None;
           PendingChange.classGradeId := None |}
        state
  | None =>
      (* New session (from class bank) - update the pending change *)
      match mapGet (SchedulerState.pendingChanges state) sessionId with
      | Some existingPendingChange =>
          match PendingChange.isNew existingPendingChange with
          | Some true =>
              addPendingChange
                {| PendingChange.sessionId :=
                     PendingChange.sessionId existingPendingChange;
                   PendingChange.originalBlockId :=
                     PendingChange.originalBlockId existingPendingChange;
                   PendingChange.originalDayOfWeek :=
                     PendingChange.originalDayOfWeek existingPendingChange;
                   PendingChange.newBlockId :=
                     PendingChange.newBlockId existingPendingChange;
                   PendingChange.newDayOfWeek :=
                     PendingChange.newDayOfWeek existingPendingChange;
                   PendingChange.originalRoomId :=
                     PendingChange.originalRoomId existingPendingChange;
                   PendingChange.newRoomId := Some newRoomId;
                   PendingChange.originalTeacherId :=
                     PendingChange.originalTeacherId existingPendingChange;
                   PendingChange.newTeacherId :=
                     PendingChange.newTeacherId existingPendingChange;
                   PendingChange.homeroomId :=
                     PendingChange.homeroomId existingPendingChange;
                   PendingChange.isNew :=
                     PendingChange.isNew existingPendingChange;
                   PendingChange.classId :=
                     PendingChange.classId existingPendingChange;
                   PendingChange.className :=
                     PendingChange.className existingPendingChange;
                   PendingChange.classCode :=
                     PendingChange.classCode existingPendingChange;
                   PendingChange.classGradeId :=
                     PendingChange.classGradeId existingPendingChange |}
                state
          | _ => state
          end
      | None => state
      end
  end.

(** *** handleDragEnd *)

(** [active.data.current]: a session card or an item of the class bank. *)
Inductive ActiveData :=
| SessionItem (sessionId blockId dayOfWeek : Z)
| ClassBankItem (classId : Z) (className classCode : string)
    (gradeId : option Z).

(** The rooms taken in the cell, the pending changes counted: those of the
    loaded sessions where their pending change puts them, and those of the
    new sessions. *)
Definition occupiedRoomIds (schedulerData : SchedulerData.t)
  (pendingChanges : JsMap PendingChange.t) (blockId dayOfWeek : Z) : list Z :=
  let occupiedRoomIds : list Z := [] in
  (* Check existing sessions (considering pending moves) *)
  let occupiedRoomIds :=
    fold_left
      (fun occupiedRoomIds s =>
         let pendingChange := mapGet pendingChanges (SessionData.id s) in
         let effectiveBlockId :=
           match pendingChange with
           | Some pendingChange => PendingChange.newBlockId pendingChange
           | None => SessionData.blockId s
           end in
         let effectiveDay :=
           match pendingChange with
           | Some pendingChange => PendingChange.newDayOfWeek pendingChange
           | None => SessionData.dayOfWeek s
           end in
         let effectiveRoomId :=
           match pendingChange with
           | Some pendingChange =>
               nullish (PendingChange.newRoomId pendingChange)
                 (SessionData.roomId s)
           | None => SessionData.roomId s
           end in
         if (effectiveBlockId =? blockId) && (effectiveDay =? dayOfWeek)
         then setAdd occupiedRoomIds effectiveRoomId
         else occupiedRoomIds)
      (SchedulerData.sessions schedulerData) occupiedRoomIds in
  (* Check new pending sessions *)
  fold_left
    (fun occupiedRoomIds p =>
       if match PendingChange.isNew p with Some true => true | _ => false end
          && (PendingChange.newBlockId p =? blockId)
          && (PendingChange.newDayOfWeek p =? dayOfWeek)
          && truthy (PendingChange.newRoomId p)
       then setAdd occupiedRoomIds (narrowed (PendingChange.newRoomId p))
       else occupiedRoomIds)
    (mapValues pendingChanges) occupiedRoomIds.

(** Find first free room: the first room of the list when none is free. *)
Definition firstFreeRoom (rooms : list Room.t) (occupiedRoomIds : list Z)
  : option Z :=
  let targetRoomId := option_map Room.id (head rooms) in
  match find (fun room => negb (existsb (Z.eqb (Room.id room)) occupiedRoomIds))
          rooms with
  | Some room => Some (Room.id room)
  | None => targetRoomId
  end.

(** [handleDragEnd]: what it does to the store. [over] is the cell the card
    was dropped on, if it was dropped on a cell; [now] is [Date.now()]. *)
Definition handleDragEnd (schedulerData : option SchedulerData.t)
  (draggedSession : option SessionData.t) (now : Z) (over : option (Z * Z))
  (activeData : ActiveData) (state : SchedulerState.t) : SchedulerState.t :=
  let selectedSemesterId := SchedulerState.selectedSemesterId state in
  let selectedHomeroomId := SchedulerState.selectedHomeroomId state in
  let pendingChanges := SchedulerState.pendingChanges state in
  let state :=
    match over, draggedSession, schedulerData with
    | Some (blockId, dayOfWeek), Some draggedSession, Some schedulerData =>
        if truthy selectedSemesterId && truthy selectedHomeroomId
        then
          match activeData with
          | ClassBankItem classId className classCode gradeId =>
              (* Handle class bank item drop (create new session) *)
              let targetRoomId :=
                firstFreeRoom (SchedulerData.rooms schedulerData)
                  (occupiedRoomIds schedulerData pendingChanges blockId
                     dayOfWeek) in
              if truthy targetRoomId
              then
                (* Generate a temporary negative ID for the new session *)
                let tempId := - now in
                addPendingChange
                  {| PendingChange.sessionId := tempId;
                     PendingChange.originalBlockId := 0;
                     PendingChange.originalDayOfWeek := 0;
                     PendingChange.newBlockId := blockId;
                     PendingChange.newDayOfWeek := dayOfWeek;
                     PendingChange.originalRoomId := None;
                     PendingChange.newRoomId := targetRoomId;
                     PendingChange.originalTeacherId := None;
                     PendingChange.newTeacherId := None;
                     PendingChange.homeroomId := selectedHomeroomId;
                     PendingChange.isNew := Some true;
                     PendingChange.classId := Some classId;
                     PendingChange.className := Some className;
                     PendingChange.classCode := Some classCode;
                     PendingChange.classGradeId := Some gradeId |}
                  state
              else state
          | SessionItem _ _ _ =>
              (* Handle existing session move *)
              if negb (blockId =? SessionData.blockId draggedSession)
                 || negb (dayOfWeek =? SessionData.dayOfWeek draggedSession)
              then
                (* Add to pending changes (don't save yet) *)
                addPendingChange
                  {| PendingChange.sessionId := SessionData.id draggedSession;
                     PendingChange.originalBlockId :=
                       SessionData.blockId draggedSession;
                     PendingChange.originalDayOfWeek :=
                       SessionData.dayOfWeek draggedSession;
                     PendingChange.newBlockId := blockId;
                     PendingChange.newDayOfWeek := dayOfWeek;
                     PendingChange.originalRoomId := None;
                     PendingChange.newRoomId := None;
                     PendingChange.originalTeacherId := None;
                     PendingChange.newTeacherId := None;
                     PendingChange.homeroomId := selectedHomeroomId;
                     PendingChange.isNew := None;
                     PendingChange.classId := None;
                     PendingChange.className := None;
                     PendingChange.classCode := None;
                     PendingChange.classGradeId := None |}
                  state
              else state
          end
        else state
    | _, _, _ => state
    end in
  endDrag state.

(** *** validateAllChanges *)

Module ResourceType.
Inductive t := room | teacher.
End ResourceType.

Module ConflictEntry.
Record t := mk {
  sessionId : Z;
  sessionName : string;
  type : ConflictType.t;
  message : string;
  resourceType : option ResourceType.t;
  resourceId : option Z;
  resourceName : option string
}.
End ConflictEntry.

Module WarningEntry.
Record t := mk {
  sessionId : Z;
  sessionName : string;
  type : WarningType.t;
  message : string
}.
End WarningEntry.

(** The query of the loop body for one pending change, if it makes one: a
    change of a session that is not loaded makes none. *)
Definition validationQueryOf (schedulerData : SchedulerData.t)
  (selectedSemesterId : Z) (change : PendingChange.t)
  : option (ValidateSessionCreateInput.t + ValidateSessionMoveInput.t) :=
  if isNewClass change
  then
    Some
      (inl
         {| ValidateSessionCreateInput.classId :=
              narrowed (PendingChange.classId change);
            ValidateSessionCreateInput.targetBlockId :=
              PendingChange.newBlockId change;
            ValidateSessionCreateInput.targetDayOfWeek :=
              PendingChange.newDayOfWeek change;
            ValidateSessionCreateInput.targetRoomId :=
              roomOrFirst schedulerData change;
            ValidateSessionCreateInput.semesterId := selectedSemesterId |})
  else
    match loadedSession schedulerData (PendingChange.sessionId change) with
    | None => None
    | Some session =>
        Some
          (inr
             {| ValidateSessionMoveInput.classSessionId :=
                  PendingChange.sessionId change;
                ValidateSessionMoveInput.targetBlockId :=
                  PendingChange.newBlockId change;
                ValidateSessionMoveInput.targetDayOfWeek :=
                  PendingChange.newDayOfWeek change;
                ValidateSessionMoveInput.targetRoomId :=
                  nullish (PendingChange.newRoomId change)
                    (SessionData.roomId session);
                ValidateSessionMoveInput.semesterId := selectedSemesterId |})
    end.

(** [trpcUtils.scheduler.validateSessionCreate.fetch] and
    [validateSessionMove.fetch], answered by the server over [db]. *)
Definition fetchValidation (db : DB.t)
  (query : ValidateSessionCreateInput.t + ValidateSessionMoveInput.t)
  : Result ValidationResult.t :=
  match query with
  | inl input => validateSessionCreate db input
  | inr input => validateSessionMove db input
  end.

Definition sessionNameOf (schedulerData : SchedulerData.t)
  (change : PendingChange.t) : string :=
  if isNewClass change
  then
    if truthyString (PendingChange.classCode change)
    then
      (stringOrUndefined (PendingChange.classCode change) ++ " - "
       ++ stringOrUndefined (PendingChange.className change))%string
    else
      if truthyString (PendingChange.className change)
      then stringOrUndefined (PendingChange.className change)
      else "New Class"%string
  else
    match loadedSession schedulerData (PendingChange.sessionId change) with
    | Some session =>
        (SessionData.classCode session ++ " - "
         ++ SessionData.className session)%string
    | None => EmptyString
    end.

Definition currentRoomIdOf (schedulerData : SchedulerData.t)
  (change : PendingChange.t) : Z :=
  if isNewClass change
  then roomOrFirst schedulerData change
  else
    match loadedSession schedulerData (PendingChange.sessionId change) with
    | Some session => SessionData.roomId session
    | None => 0
    end.

(** The entry pushed for one conflict of a verdict. *)
Definition conflictEntryOf (schedulerData : SchedulerData.t)
  (change : PendingChange.t) (c : Conflict.t) : ConflictEntry.t :=
  let sessionName := sessionNameOf schedulerData change in
  let currentRoomId := currentRoomIdOf schedulerData change in
  let '(resourceType, resourceId, resourceName) :=
    match Conflict.type c with
    | ConflictType.room =>
        let resourceId :=
          nullish (PendingChange.newRoomId change) currentRoomId in
        (Some ResourceType.room, Some resourceId,
         option_map Room.name
           (find (fun r => Room.id r =? resourceId)
              (SchedulerData.rooms schedulerData)))
    | ConflictType.teacher =>
        if truthy (Conflict.relatedSessionId c)
        then
          (* Try to find teacher from related session *)
          match loadedSession schedulerData
                  (narrowed (Conflict.relatedSessionId c)) with
          | Some relatedSession =>
              match SessionData.teachers relatedSession with
              | t :: _ =>
                  (Some ResourceType.teacher, Some (TeacherView.id t),
                   Some (TeacherView.name t))
              | [] => (Some ResourceType.teacher, None, None)
              end
          | None => (Some ResourceType.teacher, None, None)
          end
        else (None, None, None)
    | _ => (None, None, None)
    end in
  {| ConflictEntry.sessionId := PendingChange.sessionId change;
     ConflictEntry.sessionName := sessionName;
     ConflictEntry.type := Conflict.type c;
     ConflictEntry.message := Conflict.message c;
     ConflictEntry.resourceType := resourceType;
     ConflictEntry.resourceId := resourceId;
     ConflictEntry.resourceName := resourceName |}.

Definition warningEntryOf (schedulerData : SchedulerData.t)
  (change : PendingChange.t) (w : Warning.t) : WarningEntry.t :=
  {| WarningEntry.sessionId := PendingChange.sessionId change;
     WarningEntry.sessionName := sessionNameOf schedulerData change;
     WarningEntry.type := Warning.type w;
     WarningEntry.message := Warning.message w |}.

(** One iteration of [for (const change of pendingChanges.values())]: the
    [conflicts] and [warnings] arrays after it. A query that throws is
    caught and ignored. *)
Definition validateChange (db : DB.t) (schedulerData : SchedulerData.t)
  (selectedSemesterId : option Z)
  (acc : list ConflictEntry.t * list WarningEntry.t)
  (change : PendingChange.t) : list ConflictEntry.t * list WarningEntry.t :=
  let '(conflicts, warnings) := acc in
  if negb (truthy selectedSemesterId) then (conflicts, warnings)
  else
    match validationQueryOf schedulerData (narrowed selectedSemesterId)
            change with
    | None => (conflicts, warnings)
    | Some query =>
        match fetchValidation db query with
        | Ok result =>
            let conflicts :=
              if negb (ValidationResult.valid result)
              then
                conflicts
                ++ map (conflictEntryOf schedulerData change)
                     (ValidationResult.conflicts result)
              else conflicts in
            (* Collect warnings *)
            let warnings :=
              warnings
              ++ map (warningEntryOf schedulerData change)
                   (ValidationResult.warnings result) in
            (conflicts, warnings)
        | Err _ => (conflicts, warnings) (* Ignore validation errors *)
        end
    end.

(** [validateAllChanges]: the values it hands to [setAllConflicts] and
    [setAllWarnings], the server answering over [db] all along. *)
Definition validateAllChanges (db : DB.t)
  (schedulerData : option SchedulerData.t) (state : SchedulerState.t)
  : list ConflictEntry.t * list WarningEntry.t :=
  match schedulerData with
  | Some schedulerData =>
      if mapSize (SchedulerState.pendingChanges state) =? 0 then ([], [])
      else
        fold_left
          (validateChange db schedulerData
             (SchedulerState.selectedSemesterId state))
          (mapValues (SchedulerState.pendingChanges state)) ([], [])
  | None => ([], [])
  end.

(** [hasConflicts], which disables the save button. *)
Definition hasConflicts (allConflicts : list ConflictEntry.t) : bool :=
  (0 <? List.length allConflicts)%nat.


(** * Properties *)

(** ** The error monad *)

Lemma bind_Ok {A B} (m : Result A) (k : A -> Result B) (b : B) :
  bind m k = Ok b -> exists a, m = Ok a /\ k a = Ok b.
Proof.
  destruct m as [a|e]; simpl; intros H; [eauto | discriminate].
Qed.

Lemma zod_Ok (accepted : bool) (u : unit) :
  zod accepted = Ok u -> accepted = true.
Proof. destruct accepted; [reflexivity | discriminate]. Qed.

Lemma orThrow_Ok {A} (row : option A) code message (r : A) :
  orThrow row code message = Ok r -> row = Some r.
Proof. destruct row; simpl; congruence. Qed.

Lemma required_Ok {A} (row : option A) (r : A) :
  required row = Ok r -> row = Some r.
Proof. destruct row; simpl; congruence. Qed.

Lemma including_Ok {A B} (inc : A -> Result B) (row : option A) res :
  including inc row = Ok res ->
  match res with
  | Some (r, i) => row = Some r /\ inc r = Ok i
  | None => row = None
  end.
Proof.
  destruct row as [r|]; simpl.
  - destruct (inc r) as [i|e] eqn:Ei; simpl; [| discriminate].
    intros H; injection H as <-; split; [reflexivity | exact Ei].
  - intros H; injection H as <-. reflexivity.
Qed.

Lemma mapM_Ok {A B} (f : A -> Result B) (xs : list A) (ys : list B) :
  mapM f xs = Ok ys -> Forall2 (fun x y => f x = Ok y) xs ys.
Proof.
  revert ys; induction xs as [|x xs IH]; simpl; intros ys H.
  - injection H as <-. constructor.
  - apply bind_Ok in H; destruct H as (y & Hy & H).
    apply bind_Ok in H; destruct H as (ys' & Hys & H).
    injection H as <-. constructor; auto.
Qed.

Lemma includingAll_Ok {A B} (inc : A -> Result B) (rows : list A) res :
  includingAll inc rows = Ok res ->
  Forall2 (fun r p => fst p = r /\ inc r = Ok (snd p)) rows res.
Proof.
  unfold includingAll; intros H; apply mapM_Ok in H.
  induction H as [|r p rows res Hp _ IH]; constructor; auto.
  apply bind_Ok in Hp; destruct Hp as (i & Hi & Hp).
  injection Hp as <-. auto.
Qed.

Lemma includingAll_fst {A B} (inc : A -> Result B) (rows : list A) res :
  includingAll inc rows = Ok res -> map fst res = rows.
Proof.
  intros H; apply includingAll_Ok in H.
  induction H as [|r p rows res [Hp _] _ IH]; simpl; congruence.
Qed.

Lemma includingAll_length {A B} (inc : A -> Result B) (rows : list A) res :
  includingAll inc rows = Ok res -> List.length res = List.length rows.
Proof.
  intros H; apply includingAll_fst in H.
  rewrite <- H; symmetry; apply length_map.
Qed.

Lemma includingAll_In {A B} (inc : A -> Result B) (rows : list A) res r i :
  includingAll inc rows = Ok res ->
  In (r, i) res -> In r rows /\ inc r = Ok i.
Proof.
  intros H; apply includingAll_Ok in H.
  induction H as [|r' p rows res [Hp Hi] _ IH]; simpl; [tauto |].
  intros [-> | Hin]; simpl in *; subst; auto.
  destruct (IH Hin); auto.
Qed.

Lemma includingAll_complete {A B} (inc : A -> Result B) (rows : list A) res r :
  includingAll inc rows = Ok res ->
  In r rows -> exists i, inc r = Ok i /\ In (r, i) res.
Proof.
  intros H; apply includingAll_Ok in H.
  induction H as [|r' [r'' i] rows res [Hp Hi] _ IH]; simpl; [tauto |].
  simpl in *; subst r''.
  intros [<- | Hin]; [eauto |].
  destruct (IH Hin) as (j & Hj & Hin'); eauto.
Qed.

(** Inverts the binds of a hypothesis [H : m = Ok v], from the outside in. *)
Ltac invert_binds H :=
  repeat
    (cbv beta zeta in H;
     match type of H with
     | bind _ _ = Ok _ =>
         let a := fresh "r" in
         let E := fresh "E" in
         apply bind_Ok in H; destruct H as (a & E & H)
     end).

(** ** Lists *)

Lemma isEmpty_true {A} (xs : list A) : isEmpty xs = true <-> xs = [].
Proof.
  destruct xs; simpl; split; intros H; try reflexivity; discriminate.
Qed.

Lemma In_push {A} (xs : list A) (x y : A) :
  In y (push xs x) <-> In y xs \/ y = x.
Proof.
  unfold push; rewrite in_app_iff; simpl; intuition.
Qed.

Lemma findFirst_Some {A} (where_ : A -> bool) (rows : list A) (r : A) :
  findFirst where_ rows = Some r -> In r rows /\ where_ r = true.
Proof. apply find_some. Qed.

Lemma findFirst_None {A} (where_ : A -> bool) (rows : list A) :
  findFirst where_ rows = None -> forall r, In r rows -> where_ r = false.
Proof. apply find_none. Qed.

Lemma findUnique_Some {A} (key : A -> Z) (k : Z) (rows : list A) (r : A) :
  findUnique key k rows = Some r -> In r rows /\ key r = k.
Proof.
  unfold findUnique; intros H; apply find_some in H.
  destruct H as [Hin Hk]; apply Z.eqb_eq in Hk; auto.
Qed.

Lemma findMany_In {A} (where_ : A -> bool) (rows : list A) (r : A) :
  In r (findMany where_ rows) <-> In r rows /\ where_ r = true.
Proof. apply filter_In. Qed.

(** ** The verdict of both validations is valid exactly when it has no
    conflict *)

Lemma validateSessionCreate_valid db input v :
  validateSessionCreate db input = Ok v ->
  ValidationResult.valid v = isEmpty (ValidationResult.conflicts v).
Proof.
  unfold validateSessionCreate; intros H; invert_binds H.
  injection H as <-; reflexivity.
Qed.

Lemma validateSessionMove_valid db input v :
  validateSessionMove db input = Ok v ->
  ValidationResult.valid v = isEmpty (ValidationResult.conflicts v).
Proof.
  unfold validateSessionMove; intros H; invert_binds H.
  destruct r0 as [[session [sessionTeachers sessionClass]]|];
    [| discriminate].
  simpl in E1; injection E1 as <-.
  invert_binds H.
  injection H as <-; reflexivity.
Qed.

(** ** The loops of the validations *)

Lemma fold_left_gradeExclusivityStep gradeId targetBlock day l acc :
  fold_left (gradeExclusivityStep gradeId targetBlock day) l acc
  = acc ++ flat_map (gradeExclusivityStep gradeId targetBlock day []) l.
Proof.
  revert acc; induction l as [|[cs c] l IH]; intros acc; simpl.
  - symmetry; apply app_nil_r.
  - rewrite IH, app_assoc; f_equal.
    unfold gradeExclusivityStep, push.
    destruct (negb (isNull gradeId) && isNull (Class.gradeId c));
      destruct (isNull gradeId && negb (isNull (Class.gradeId c)));
      simpl; rewrite <- ?app_assoc; simpl; rewrite ?app_nil_r; reflexivity.
Qed.

Lemma teacherStep_acc db sid b d sem blk acc x r :
  teacherStep db sid b d sem blk acc x = Ok r ->
  exists out, teacherStep db sid b d sem blk [] x = Ok out /\ r = acc ++ out.
Proof.
  destruct x as [link t]; unfold teacherStep; intros H; invert_binds H.
  rewrite E, E0; simpl.
  injection H as <-.
  eexists; split; [reflexivity |].
  destruct r0 as [[? [cs c]]|]; destruct r1 as [[? dt]|]; unfold push; simpl;
    rewrite <- ?app_assoc, ?app_nil_r; reflexivity.
Qed.

Lemma foldM_teacherStep db sid b d sem blk l acc r :
  foldM (teacherStep db sid b d sem blk) l acc = Ok r ->
  exists outs,
    Forall2 (fun x out => teacherStep db sid b d sem blk [] x = Ok out) l outs
    /\ r = acc ++ List.concat outs.
Proof.
  revert acc; induction l as [|x l IH]; simpl; intros acc H.
  - injection H as <-. exists []; split; [constructor | symmetry; apply app_nil_r].
  - apply bind_Ok in H; destruct H as (a & Ha & H).
    apply teacherStep_acc in Ha; destruct Ha as (out & Hout & ->).
    apply IH in H; destruct H as (outs & Houts & ->).
    exists (out :: outs); split; [constructor; auto |].
    simpl; rewrite app_assoc; reflexivity.
Qed.

Lemma linkOfTeacherElsewhere_true db teacherId sid b d sem l :
  linkOfTeacherElsewhere db teacherId sid b d sem l = true ->
  ClassSessionTeacher.teacherId l = teacherId
  /\ exists cs,
       findUnique ClassSession.id (ClassSessionTeacher.classSessionId l)
         (DB.classSession db) = Some cs
       /\ notSession sid cs = true /\ inSlot b d sem cs = true.
Proof.
  unfold linkOfTeacherElsewhere; intros H.
  apply andb_prop in H; destruct H as [Ht H].
  apply Z.eqb_eq in Ht; split; [exact Ht |].
  destruct (findUnique ClassSession.id _ _) as [cs|]; [| discriminate].
  apply andb_prop in H; destruct H; eauto.
Qed.

Lemma teacherStep_out db sid b d sem blk link t out :
  teacherStep db sid b d sem blk [] (link, t) = Ok out ->
  exists tc dc,
    including
      (fun l =>
         (cs <- classSessionOf db l ;; c <- classOf db cs ;; Ok (cs, c))%result)
      (findFirst
         (linkOfTeacherElsewhere db (ClassSessionTeacher.teacherId link)
            sid b d sem)
         (DB.classSessionTeacher db)) = Ok tc
    /\ including (dutyTypeOf db)
         (findFirst
            (dutyOfTeacherInSlot (ClassSessionTeacher.teacherId link) b d sem)
            (DB.duty db)) = Ok dc
    /\ out =
       match tc with
       | Some (_, (cs, c)) =>
           [{| Conflict.type := ConflictType.teacher;
               Conflict.message :=
                 teacherTeachingMessage (Teacher.name t) (Class.name c)
                   (Block.name blk) d;
               Conflict.relatedSessionId := Some (ClassSession.id cs) |}]
       | None => []
       end
       ++ match dc with
          | Some (_, dt) =>
              [{| Conflict.type := ConflictType.teacher;
                  Conflict.message :=
                    teacherDutyMessage (Teacher.name t) (DutyType.typeName dt)
                      (Block.name blk) d;
                  Conflict.relatedSessionId := None |}]
          | None => []
          end.
Proof.
  unfold teacherStep; intros H; invert_binds H.
  exists r, r0; repeat split; auto.
  injection H as <-.
  destruct r as [[? [cs c]]|]; destruct r0 as [[? dt]|]; reflexivity.
Qed.

(** Every conflict of a teacher step is a [teacher] conflict, and the session
    it relates to, if any, is another session than the one being moved. *)
Lemma teacherStep_sound db sid b d sem blk x out c :
  teacherStep db sid b d sem blk [] x = Ok out ->
  In c out ->
  Conflict.type c = ConflictType.teacher
  /\ (Conflict.relatedSessionId c = None
      \/ exists cs,
           Conflict.relatedSessionId c = Some (ClassSession.id cs)
           /\ In cs (DB.classSession db)
           /\ notSession sid cs = true /\ inSlot b d sem cs = true).
Proof.
  destruct x as [link t]; intros H Hin.
  apply teacherStep_out in H; destruct H as (tc & dc & Htc & Hdc & ->).
  apply in_app_or in Hin; destruct Hin as [Hin | Hin].
  - destruct tc as [[l [cs cl]]|]; [| destruct Hin].
    destruct Hin as [<- | []]; simpl; split; [reflexivity | right].
    apply including_Ok in Htc; destruct Htc as [Hl Hinc].
    apply findFirst_Some in Hl; destruct Hl as [_ Hl].
    apply linkOfTeacherElsewhere_true in Hl.
    destruct Hl as (_ & cs' & Hcs' & Hnot & Hslot).
    apply bind_Ok in Hinc; destruct Hinc as (cs'' & Hcs'' & Hinc).
    apply bind_Ok in Hinc; destruct Hinc as (c' & _ & Hinc).
    injection Hinc as -> ->.
    apply required_Ok in Hcs''.
    assert (cs' = cs) by congruence; subst cs'.
    exists cs; repeat split; auto.
    apply findUnique_Some in Hcs'; tauto.
  - destruct dc as [[du dt]|]; [| destruct Hin].
    destruct Hin as [<- | []]; simpl; auto.
Qed.

(** ** What a validation that returns has computed *)

Lemma validateSessionCreate_Ok db input v :
  validateSessionCreate db input = Ok v ->
  let classId := ValidateSessionCreateInput.classId input in
  let targetBlockId := ValidateSessionCreateInput.targetBlockId input in
  let targetDayOfWeek := ValidateSessionCreateInput.targetDayOfWeek input in
  let targetRoomId := ValidateSessionCreateInput.targetRoomId input in
  let semesterId := ValidateSessionCreateInput.semesterId input in
  exists classToSchedule targetBlock roomConflict roomDutyConflict
    homeroomConflict conflictingSessions duplicateCheck,
    1 <= targetDayOfWeek <= 5
    /\ findUnique Class.id classId (DB.class db) = Some classToSchedule
    /\ findUnique Block.id targetBlockId (DB.block db) = Some targetBlock
    /\ including
         (fun s => (c <- classOf db s ;; r <- roomOf db s ;; Ok (c, r))%result)
         (findFirst
            (inRoomSlot targetBlockId targetDayOfWeek targetRoomId semesterId)
            (DB.classSession db)) = Ok roomConflict
    /\ including
         (fun d =>
            (dt <- dutyTypeOf db d ;; r <- dutyRoomOf db d ;;
             t <- dutyTeacherOf db d ;; Ok (dt, r, t))%result)
         (findFirst
            (dutyInRoomSlot targetBlockId targetDayOfWeek targetRoomId
               semesterId)
            (DB.duty db)) = Ok roomDutyConflict
    /\ (if truthy (Class.gradeId classToSchedule)
        then
          including (classOf db)
            (findFirst
               (fun s =>
                  inSlot targetBlockId targetDayOfWeek semesterId s
                  && classGradeIs db (Class.gradeId classToSchedule) s)
               (DB.classSession db)) = Ok homeroomConflict
        else homeroomConflict = None)
    /\ includingAll (classOf db)
         (findMany (inSlot targetBlockId targetDayOfWeek semesterId)
            (DB.classSession db)) = Ok conflictingSessions
    /\ includingAll
         (fun s => (c <- classOf db s ;; b <- blockOf db s ;; Ok (c, b))%result)
         (findMany (sameClassSameDay targetDayOfWeek semesterId classId)
            (DB.classSession db)) = Ok duplicateCheck
    /\ ValidationResult.conflicts v =
         roomConflictsOf targetBlock targetDayOfWeek roomConflict
         ++ roomDutyConflictsOf targetBlock targetDayOfWeek roomDutyConflict
         ++ homeroomConflictsOf targetBlock targetDayOfWeek homeroomConflict
         ++ flat_map
              (gradeExclusivityStep (Class.gradeId classToSchedule)
                 targetBlock targetDayOfWeek [])
              conflictingSessions
    /\ ValidationResult.warnings v =
         duplicateWarningsOf (Class.name classToSchedule) targetDayOfWeek
           duplicateCheck.
Proof.
  unfold validateSessionCreate; intros H; invert_binds H.
  apply zod_Ok, andb_prop in E; destruct E as [Hlo Hhi].
  apply Z.leb_le in Hlo, Hhi.
  apply orThrow_Ok in E0, E1.
  injection H as <-; simpl.
  assert (Hhome :
    exists hc,
      (if truthy (Class.gradeId r0)
       then
         including (classOf db)
           (findFirst
              (fun s =>
                 inSlot (ValidateSessionCreateInput.targetBlockId input)
                   (ValidateSessionCreateInput.targetDayOfWeek input)
                   (ValidateSessionCreateInput.semesterId input) s
                 && classGradeIs db (Class.gradeId r0) s)
              (DB.classSession db)) = Ok hc
       else hc = None)
      /\ r4 =
         roomConflictsOf r1 (ValidateSessionCreateInput.targetDayOfWeek input)
           r2
         ++ roomDutyConflictsOf r1
              (ValidateSessionCreateInput.targetDayOfWeek input) r3
         ++ homeroomConflictsOf r1
              (ValidateSessionCreateInput.targetDayOfWeek input) hc).
  { destruct (truthy (Class.gradeId r0)).
    - apply bind_Ok in E4; destruct E4 as (hc & Hhc & E4).
      exists hc; split; [exact Hhc |].
      injection E4 as <-.
      destruct r2 as [[? [? ?]]|]; destruct r3 as [[? [[? ?] ?]]|];
        destruct hc as [[? ?]|]; reflexivity.
    - exists None; split; [reflexivity |].
      injection E4 as <-.
      destruct r2 as [[? [? ?]]|]; destruct r3 as [[? [[? ?] ?]]|];
        reflexivity. }
  destruct Hhome as (hc & Hhc & ->).
  exists r0, r1, r2, r3, hc, r5, r6.
  repeat (split; [assumption || lia |]).
  split; [| reflexivity].
  rewrite fold_left_gradeExclusivityStep, <- !app_assoc; reflexivity.
Qed.

Lemma validateSessionMove_Ok db input v :
  validateSessionMove db input = Ok v ->
  let classSessionId := ValidateSessionMoveInput.classSessionId input in
  let targetBlockId := ValidateSessionMoveInput.targetBlockId input in
  let targetDayOfWeek := ValidateSessionMoveInput.targetDayOfWeek input in
  let targetRoomId := ValidateSessionMoveInput.targetRoomId input in
  let semesterId := ValidateSessionMoveInput.semesterId input in
  exists session sessionTeachers sessionClass targetBlock teacherConflicts
    roomConflict roomDutyConflict homeroomConflict conflictingSessions
    duplicateCheck,
    1 <= targetDayOfWeek <= 5
    /\ findUnique ClassSession.id classSessionId (DB.classSession db)
       = Some session
    /\ teachersAndClassOf db session = Ok (sessionTeachers, sessionClass)
    /\ findUnique Block.id targetBlockId (DB.block db) = Some targetBlock
    /\ Forall2
         (fun teacherAssignment out =>
            teacherStep db classSessionId targetBlockId targetDayOfWeek
              semesterId targetBlock [] teacherAssignment = Ok out)
         sessionTeachers teacherConflicts
    /\ including
         (fun s => (c <- classOf db s ;; r <- roomOf db s ;; Ok (c, r))%result)
         (findFirst
            (fun s =>
               notSession classSessionId s
               && inRoomSlot targetBlockId targetDayOfWeek targetRoomId
                    semesterId s)
            (DB.classSession db)) = Ok roomConflict
    /\ including
         (fun d =>
            (dt <- dutyTypeOf db d ;; r <- dutyRoomOf db d ;;
             t <- dutyTeacherOf db d ;; Ok (dt, r, t))%result)
         (findFirst
            (dutyInRoomSlot targetBlockId targetDayOfWeek targetRoomId
               semesterId)
            (DB.duty db)) = Ok roomDutyConflict
    /\ (if truthy (Class.gradeId sessionClass)
        then
          including (classOf db)
            (findFirst
               (fun s =>
                  notSession classSessionId s
                  && inSlot targetBlockId targetDayOfWeek semesterId s
                  && classGradeIs db (Class.gradeId sessionClass) s)
               (DB.classSession db)) = Ok homeroomConflict
        else homeroomConflict = None)
    /\ includingAll (classOf db)
         (findMany
            (fun s =>
               notSession classSessionId s
               && inSlot targetBlockId targetDayOfWeek semesterId s)
            (DB.classSession db)) = Ok conflictingSessions
    /\ includingAll
         (fun s => (c <- classOf db s ;; b <- blockOf db s ;; Ok (c, b))%result)
         (findMany
            (fun s =>
               notSession classSessionId s
               && sameClassSameDay targetDayOfWeek semesterId
                    (ClassSession.classId session) s)
            (DB.classSession db)) = Ok duplicateCheck
    /\ ValidationResult.conflicts v =
         List.concat teacherConflicts
         ++ roomConflictsOf targetBlock targetDayOfWeek roomConflict
         ++ roomDutyConflictsOf targetBlock targetDayOfWeek roomDutyConflict
         ++ homeroomConflictsOf targetBlock targetDayOfWeek homeroomConflict
         ++ flat_map
              (gradeExclusivityStep (Class.gradeId sessionClass) targetBlock
                 targetDayOfWeek [])
              conflictingSessions
    /\ ValidationResult.warnings v =
         duplicateWarningsOf (Class.name sessionClass) targetDayOfWeek
           duplicateCheck.
Proof.
  unfold validateSessionMove; intros H; invert_binds H.
  destruct r0 as [[session [sessionTeachers sessionClass]]|];
    [| discriminate].
  simpl in E1; injection E1 as <-.
  invert_binds H.
  apply zod_Ok, andb_prop in E; destruct E as [Hlo Hhi].
  apply Z.leb_le in Hlo, Hhi.
  apply including_Ok in E0; destruct E0 as [Hsession Hinc].
  apply orThrow_Ok in E1.
  apply foldM_teacherStep in E2; destruct E2 as (outs & Houts & ->).
  simpl in Houts.
  injection H as <-; simpl.
  assert (Hhome :
    exists hc,
      (if truthy (Class.gradeId sessionClass)
       then
         including (classOf db)
           (findFirst
              (fun s =>
                 notSession (ValidateSessionMoveInput.classSessionId input) s
                 && inSlot (ValidateSessionMoveInput.targetBlockId input)
                      (ValidateSessionMoveInput.targetDayOfWeek input)
                      (ValidateSessionMoveInput.semesterId input) s
                 && classGradeIs db (Class.gradeId sessionClass) s)
              (DB.classSession db)) = Ok hc
       else hc = None)
      /\ r4 =
         List.concat outs
         ++ roomConflictsOf r0
              (ValidateSessionMoveInput.targetDayOfWeek input) r2
         ++ roomDutyConflictsOf r0
              (ValidateSessionMoveInput.targetDayOfWeek input) r3
         ++ homeroomConflictsOf r0
              (ValidateSessionMoveInput.targetDayOfWeek input) hc).
  { destruct (truthy (Class.gradeId sessionClass)).
    - apply bind_Ok in E5; destruct E5 as (hc & Hhc & E5).
      exists hc; split; [exact Hhc |].
      injection E5 as <-.
      destruct r2 as [[? [? ?]]|]; destruct r3 as [[? [[? ?] ?]]|];
        destruct hc as [[? ?]|]; unfold push; simpl;
        rewrite <- ?app_assoc, ?app_nil_r; reflexivity.
    - exists None; split; [reflexivity |].
      injection E5 as <-.
      destruct r2 as [[? [? ?]]|]; destruct r3 as [[? [[? ?] ?]]|];
        unfold push; simpl; rewrite <- ?app_assoc, ?app_nil_r; reflexivity. }
  destruct Hhome as (hc & Hhc & ->).
  exists session, sessionTeachers, sessionClass, r0, outs, r2, r3, hc, r5, r6.
  repeat (split; [assumption || lia |]).
  split; [| reflexivity].
  rewrite fold_left_gradeExclusivityStep, <- !app_assoc; reflexivity.
Qed.

(** ** The verdicts *)

Lemma gradeExclusivityStep_In gradeId targetBlock day cs csClass c :
  In c (gradeExclusivityStep gradeId targetBlock day [] (cs, csClass)) <->
  (isNull gradeId = false /\ isNull (Class.gradeId csClass) = true
   /\ c = {| Conflict.type := ConflictType.homeroom;
             Conflict.message :=
               sharedPresentMessage (Class.name csClass)
                 (Block.name targetBlock) day;
             Conflict.relatedSessionId := Some (ClassSession.id cs) |})
  \/ (isNull gradeId = true /\ isNull (Class.gradeId csClass) = false
      /\ c = {| Conflict.type := ConflictType.homeroom;
                Conflict.message :=
                  gradeSpecificPresentMessage (Class.name csClass)
                    (Block.name targetBlock) day;
                Conflict.relatedSessionId := Some (ClassSession.id cs) |}).
Proof.
  unfold gradeExclusivityStep, push.
  destruct (isNull gradeId); destruct (isNull (Class.gradeId csClass));
    simpl; intuition (try discriminate; auto).
Qed.

Lemma In_roomConflictsOf targetBlock day roomConflict c :
  In c (roomConflictsOf targetBlock day roomConflict) ->
  Conflict.type c = ConflictType.room
  /\ exists s cr,
       roomConflict = Some (s, cr)
       /\ Conflict.relatedSessionId c = Some (ClassSession.id s).
Proof.
  destruct roomConflict as [[s [cl r]]|]; simpl; [| tauto].
  intros [<- | []]; simpl; eauto.
Qed.

Lemma In_roomDutyConflictsOf targetBlock day roomDutyConflict c :
  In c (roomDutyConflictsOf targetBlock day roomDutyConflict) ->
  Conflict.type c = ConflictType.room /\ Conflict.relatedSessionId c = None.
Proof.
  destruct roomDutyConflict as [[du [[dt r] t]]|]; simpl; [| tauto].
  intros [<- | []]; simpl; auto.
Qed.

Lemma In_homeroomConflictsOf targetBlock day homeroomConflict c :
  In c (homeroomConflictsOf targetBlock day homeroomConflict) ->
  Conflict.type c = ConflictType.homeroom
  /\ exists s cl,
       homeroomConflict = Some (s, cl)
       /\ Conflict.relatedSessionId c = Some (ClassSession.id s).
Proof.
  destruct homeroomConflict as [[s cl]|]; simpl; [| tauto].
  intros [<- | []]; simpl; eauto.
Qed.

Lemma In_teacherConflicts db sid b d sem blk teachers outs c :
  Forall2
    (fun x out => teacherStep db sid b d sem blk [] x = Ok out)
    teachers outs ->
  In c (List.concat outs) ->
  Conflict.type c = ConflictType.teacher
  /\ (Conflict.relatedSessionId c = None
      \/ exists cs,
           Conflict.relatedSessionId c = Some (ClassSession.id cs)
           /\ In cs (DB.classSession db)
           /\ notSession sid cs = true /\ inSlot b d sem cs = true).
Proof.
  intros H; induction H as [|x out teachers outs Hx _ IH]; simpl; [tauto |].
  intros Hin; apply in_app_or in Hin; destruct Hin as [Hin | Hin]; auto.
  eapply teacherStep_sound; eauto.
Qed.

Lemma notSession_true sid s :
  notSession sid s = true <-> ClassSession.id s <> sid.
Proof.
  unfold notSession; rewrite negb_true_iff, Z.eqb_neq; tauto.
Qed.

(** C7. For every verdict returned by [validateSessionCreate] or
    [validateSessionMove], [valid] is true if and only if [conflicts] is
    empty; [valid] is a function of [conflicts] alone, so the warnings have
    no effect on it. *)
Theorem verdict_valid_iff_no_conflicts (db : DB.t) (v : ValidationResult.t) :
  (exists input, validateSessionCreate db input = Ok v)
  \/ (exists input, validateSessionMove db input = Ok v) ->
  (ValidationResult.valid v = true <-> ValidationResult.conflicts v = [])
  /\ ValidationResult.valid v = isEmpty (ValidationResult.conflicts v).
Proof.
  intros H.
  assert (Hv : ValidationResult.valid v
               = isEmpty (ValidationResult.conflicts v)).
  { destruct H as [[input H] | [input H]].
    - eapply validateSessionCreate_valid; eauto.
    - eapply validateSessionMove_valid; eauto. }
  split; [| exact Hv].
  rewrite Hv; apply isEmpty_true.
Qed.

Lemma verdict_valid_iff_no_conflicts_witness :
  exists v,
    validateSessionMove school (ValidateSessionMoveInput.mk 2 1 1 2 1) = Ok v
    /\ ValidationResult.valid v = false
    /\ ValidationResult.warnings v = []
    /\ (ValidationResult.valid v = true <-> ValidationResult.conflicts v = []).
Proof.
  eexists; split; [cbv; reflexivity |].
  split; [reflexivity |]. split; [reflexivity |].
  apply (verdict_valid_iff_no_conflicts school).
  right; exists (ValidateSessionMoveInput.mk 2 1 1 2 1); reflexivity.
Defined.

(** C5. Validating a move of session S never reports a conflict or a warning
    whose related session is S itself, whatever the target slot, S's own
    current slot included: every scan that names a session excludes S. *)
Theorem move_never_collides_with_itself (db : DB.t)
  (input : ValidateSessionMoveInput.t) (v : ValidationResult.t) :
  validateSessionMove db input = Ok v ->
  (forall c, In c (ValidationResult.conflicts v) ->
     Conflict.relatedSessionId c
     <> Some (ValidateSessionMoveInput.classSessionId input))
  /\ (forall w, In w (ValidationResult.warnings v) ->
        Warning.relatedSessionId w
        <> Some (ValidateSessionMoveInput.classSessionId input)).
Proof.
  intros H; apply validateSessionMove_Ok in H; cbv zeta in H.
  destruct H as (session & teachers & cls & blk & outs & rc & dc & hc & confl
                 & dups & _ & _ & _ & _ & Houts & Hrc & _ & Hhc & Hconfl
                 & Hdups & -> & ->).
  set (sid := ValidateSessionMoveInput.classSessionId input) in *.
  split.
  - intros c Hin Hrel.
    repeat (apply in_app_or in Hin; destruct Hin as [Hin | Hin]).
    + eapply In_teacherConflicts in Hin; eauto.
      destruct Hin as [_ [Hnone | (cs & Hcs & _ & Hnot & _)]]; [congruence |].
      apply notSession_true in Hnot; congruence.
    + apply In_roomConflictsOf in Hin.
      destruct Hin as (_ & s & cr & -> & Hs).
      apply including_Ok in Hrc; destruct Hrc as [Hrc _].
      apply findFirst_Some in Hrc; destruct Hrc as [_ Hrc].
      apply andb_prop in Hrc; destruct Hrc as [Hnot _].
      apply notSession_true in Hnot; congruence.
    + apply In_roomDutyConflictsOf in Hin; destruct Hin; congruence.
    + apply In_homeroomConflictsOf in Hin.
      destruct Hin as (_ & s & cl & -> & Hs).
      destruct (truthy (Class.gradeId cls)); [| discriminate].
      apply including_Ok in Hhc; destruct Hhc as [Hhc _].
      apply findFirst_Some in Hhc; destruct Hhc as [_ Hhc].
      apply andb_prop in Hhc; destruct Hhc as [Hhc _].
      apply andb_prop in Hhc; destruct Hhc as [Hnot _].
      apply notSession_true in Hnot; congruence.
    + apply in_flat_map in Hin; destruct Hin as ([cs cl] & Hcs & Hin).
      eapply includingAll_In in Hcs; eauto; destruct Hcs as [Hcs _].
      apply findMany_In in Hcs; destruct Hcs as [_ Hcs].
      apply andb_prop in Hcs; destruct Hcs as [Hnot _].
      apply notSession_true in Hnot.
      apply gradeExclusivityStep_In in Hin.
      destruct Hin as [(_ & _ & ->) | (_ & _ & ->)]; simpl in Hrel;
        congruence.
  - intros w Hin Hrel.
    unfold duplicateWarningsOf in Hin.
    destruct (0 <? List.length dups)%nat; [| destruct Hin].
    destruct Hin as [<- | []]; simpl in Hrel.
    destruct dups as [|[s incl] dups]; [discriminate |].
    simpl in Hrel.
    eapply includingAll_In in Hdups; [| left; reflexivity].
    destruct Hdups as [Hs _].
    apply findMany_In in Hs; destruct Hs as [_ Hs].
    apply andb_prop in Hs; destruct Hs as [Hnot _].
    apply notSession_true in Hnot; congruence.
Qed.

Lemma move_never_collides_with_itself_witness :
  exists v,
    validateSessionMove school (ValidateSessionMoveInput.mk 1 1 1 1 1) = Ok v
    /\ (forall c, In c (ValidationResult.conflicts v) ->
          Conflict.relatedSessionId c <> Some 1)
    /\ (forall w, In w (ValidationResult.warnings v) ->
          Warning.relatedSessionId w <> Some 1).
Proof.
  eexists; split; [cbv; reflexivity |].
  apply (move_never_collides_with_itself school
           (ValidateSessionMoveInput.mk 1 1 1 1 1)).
  cbv; reflexivity.
Defined.

Lemma classOf_Ok db s c :
  classOf db s = Ok c <->
  findUnique Class.id (ClassSession.classId s) (DB.class db) = Some c.
Proof.
  unfold classOf; split; [apply required_Ok | intros ->; reflexivity].
Qed.

Lemma isNull_true (x : option Z) : isNull x = true <-> x = None.
Proof. destruct x; simpl; split; congruence. Qed.

Lemma isNull_false (x : option Z) : isNull x = false <-> x <> None.
Proof. destruct x; simpl; split; congruence. Qed.

(** What the loop over [conflictingSessions] adds, given the rows its query
    returned. *)
Lemma exclusivity_complete db where_ confl gradeId targetBlock day s c :
  includingAll (classOf db) (findMany where_ (DB.classSession db)) = Ok confl ->
  In s (DB.classSession db) ->
  where_ s = true ->
  findUnique Class.id (ClassSession.classId s) (DB.class db) = Some c ->
  (gradeId = None -> Class.gradeId c <> None ->
   In {| Conflict.type := ConflictType.homeroom;
         Conflict.message :=
           gradeSpecificPresentMessage (Class.name c) (Block.name targetBlock)
             day;
         Conflict.relatedSessionId := Some (ClassSession.id s) |}
      (flat_map (gradeExclusivityStep gradeId targetBlock day []) confl))
  /\ (gradeId <> None -> Class.gradeId c = None ->
      In {| Conflict.type := ConflictType.homeroom;
            Conflict.message :=
              sharedPresentMessage (Class.name c) (Block.name targetBlock) day;
            Conflict.relatedSessionId := Some (ClassSession.id s) |}
         (flat_map (gradeExclusivityStep gradeId targetBlock day []) confl)).
Proof.
  intros Hconfl Hs Hw Hc.
  assert (Hin : In (s, c) confl).
  { eapply includingAll_complete in Hconfl;
      [| apply findMany_In; split; eassumption].
    destruct Hconfl as (i & Hi & Hin).
    apply classOf_Ok in Hi; congruence. }
  split; intros Hg Hcg; apply in_flat_map; exists (s, c); split; auto;
    apply gradeExclusivityStep_In.
  - right; repeat split; auto; [apply isNull_true | apply isNull_false]; auto.
  - left; repeat split; auto; [apply isNull_false | apply isNull_true]; auto.
Qed.

Lemma exclusivity_silent db where_ confl targetBlock day :
  includingAll (classOf db) (findMany where_ (DB.classSession db)) = Ok confl ->
  (forall s c,
     In s (DB.classSession db) -> where_ s = true ->
     findUnique Class.id (ClassSession.classId s) (DB.class db) = Some c ->
     Class.gradeId c = None) ->
  flat_map (gradeExclusivityStep None targetBlock day []) confl = [].
Proof.
  intros Hconfl Hall.
  assert (Hnone : forall x, In x confl -> Class.gradeId (snd x) = None).
  { intros [s c] Hin; simpl.
    eapply includingAll_In in Hin; eauto; destruct Hin as [Hs Hc].
    apply findMany_In in Hs; destruct Hs as [Hs Hw].
    apply classOf_Ok in Hc; eauto. }
  clear Hconfl; induction confl as [|[s c] confl IH]; simpl; [reflexivity |].
  rewrite IH by (intros x Hx; apply Hnone; right; exact Hx).
  specialize (Hnone (s, c) (or_introl eq_refl)); simpl in Hnone.
  unfold gradeExclusivityStep; rewrite Hnone; reflexivity.
Qed.

(** C6. In both validations, for every session present in the target (block,
    day, semester), whatever its room: when the class being placed is shared
    and the session's class is grade-specific, or the class being placed is
    grade-specific and the session's class is shared, the verdict holds a
    [homeroom] conflict related to that very session; and when the class
    being placed is shared and every session present there is of a shared
    class, the verdict holds no [homeroom] conflict at all. A move leaves the
    moved session itself out of the sessions present. *)
Theorem shared_and_grade_specific_exclude_each_other (db : DB.t) :
  (forall input v classToSchedule targetBlock,
     validateSessionCreate db input = Ok v ->
     findUnique Class.id (ValidateSessionCreateInput.classId input)
       (DB.class db) = Some classToSchedule ->
     findUnique Block.id (ValidateSessionCreateInput.targetBlockId input)
       (DB.block db) = Some targetBlock ->
     let present s :=
       inSlot (ValidateSessionCreateInput.targetBlockId input)
         (ValidateSessionCreateInput.targetDayOfWeek input)
         (ValidateSessionCreateInput.semesterId input) s in
     (forall s c,
        In s (DB.classSession db) -> present s = true ->
        findUnique Class.id (ClassSession.classId s) (DB.class db) = Some c ->
        (Class.gradeId classToSchedule = None -> Class.gradeId c <> None ->
         In {| Conflict.type := ConflictType.homeroom;
               Conflict.message :=
                 gradeSpecificPresentMessage (Class.name c)
                   (Block.name targetBlock)
                   (ValidateSessionCreateInput.targetDayOfWeek input);
               Conflict.relatedSessionId := Some (ClassSession.id s) |}
            (ValidationResult.conflicts v))
        /\ (Class.gradeId classToSchedule <> None -> Class.gradeId c = None ->
            In {| Conflict.type := ConflictType.homeroom;
                  Conflict.message :=
                    sharedPresentMessage (Class.name c)
                      (Block.name targetBlock)
                      (ValidateSessionCreateInput.targetDayOfWeek input);
                  Conflict.relatedSessionId := Some (ClassSession.id s) |}
               (ValidationResult.conflicts v)))
     /\ (Class.gradeId classToSchedule = None ->
         (forall s c,
            In s (DB.classSession db) -> present s = true ->
            findUnique Class.id (ClassSession.classId s) (DB.class db)
            = Some c ->
            Class.gradeId c = None) ->
         forall c, In c (ValidationResult.conflicts v) ->
                   Conflict.type c <> ConflictType.homeroom))
  /\ (forall input v session sessionClass targetBlock,
        validateSessionMove db input = Ok v ->
        findUnique ClassSession.id
          (ValidateSessionMoveInput.classSessionId input)
          (DB.classSession db) = Some session ->
        findUnique Class.id (ClassSession.classId session) (DB.class db)
        = Some sessionClass ->
        findUnique Block.id (ValidateSessionMoveInput.targetBlockId input)
          (DB.block db) = Some targetBlock ->
        let present s :=
          notSession (ValidateSessionMoveInput.classSessionId input) s
          && inSlot (ValidateSessionMoveInput.targetBlockId input)
               (ValidateSessionMoveInput.targetDayOfWeek input)
               (ValidateSessionMoveInput.semesterId input) s in
        (forall s c,
           In s (DB.classSession db) -> present s = true ->
           findUnique Class.id (ClassSession.classId s) (DB.class db)
           = Some c ->
           (Class.gradeId sessionClass = None -> Class.gradeId c <> None ->
            In {| Conflict.type := ConflictType.homeroom;
                  Conflict.message :=
                    gradeSpecificPresentMessage (Class.name c)
                      (Block.name targetBlock)
                      (ValidateSessionMoveInput.targetDayOfWeek input);
                  Conflict.relatedSessionId := Some (ClassSession.id s) |}
               (ValidationResult.conflicts v))
           /\ (Class.gradeId sessionClass <> None -> Class.gradeId c = None ->
               In {| Conflict.type := ConflictType.homeroom;
                     Conflict.message :=
                       sharedPresentMessage (Class.name c)
                         (Block.name targetBlock)
                         (ValidateSessionMoveInput.targetDayOfWeek input);
                     Conflict.relatedSessionId := Some (ClassSession.id s) |}
                  (ValidationResult.conflicts v)))
        /\ (Class.gradeId sessionClass = None ->
            (forall s c,
               In s (DB.classSession db) -> present s = true ->
               findUnique Class.id (ClassSession.classId s) (DB.class db)
               = Some c ->
               Class.gradeId c = None) ->
            forall c, In c (ValidationResult.conflicts v) ->
                      Conflict.type c <> ConflictType.homeroom)).
Proof.
  split.
  - intros input v cls blk H Hcls Hblk present.
    apply validateSessionCreate_Ok in H; cbv zeta in H.
    destruct H as (cls' & blk' & rc & dc & hc & confl & dups & _ & Hcls'
                   & Hblk' & _ & _ & Hhc & Hconfl & _ & Hv & _).
    assert (cls' = cls) by congruence; assert (blk' = blk) by congruence.
    subst cls' blk'; rewrite Hv; clear Hv.
    split.
    + intros s c Hs Hp Hc.
      destruct (exclusivity_complete db _ confl (Class.gradeId cls) blk
                  (ValidateSessionCreateInput.targetDayOfWeek input) s c
                  Hconfl Hs Hp Hc) as [H1 H2].
      split; intros Hg Hcg; rewrite !in_app_iff; auto.
    + intros Hg Hall c Hin.
      rewrite Hg in *; simpl in Hhc; subst hc.
      rewrite (exclusivity_silent db _ confl blk _ Hconfl Hall) in Hin.
      simpl in Hin; rewrite app_nil_r in Hin.
      apply in_app_or in Hin; destruct Hin as [Hin | Hin].
      * apply In_roomConflictsOf in Hin; destruct Hin as [-> _]; discriminate.
      * apply In_roomDutyConflictsOf in Hin; destruct Hin as [-> _];
          discriminate.
  - intros input v session cls blk H Hsession Hcls Hblk present.
    apply validateSessionMove_Ok in H; cbv zeta in H.
    destruct H as (session' & teachers & cls' & blk' & outs & rc & dc & hc
                   & confl & dups & _ & Hsession' & Hinc & Hblk' & Houts & _
                   & _ & Hhc & Hconfl & _ & Hv & _).
    assert (session' = session) by congruence; subst session'.
    unfold teachersAndClassOf in Hinc; invert_binds Hinc.
    injection Hinc as _ <-.
    apply classOf_Ok in E0.
    assert (r0 = cls) by congruence; assert (blk' = blk) by congruence.
    subst r0 blk'; rewrite Hv; clear Hv.
    split.
    + intros s c Hs Hp Hc.
      destruct (exclusivity_complete db _ confl (Class.gradeId cls) blk
                  (ValidateSessionMoveInput.targetDayOfWeek input) s c
                  Hconfl Hs Hp Hc) as [H1 H2].
      split; intros Hg Hcg; rewrite !in_app_iff; auto 6.
    + intros Hg Hall c Hin.
      rewrite Hg in *; simpl in Hhc; subst hc.
      rewrite (exclusivity_silent db _ confl blk _ Hconfl Hall) in Hin.
      simpl in Hin; rewrite app_nil_r in Hin.
      repeat (apply in_app_or in Hin; destruct Hin as [Hin | Hin]).
      * eapply In_teacherConflicts in Hin; eauto.
        destruct Hin as [-> _]; discriminate.
      * apply In_roomConflictsOf in Hin; destruct Hin as [-> _]; discriminate.
      * apply In_roomDutyConflictsOf in Hin; destruct Hin as [-> _];
          discriminate.
Qed.

Lemma shared_and_grade_specific_exclude_each_other_witness :
  (exists v,
     validateSessionCreate school (ValidateSessionCreateInput.mk 3 2 2 2 1)
     = Ok v
     /\ In {| Conflict.type := ConflictType.homeroom;
              Conflict.message :=
                gradeSpecificPresentMessage "Bio10" "B2" 2;
              Conflict.relatedSessionId := Some 3 |}
          (ValidationResult.conflicts v))
  /\ (exists v,
        validateSessionCreate school (ValidateSessionCreateInput.mk 5 3 3 1 1)
        = Ok v
        /\ forall c, In c (ValidationResult.conflicts v) ->
                     Conflict.type c <> ConflictType.homeroom)
  /\ (exists v,
        validateSessionMove school (ValidateSessionMoveInput.mk 3 3 3 3 1)
        = Ok v
        /\ In {| Conflict.type := ConflictType.homeroom;
                 Conflict.message := sharedPresentMessage "Spanish" "B3" 3;
                 Conflict.relatedSessionId := Some 4 |}
             (ValidationResult.conflicts v)).
Proof.
  destruct (shared_and_grade_specific_exclude_each_other school)
    as [Hcreate Hmove].
  split; [| split].
  - eexists; split; [cbv; reflexivity |].
    destruct (Hcreate (ValidateSessionCreateInput.mk 3 2 2 2 1) _
                (Class.mk 3 "Spanish" None) (Block.mk 2 "B2")
                eq_refl eq_refl eq_refl) as [Hevery _].
    apply (Hevery (ClassSession.mk 3 4 2 2 3 1 None)
             (Class.mk 4 "Bio10" (Some 1)));
      [simpl; tauto | reflexivity | reflexivity | reflexivity | discriminate].
  - eexists; split; [cbv; reflexivity |].
    destruct (Hcreate (ValidateSessionCreateInput.mk 5 3 3 1 1) _
                (Class.mk 5 "Art" None) (Block.mk 3 "B3")
                eq_refl eq_refl eq_refl) as [_ Hnone].
    apply Hnone; [reflexivity |].
    intros s c Hs Hp Hc.
    simpl in Hs; destruct Hs as [<- | [<- | [<- | [<- | []]]]];
      try discriminate Hp.
    injection Hc as <-; reflexivity.
  - eexists; split; [cbv; reflexivity |].
    destruct (Hmove (ValidateSessionMoveInput.mk 3 3 3 3 1) _
                (ClassSession.mk 3 4 2 2 3 1 None)
                (Class.mk 4 "Bio10" (Some 1)) (Block.mk 3 "B3")
                eq_refl eq_refl eq_refl eq_refl) as [Hevery _].
    apply (Hevery (ClassSession.mk 4 3 3 3 2 1 None)
             (Class.mk 3 "Spanish" None));
      [simpl; tauto | reflexivity | reflexivity | discriminate | reflexivity].
Defined.

Lemma inRoomSlot_inSlot b d room sem s :
  inRoomSlot b d room sem s = true -> inSlot b d sem s = true.
Proof.
  unfold inRoomSlot, inSlot; intros H.
  repeat (apply andb_prop in H; destruct H as [H ?]).
  repeat (apply andb_true_intro; split); assumption.
Qed.

Lemma dutyInRoomSlot_dutyInSlot b d room sem du :
  dutyInRoomSlot b d room sem du = true -> dutyInSlot b d sem du = true.
Proof.
  unfold dutyInRoomSlot, dutyInSlot; intros H.
  repeat (apply andb_prop in H; destruct H as [H ?]).
  repeat (apply andb_true_intro; split); assumption.
Qed.

Lemma dutyOfTeacherInSlot_dutyInSlot t b d sem du :
  dutyOfTeacherInSlot t b d sem du = true -> dutyInSlot b d sem du = true.
Proof.
  unfold dutyOfTeacherInSlot, dutyInSlot; intros H.
  repeat (apply andb_prop in H; destruct H as [H ?]).
  repeat (apply andb_true_intro; split); assumption.
Qed.

(** A [findFirst] whose clause no row satisfies returns nothing, includes or
    not. *)
Lemma including_nothing {A B} (inc : A -> Result B) where_ rows res :
  including inc (findFirst where_ rows) = Ok res ->
  (forall r, In r rows -> where_ r = false) ->
  res = None.
Proof.
  intros H Hnone; apply including_Ok in H.
  destruct res as [[r i]|]; [| reflexivity].
  destruct H as [H _]; apply findFirst_Some in H; destruct H as [Hin Hw].
  rewrite (Hnone r Hin) in Hw; discriminate.
Qed.

Lemma includingAll_nothing {A B} (inc : A -> Result B) where_ rows res :
  includingAll inc (findMany where_ rows) = Ok res ->
  (forall r, In r rows -> where_ r = false) ->
  res = [].
Proof.
  intros H Hnone; apply includingAll_fst in H.
  destruct res as [|[r i] res]; [reflexivity |].
  assert (Hin : In r (findMany where_ rows)) by (rewrite <- H; left; reflexivity).
  apply findMany_In in Hin; destruct Hin as [Hin Hw].
  rewrite (Hnone r Hin) in Hw; discriminate.
Qed.

Lemma teacherStep_silent db sid b d sem blk x out :
  teacherStep db sid b d sem blk [] x = Ok out ->
  (forall s, In s (DB.classSession db) -> notSession sid s = true ->
             inSlot b d sem s = false) ->
  (forall du, In du (DB.duty db) -> dutyInSlot b d sem du = false) ->
  out = [].
Proof.
  destruct x as [link t]; intros H Hsessions Hduties.
  apply teacherStep_out in H; destruct H as (tc & dc & Htc & Hdc & ->).
  apply including_nothing in Htc, Hdc; [subst; reflexivity | |].
  - intros du Hdu.
    destruct (dutyOfTeacherInSlot _ b d sem du) eqn:E; [| reflexivity].
    apply dutyOfTeacherInSlot_dutyInSlot in E.
    rewrite (Hduties du Hdu) in E; discriminate.
  - intros l Hl.
    destruct (linkOfTeacherElsewhere db _ sid b d sem l) eqn:E;
      [| reflexivity].
    apply linkOfTeacherElsewhere_true in E.
    destruct E as (_ & cs & Hcs & Hnot & Hslot).
    apply findUnique_Some in Hcs; destruct Hcs as [Hcs _].
    rewrite (Hsessions cs Hcs Hnot) in Hslot; discriminate.
Qed.

Lemma duplicateWarningsOf_cons className day dups first rest :
  map fst dups = first :: rest ->
  duplicateWarningsOf className day dups
  = [{| Warning.type := WarningType.duplicate_class;
        Warning.message :=
          duplicateMessage className (List.length (first :: rest)) day;
        Warning.relatedSessionId := Some (ClassSession.id first) |}].
Proof.
  intros H.
  assert (Hlen : List.length dups = List.length (first :: rest))
    by (rewrite <- H; symmetry; apply length_map).
  destruct dups as [|[s i] dups]; [discriminate |].
  injection H as -> _.
  unfold duplicateWarningsOf; rewrite Hlen; reflexivity.
Qed.

(** The decimal text of a number is that of no other number. *)
Lemma numberToString_inj (n m : Z) :
  numberToString n = numberToString m -> n = m.
Proof.
  assert (Hread :
    forall z,
      option_map Z.of_int (NilZero.int_of_string (numberToString z))
      = Some z).
  { intros z; unfold numberToString.
    rewrite <- (DecimalZ.of_to z) at 2.
    destruct (Z.to_int z) as [u | u]; destruct u;
      try (rewrite NilZero.isi; [reflexivity | discriminate | discriminate]).
    - rewrite NilZero.isi_posnil; reflexivity.
    - rewrite NilZero.isi_negnil; reflexivity. }
  intros H; pose proof (Hread n) as Hn; rewrite H, Hread in Hn.
  congruence.
Qed.

(** C8. In both validations, when the class being placed already has
    sessions on the target day of the semester (a move not counting the moved
    session), the verdict's warnings are exactly one [duplicate_class]
    warning. Its message is the name of the class, [ is already scheduled ],
    the count of those sessions in decimal, [ time(s) on ], the name of the
    day and a full stop, and it relates to one of those sessions; with no
    such session there is no warning. These sessions alone produce no
    conflict: when no session (other than the moved one) and no duty is in
    the target slot, the verdict has no conflict and is valid, however many
    they are. The decimal text of a count is that of no other count. *)
Theorem duplicate_same_day_is_a_warning (db : DB.t) :
  (forall input v classToSchedule,
     validateSessionCreate db input = Ok v ->
     findUnique Class.id (ValidateSessionCreateInput.classId input)
       (DB.class db) = Some classToSchedule ->
     let targetBlockId := ValidateSessionCreateInput.targetBlockId input in
     let targetDayOfWeek := ValidateSessionCreateInput.targetDayOfWeek input in
     let targetRoomId := ValidateSessionCreateInput.targetRoomId input in
     let semesterId := ValidateSessionCreateInput.semesterId input in
     let others :=
       findMany
         (sameClassSameDay targetDayOfWeek semesterId
            (ValidateSessionCreateInput.classId input))
         (DB.classSession db) in
     (others <> [] ->
      exists related,
        In related others
        /\ ValidationResult.warnings v
           = [{| Warning.type := WarningType.duplicate_class;
                 Warning.message :=
                   (Class.name classToSchedule ++ " is already scheduled "
                    ++ numberToString (Z.of_nat (List.length others))
                    ++ " time(s) on "
                    ++ arrayGet DAY_NAMES (targetDayOfWeek - 1) ++ ".")%string;
                 Warning.relatedSessionId :=
                   Some (ClassSession.id related) |}])
     /\ (others = [] -> ValidationResult.warnings v = [])
     /\ ((forall s, In s (DB.classSession db) ->
                    inSlot targetBlockId targetDayOfWeek semesterId s = false)
         -> (forall du, In du (DB.duty db) ->
               dutyInRoomSlot targetBlockId targetDayOfWeek targetRoomId
                 semesterId du = false)
         -> ValidationResult.conflicts v = []
            /\ ValidationResult.valid v = true))
  /\ (forall input v session sessionClass,
        validateSessionMove db input = Ok v ->
        findUnique ClassSession.id
          (ValidateSessionMoveInput.classSessionId input)
          (DB.classSession db) = Some session ->
        findUnique Class.id (ClassSession.classId session) (DB.class db)
        = Some sessionClass ->
        let classSessionId := ValidateSessionMoveInput.classSessionId input in
        let targetBlockId := ValidateSessionMoveInput.targetBlockId input in
        let targetDayOfWeek := ValidateSessionMoveInput.targetDayOfWeek input in
        let semesterId := ValidateSessionMoveInput.semesterId input in
        let others :=
          findMany
            (fun s =>
               notSession classSessionId s
               && sameClassSameDay targetDayOfWeek semesterId
                    (ClassSession.classId session) s)
            (DB.classSession db) in
        (others <> [] ->
         exists related,
           In related others
           /\ ValidationResult.warnings v
              = [{| Warning.type := WarningType.duplicate_class;
                    Warning.message :=
                      (Class.name sessionClass ++ " is already scheduled "
                       ++ numberToString (Z.of_nat (List.length others))
                       ++ " time(s) on "
                       ++ arrayGet DAY_NAMES (targetDayOfWeek - 1)
                       ++ ".")%string;
                    Warning.relatedSessionId :=
                      Some (ClassSession.id related) |}])
        /\ (others = [] -> ValidationResult.warnings v = [])
        /\ ((forall s, In s (DB.classSession db) ->
                       notSession classSessionId s = true ->
                       inSlot targetBlockId targetDayOfWeek semesterId s
                       = false)
            -> (forall du, In du (DB.duty db) ->
                  dutyInSlot targetBlockId targetDayOfWeek semesterId du
                  = false)
            -> ValidationResult.conflicts v = []
               /\ ValidationResult.valid v = true))
  /\ (forall count count' : nat,
        numberToString (Z.of_nat count) = numberToString (Z.of_nat count') ->
        count = count').
Proof.
  split; [| split].
  - intros input v cls H Hcls; cbv zeta.
    pose proof (validateSessionCreate_valid _ _ _ H) as Hvalid.
    apply validateSessionCreate_Ok in H; cbv zeta in H.
    destruct H as (cls' & blk & rc & dc & hc & confl & dups & _ & Hcls'
                   & _ & Hrc & Hdc & Hhc & Hconfl & Hdups & Hv & Hw).
    assert (cls' = cls) by congruence; subst cls'.
    apply includingAll_fst in Hdups.
    split; [| split].
    + intros Hothers; rewrite <- Hdups in Hothers |- *.
      destruct dups as [|[first i] rest]; [contradiction |].
      exists first; split; [left; reflexivity |].
      rewrite Hw, length_map; reflexivity.
    + intros Hothers; rewrite Hw.
      rewrite Hothers in Hdups; destruct dups; [reflexivity | discriminate].
    + intros Hsessions Hduties.
      assert (Hnil : ValidationResult.conflicts v = []).
      { rewrite Hv.
        apply including_nothing in Hrc, Hdc; auto.
        2:{ intros s Hs.
            destruct (inRoomSlot _ _ _ _ s) eqn:E; [| reflexivity].
            apply inRoomSlot_inSlot in E.
            rewrite (Hsessions s Hs) in E; discriminate. }
        apply includingAll_nothing in Hconfl; auto.
        assert (hc = None).
        { destruct (truthy (Class.gradeId cls)); [| assumption].
          apply including_nothing in Hhc; auto.
          intros s Hs; rewrite (Hsessions s Hs); reflexivity. }
        subst; reflexivity. }
      split; [exact Hnil |].
      rewrite Hvalid, Hnil; reflexivity.
  - intros input v session cls H Hsession Hcls; cbv zeta.
    pose proof (validateSessionMove_valid _ _ _ H) as Hvalid.
    apply validateSessionMove_Ok in H; cbv zeta in H.
    destruct H as (session' & teachers & cls' & blk & outs & rc & dc & hc
                   & confl & dups & _ & Hsession' & Hinc & _ & Houts & Hrc
                   & Hdc & Hhc & Hconfl & Hdups & Hv & Hw).
    assert (session' = session) by congruence; subst session'.
    unfold teachersAndClassOf in Hinc; invert_binds Hinc.
    injection Hinc as _ <-.
    apply classOf_Ok in E0.
    assert (r0 = cls) by congruence; subst r0.
    apply includingAll_fst in Hdups.
    split; [| split].
    + intros Hothers; rewrite <- Hdups in Hothers |- *.
      destruct dups as [|[first i] rest]; [contradiction |].
      exists first; split; [left; reflexivity |].
      rewrite Hw, length_map; reflexivity.
    + intros Hothers; rewrite Hw.
      rewrite Hothers in Hdups; destruct dups; [reflexivity | discriminate].
    + intros Hsessions Hduties.
      assert (Hnil : ValidationResult.conflicts v = []).
      { rewrite Hv.
        assert (Hteachers : List.concat outs = []).
        { clear - Houts Hsessions Hduties.
          induction Houts as [|x out teachers outs Hx _ IH]; simpl;
            [reflexivity |].
          rewrite IH.
          apply teacherStep_silent in Hx; auto.
          subst; reflexivity. }
        apply including_nothing in Hrc, Hdc.
        2:{ intros du Hdu.
            destruct (dutyInRoomSlot _ _ _ _ du) eqn:Ed; [| reflexivity].
            apply dutyInRoomSlot_dutyInSlot in Ed.
            rewrite (Hduties du Hdu) in Ed; discriminate. }
        2:{ intros s Hs.
            destruct (notSession _ s) eqn:En; [| reflexivity].
            destruct (inRoomSlot _ _ _ _ s) eqn:Es; [| reflexivity].
            apply inRoomSlot_inSlot in Es.
            rewrite (Hsessions s Hs En) in Es; discriminate. }
        apply includingAll_nothing in Hconfl.
        2:{ intros s Hs.
            destruct (notSession _ s) eqn:En; [| reflexivity].
            rewrite (Hsessions s Hs En); reflexivity. }
        assert (hc = None).
        { destruct (truthy (Class.gradeId cls)); [| assumption].
          apply including_nothing in Hhc; auto.
          intros s Hs.
          destruct (notSession _ s) eqn:En; [| reflexivity].
          rewrite (Hsessions s Hs En); reflexivity. }
        subst; rewrite Hteachers; reflexivity. }
      split; [exact Hnil |].
      rewrite Hvalid, Hnil; reflexivity.
  - intros count count' H; apply numberToString_inj in H; lia.
Qed.

Lemma duplicate_same_day_is_a_warning_witness :
  (exists v related,
     validateSessionCreate
       (setClassSessions school
          (DB.classSession school ++ [ClassSession.mk 5 1 2 1 3 1 (Some 1)])
          6)
       (ValidateSessionCreateInput.mk 1 3 1 1 1)
     = Ok v
     /\ In related
          [ClassSession.mk 1 1 1 1 1 1 (Some 1);
           ClassSession.mk 5 1 2 1 3 1 (Some 1)]
     /\ ValidationResult.warnings v
        = [{| Warning.type := WarningType.duplicate_class;
              Warning.message :=
                "Math10 is already scheduled 2 time(s) on Monday.";
              Warning.relatedSessionId := Some (ClassSession.id related) |}]
     /\ ValidationResult.conflicts v = []
     /\ ValidationResult.valid v = true)
  /\ (exists v,
        validateSessionMove
          (setClassSessions school
             (DB.classSession school
              ++ [ClassSession.mk 5 1 2 1 3 1 (Some 1)])
             6)
          (ValidateSessionMoveInput.mk 1 3 1 1 1)
        = Ok v
        /\ ValidationResult.warnings v
           = [{| Warning.type := WarningType.duplicate_class;
                 Warning.message :=
                   "Math10 is already scheduled 1 time(s) on Monday.";
                 Warning.relatedSessionId := Some 5 |}]
        /\ ValidationResult.conflicts v = []
        /\ ValidationResult.valid v = true)
  /\ (exists v,
        validateSessionMove school (ValidateSessionMoveInput.mk 1 3 1 1 1)
        = Ok v
        /\ ValidationResult.warnings v = []
        /\ ValidationResult.conflicts v = []
        /\ ValidationResult.valid v = true).
Proof.
  split; [| split].
  - destruct (duplicate_same_day_is_a_warning
                (setClassSessions school
                   (DB.classSession school
                    ++ [ClassSession.mk 5 1 2 1 3 1 (Some 1)])
                   6)) as (Hcreate & _ & _).
    eexists.
    destruct (Hcreate (ValidateSessionCreateInput.mk 1 3 1 1 1) _
                (Class.mk 1 "Math10" (Some 1)) eq_refl eq_refl)
      as (Hwarn & _ & Halone).
    destruct Hwarn as (related & Hrelated & Hwarn); [discriminate |].
    exists related.
    split; [cbv; reflexivity |].
    split; [exact Hrelated |].
    split; [exact Hwarn |].
    apply Halone.
    + intros s Hs; simpl in Hs.
      destruct Hs as [<- | [<- | [<- | [<- | [<- | []]]]]]; reflexivity.
    + intros du Hdu; simpl in Hdu.
      destruct Hdu as [<- | []]; reflexivity.
  - destruct (duplicate_same_day_is_a_warning
                (setClassSessions school
                   (DB.classSession school
                    ++ [ClassSession.mk 5 1 2 1 3 1 (Some 1)])
                   6)) as (_ & Hmove & _).
    eexists; split; [cbv; reflexivity |].
    destruct (Hmove (ValidateSessionMoveInput.mk 1 3 1 1 1) _
                (ClassSession.mk 1 1 1 1 1 1 (Some 1))
                (Class.mk 1 "Math10" (Some 1)) eq_refl eq_refl eq_refl)
      as (Hwarn & _ & Halone).
    destruct Hwarn as (related & Hrelated & Hwarn); [discriminate |].
    destruct Hrelated as [<- | []].
    split; [exact Hwarn |].
    apply Halone.
    + intros s Hs Hnot; simpl in Hs.
      destruct Hs as [<- | [<- | [<- | [<- | [<- | []]]]]]; reflexivity.
    + intros du Hdu; simpl in Hdu.
      destruct Hdu as [<- | []]; reflexivity.
  - destruct (duplicate_same_day_is_a_warning school) as (_ & Hmove & _).
    eexists; split; [cbv; reflexivity |].
    destruct (Hmove (ValidateSessionMoveInput.mk 1 3 1 1 1) _
                (ClassSession.mk 1 1 1 1 1 1 (Some 1))
                (Class.mk 1 "Math10" (Some 1)) eq_refl eq_refl eq_refl)
      as (_ & Hquiet & Halone).
    split; [exact (Hquiet eq_refl) |].
    apply Halone.
    + intros s Hs Hnot; simpl in Hs.
      destruct Hs as [<- | [<- | [<- | [<- | []]]]]; reflexivity.
    + intros du Hdu; simpl in Hdu.
      destruct Hdu as [<- | []]; reflexivity.
Defined.

Lemma Forall2_In_left {A B} (P : A -> B -> Prop) xs ys x :
  Forall2 P xs ys -> In x xs -> exists y, In y ys /\ P x y.
Proof.
  intros H; induction H as [|x' y xs ys Hxy _ IH]; simpl; [tauto |].
  intros [<- | Hin]; [eauto |].
  destruct (IH Hin) as (y' & Hy' & Hp); eauto.
Qed.

Lemma findFirst_found {A} (where_ : A -> bool) (rows : list A) (r : A) :
  In r rows -> where_ r = true -> exists r', findFirst where_ rows = Some r'.
Proof.
  intros Hin Hw; unfold findFirst.
  destruct (find where_ rows) as [r'|] eqn:E; [eauto |].
  rewrite (find_none _ _ E r Hin) in Hw; discriminate.
Qed.

(** C2, as the code has it. Validating a move: for every teacher assigned to
    the session being moved, if a teacher link of the same teacher belongs to
    another session in the target (block, day, semester), the verdict holds a
    [teacher] conflict related to such a session (the first the store
    returns); and if the teacher has a duty in that (block, day, semester), the
    verdict holds a [teacher] conflict with no related session. A creation is
    validated without any teacher: [validateSessionCreate] takes none. *)
Theorem move_reports_teacher_double_booking (db : DB.t)
  (input : ValidateSessionMoveInput.t) (v : ValidationResult.t)
  (link : ClassSessionTeacher.t) :
  validateSessionMove db input = Ok v ->
  In link (DB.classSessionTeacher db) ->
  ClassSessionTeacher.classSessionId link
  = ValidateSessionMoveInput.classSessionId input ->
  let classSessionId := ValidateSessionMoveInput.classSessionId input in
  let targetBlockId := ValidateSessionMoveInput.targetBlockId input in
  let targetDayOfWeek := ValidateSessionMoveInput.targetDayOfWeek input in
  let semesterId := ValidateSessionMoveInput.semesterId input in
  (forall otherLink other,
     In otherLink (DB.classSessionTeacher db) ->
     ClassSessionTeacher.teacherId otherLink
     = ClassSessionTeacher.teacherId link ->
     findUnique ClassSession.id (ClassSessionTeacher.classSessionId otherLink)
       (DB.classSession db) = Some other ->
     ClassSession.id other <> classSessionId ->
     inSlot targetBlockId targetDayOfWeek semesterId other = true ->
     exists c colliding collidingLink,
       In c (ValidationResult.conflicts v)
       /\ Conflict.type c = ConflictType.teacher
       /\ Conflict.relatedSessionId c = Some (ClassSession.id colliding)
       /\ In collidingLink (DB.classSessionTeacher db)
       /\ ClassSessionTeacher.teacherId collidingLink
          = ClassSessionTeacher.teacherId link
       /\ findUnique ClassSession.id
            (ClassSessionTeacher.classSessionId collidingLink)
            (DB.classSession db) = Some colliding
       /\ ClassSession.id colliding <> classSessionId
       /\ inSlot targetBlockId targetDayOfWeek semesterId colliding = true)
  /\ (forall du,
        In du (DB.duty db) ->
        dutyOfTeacherInSlot (ClassSessionTeacher.teacherId link) targetBlockId
          targetDayOfWeek semesterId du = true ->
        exists c,
          In c (ValidationResult.conflicts v)
          /\ Conflict.type c = ConflictType.teacher
          /\ Conflict.relatedSessionId c = None).
Proof.
  intros H Hlink Hsid; cbv zeta.
  apply validateSessionMove_Ok in H; cbv zeta in H.
  destruct H as (session & teachers & cls & blk & outs & rc & dc & hc & confl
                 & dups & _ & Hsession & Hinc & _ & Houts & _ & _ & _ & _ & _
                 & Hv & _).
  apply findUnique_Some in Hsession; destruct Hsession as [_ Hid].
  unfold teachersAndClassOf in Hinc; invert_binds Hinc.
  injection Hinc as <- _.
  eapply includingAll_complete in E.
  2:{ apply findMany_In; split; [exact Hlink |].
      apply Z.eqb_eq; congruence. }
  destruct E as (t & _ & Ht).
  destruct (Forall2_In_left _ _ _ _ Houts Ht) as (out & Hout & Hstep).
  assert (Hsub : forall c, In c out -> In c (ValidationResult.conflicts v)).
  { intros c Hc; rewrite Hv; apply in_or_app; left.
    apply in_concat; eauto. }
  apply teacherStep_out in Hstep.
  destruct Hstep as (tc & dc' & Htc & Hdc' & ->).
  split.
  - intros otherLink other HotherLink Hteacher Hother Hneq Hslot.
    destruct (findFirst_found
                (linkOfTeacherElsewhere db (ClassSessionTeacher.teacherId link)
                   (ValidateSessionMoveInput.classSessionId input)
                   (ValidateSessionMoveInput.targetBlockId input)
                   (ValidateSessionMoveInput.targetDayOfWeek input)
                   (ValidateSessionMoveInput.semesterId input))
                _ otherLink HotherLink) as (l & Hl).
    { unfold linkOfTeacherElsewhere; rewrite Hother, Hslot.
      apply andb_true_intro; split; [apply Z.eqb_eq; exact Hteacher |].
      apply andb_true_intro; split; [apply notSession_true; exact Hneq |].
      reflexivity. }
    rewrite Hl in Htc; simpl in Htc.
    apply bind_Ok in Htc; destruct Htc as ([cs c] & Hinc & Htc).
    injection Htc as <-.
    apply bind_Ok in Hinc; destruct Hinc as (cs' & Hcs' & Hinc).
    apply bind_Ok in Hinc; destruct Hinc as (c' & _ & Hinc).
    injection Hinc as -> ->.
    apply required_Ok in Hcs'.
    apply findFirst_Some in Hl; destruct Hl as [Hlin Hl].
    apply linkOfTeacherElsewhere_true in Hl.
    destruct Hl as (Hlt & cs'' & Hcs'' & Hnot & Hslot').
    assert (cs'' = cs) by congruence; subst cs''.
    eexists _, cs, l; split; [apply Hsub; left; reflexivity |].
    simpl; repeat split; auto.
    apply notSession_true; exact Hnot.
  - intros du Hdu Hslot.
    destruct (findFirst_found _ _ du Hdu Hslot) as (du' & Hdu').
    rewrite Hdu' in Hdc'; simpl in Hdc'.
    apply bind_Ok in Hdc'; destruct Hdc' as (dt & _ & Hdc').
    injection Hdc' as <-.
    eexists; split.
    + apply Hsub, in_or_app; right; left; reflexivity.
    + split; reflexivity.
Qed.

Lemma move_reports_teacher_double_booking_witness :
  (exists v,
     validateSessionMove school (ValidateSessionMoveInput.mk 2 1 1 2 1) = Ok v
     /\ exists c,
          In c (ValidationResult.conflicts v)
          /\ Conflict.type c = ConflictType.teacher
          /\ Conflict.relatedSessionId c = Some 1)
  /\ (exists v,
        validateSessionMove school (ValidateSessionMoveInput.mk 3 3 5 3 1)
        = Ok v
        /\ exists c,
             In c (ValidationResult.conflicts v)
             /\ Conflict.type c = ConflictType.teacher
             /\ Conflict.relatedSessionId c = None).
Proof.
  split.
  - eexists; split; [cbv; reflexivity |].
    destruct (move_reports_teacher_double_booking school
                (ValidateSessionMoveInput.mk 2 1 1 2 1) _
                (ClassSessionTeacher.mk 3 2 1 "Primary") eq_refl)
      as [Hsession _]; [simpl; tauto | reflexivity |].
    destruct (Hsession (ClassSessionTeacher.mk 1 1 1 "Primary")
                (ClassSession.mk 1 1 1 1 1 1 (Some 1)))
      as (c & colliding & l & Hin & Htype & Hrel & _);
      [simpl; tauto | reflexivity | reflexivity | discriminate | reflexivity
      |].
    exists c; split; [exact Hin |]; split; [exact Htype |].
    simpl in Hin; destruct Hin as [<- | []]; reflexivity.
  - eexists; split; [cbv; reflexivity |].
    destruct (move_reports_teacher_double_booking school
                (ValidateSessionMoveInput.mk 3 3 5 3 1) _
                (ClassSessionTeacher.mk 4 3 2 "Primary") eq_refl)
      as [_ Hduty]; [simpl; tauto | reflexivity |].
    apply (Hduty (Duty.mk 1 2 3 5 1 1 1)); [simpl; tauto | reflexivity].
Defined.

(** C2, as stated, fails for a creation: T1 teaches the Math10 session in
    (B1, Monday, semester 1), and validating the creation of a Math11 session
    there in room R2 returns a verdict without any conflict, whoever is meant
    to teach it. *)
Lemma create_misses_teacher_double_booking :
  exists v,
    validateSessionCreate school (ValidateSessionCreateInput.mk 2 1 1 2 1)
    = Ok v
    /\ (exists link s,
          In link (DB.classSessionTeacher school)
          /\ ClassSessionTeacher.teacherId link = 1
          /\ findUnique ClassSession.id
               (ClassSessionTeacher.classSessionId link)
               (DB.classSession school) = Some s
          /\ inSlot 1 1 1 s = true)
    /\ ValidationResult.conflicts v = []
    /\ ~ (exists c,
            In c (ValidationResult.conflicts v)
            /\ Conflict.type c = ConflictType.teacher).
Proof.
  eexists; split; [cbv; reflexivity |].
  split.
  - exists (ClassSessionTeacher.mk 1 1 1 "Primary"),
      (ClassSession.mk 1 1 1 1 1 1 (Some 1)).
    simpl; repeat split; auto.
  - split; [reflexivity |].
    intros (c & Hin & _); exact Hin.
Qed.

(** ** Validations over a store with referential integrity *)

Lemma hasKey_findUnique {A} (key : A -> Z) (k : Z) (rows : list A) :
  hasKey key k rows = true -> exists r, findUnique key k rows = Some r.
Proof.
  unfold hasKey, findUnique; intros H.
  apply existsb_exists in H; destruct H as (r & Hin & Hk).
  destruct (find (fun r => key r =? k) rows) as [r'|] eqn:E; [eauto |].
  rewrite (find_none _ _ E r Hin) in Hk; discriminate.
Qed.

Lemma required_total {A} (key : A -> Z) (k : Z) (rows : list A) :
  hasKey key k rows = true -> exists r, required (findUnique key k rows) = Ok r.
Proof.
  intros H; apply hasKey_findUnique in H; destruct H as [r ->].
  exists r; reflexivity.
Qed.

Lemma including_total {A B} (inc : A -> Result B) where_ rows :
  (forall r, In r rows -> exists i, inc r = Ok i) ->
  exists res, including inc (findFirst where_ rows) = Ok res.
Proof.
  intros Hinc; destruct (findFirst where_ rows) as [r|] eqn:E; simpl;
    [| eauto].
  apply findFirst_Some in E; destruct E as [Hin _].
  destruct (Hinc r Hin) as [i ->]; simpl; eauto.
Qed.

Lemma includingAll_total {A B} (inc : A -> Result B) where_ rows :
  (forall r, In r rows -> exists i, inc r = Ok i) ->
  exists res, includingAll inc (findMany where_ rows) = Ok res.
Proof.
  intros Hinc; unfold includingAll, findMany.
  induction rows as [|r rows IH]; simpl; [eauto |].
  destruct IH as [res IH]; [intros r' Hr'; apply Hinc; right; exact Hr' |].
  destruct (where_ r); [| eauto].
  destruct (Hinc r (or_introl eq_refl)) as [i Hi].
  simpl; rewrite Hi; simpl; rewrite IH; simpl; eauto.
Qed.

(** Runs the next bind of a goal [exists v, bind m k = Ok v], leaving the
    proof that [m] returns as the first goal. *)
Ltac run_bind :=
  match goal with
  | |- exists v, bind ?m ?k = Ok v =>
      let a := fresh "a" in
      let E := fresh "E" in
      assert (exists a, m = Ok a) as [a E];
      [| rewrite E; cbn [bind]; cbv beta zeta]
  end.

Create HintDb includes.

Section ReferentialIntegrity.
Variable db : DB.t.
Hypothesis Hrefs : refsOk db = true.

Lemma refsOk_session s :
  In s (DB.classSession db) ->
  (exists c, classOf db s = Ok c)
  /\ (exists r, roomOf db s = Ok r)
  /\ (exists b, blockOf db s = Ok b).
Proof.
  intros Hs; pose proof Hrefs as H; unfold refsOk in H.
  apply andb_prop in H; destruct H as [H _].
  apply andb_prop in H; destruct H as [H _].
  rewrite forallb_forall in H; specialize (H s Hs).
  unfold classSessionRefsOk in H.
  repeat (apply andb_prop in H; destruct H as [H ?]).
  repeat split; apply required_total; assumption.
Qed.

Lemma refsOk_link l :
  In l (DB.classSessionTeacher db) ->
  (exists t, teacherOf db l = Ok t)
  /\ (exists cs, classSessionOf db l = Ok cs /\ In cs (DB.classSession db)).
Proof.
  intros Hl; pose proof Hrefs as H; unfold refsOk in H.
  apply andb_prop in H; destruct H as [H _].
  apply andb_prop in H; destruct H as [_ H].
  rewrite forallb_forall in H; specialize (H l Hl).
  unfold linkRefsOk in H; apply andb_prop in H; destruct H as [Hcs Ht].
  split; [apply required_total; assumption |].
  apply hasKey_findUnique in Hcs; destruct Hcs as [cs Hcs].
  exists cs; unfold classSessionOf; rewrite Hcs; split; [reflexivity |].
  apply findUnique_Some in Hcs; tauto.
Qed.

Lemma refsOk_duty du :
  In du (DB.duty db) ->
  (exists dt, dutyTypeOf db du = Ok dt)
  /\ (exists r, dutyRoomOf db du = Ok r)
  /\ (exists t, dutyTeacherOf db du = Ok t).
Proof.
  intros Hdu; pose proof Hrefs as H; unfold refsOk in H.
  apply andb_prop in H; destruct H as [_ H].
  rewrite forallb_forall in H; specialize (H du Hdu).
  unfold dutyRefsOk in H.
  repeat (apply andb_prop in H; destruct H as [H ?]).
  repeat split; apply required_total; assumption.
Qed.

Lemma classAndRoom_total s :
  In s (DB.classSession db) ->
  exists i,
    (c <- classOf db s ;; r <- roomOf db s ;; Ok (c, r))%result = Ok i.
Proof.
  intros Hs; destruct (refsOk_session s Hs) as ([c ->] & [r ->] & _).
  simpl; eauto.
Qed.

Lemma classAndBlock_total s :
  In s (DB.classSession db) ->
  exists i,
    (c <- classOf db s ;; b <- blockOf db s ;; Ok (c, b))%result = Ok i.
Proof.
  intros Hs; destruct (refsOk_session s Hs) as ([c ->] & _ & [b ->]).
  simpl; eauto.
Qed.

Lemma class_total s :
  In s (DB.classSession db) -> exists c, classOf db s = Ok c.
Proof. intros Hs; apply (refsOk_session s Hs). Qed.

Lemma dutyIncludes_total du :
  In du (DB.duty db) ->
  exists i,
    (dt <- dutyTypeOf db du ;; r <- dutyRoomOf db du ;;
     t <- dutyTeacherOf db du ;; Ok (dt, r, t))%result = Ok i.
Proof.
  intros Hdu.
  destruct (refsOk_duty du Hdu) as ([dt ->] & [r ->] & [t ->]).
  simpl; eauto.
Qed.

#[local] Hint Resolve classAndRoom_total classAndBlock_total class_total
  dutyIncludes_total : includes.

Lemma teacherStep_total sid b d sem blk acc x :
  exists r, teacherStep db sid b d sem blk acc x = Ok r.
Proof.
  destruct x as [link t]; unfold teacherStep.
  destruct (including_total
              (fun l =>
                 (cs <- classSessionOf db l ;; c <- classOf db cs ;;
                  Ok (cs, c))%result)
              (linkOfTeacherElsewhere db (ClassSessionTeacher.teacherId link)
                 sid b d sem)
              (DB.classSessionTeacher db)) as [tc Htc].
  { intros l Hl.
    destruct (refsOk_link l Hl) as (_ & cs & -> & Hcs).
    destruct (class_total cs Hcs) as [c Hc].
    simpl; rewrite Hc; simpl; eauto. }
  destruct (including_total (dutyTypeOf db)
              (dutyOfTeacherInSlot (ClassSessionTeacher.teacherId link) b d
                 sem)
              (DB.duty db)) as [dc Hdc].
  { intros du Hdu; apply (refsOk_duty du Hdu). }
  rewrite Htc; simpl; rewrite Hdc; simpl; eauto.
Qed.

Lemma foldM_teacherStep_total sid b d sem blk teachers acc :
  exists r, foldM (teacherStep db sid b d sem blk) teachers acc = Ok r.
Proof.
  revert acc; induction teachers as [|x teachers IH]; intros acc; simpl;
    [eauto |].
  destruct (teacherStep_total sid b d sem blk acc x) as [a ->].
  simpl; apply IH.
Qed.

Lemma teachersAndClassOf_total s :
  In s (DB.classSession db) -> exists i, teachersAndClassOf db s = Ok i.
Proof.
  intros Hs; unfold teachersAndClassOf.
  destruct (includingAll_total (teacherOf db)
              (fun l =>
                 ClassSessionTeacher.classSessionId l =? ClassSession.id s)
              (DB.classSessionTeacher db)) as [teachers Ht].
  { intros l Hl; apply (refsOk_link l Hl). }
  destruct (class_total s Hs) as [c Hc].
  rewrite Ht; simpl; rewrite Hc; simpl; eauto.
Qed.

Lemma validateSessionCreate_total input classToSchedule targetBlock :
  1 <= ValidateSessionCreateInput.targetDayOfWeek input <= 5 ->
  findUnique Class.id (ValidateSessionCreateInput.classId input) (DB.class db)
  = Some classToSchedule ->
  findUnique Block.id (ValidateSessionCreateInput.targetBlockId input)
    (DB.block db) = Some targetBlock ->
  exists v, validateSessionCreate db input = Ok v.
Proof.
  intros Hday Hcls Hblk; unfold validateSessionCreate; cbv zeta.
  replace ((1 <=? ValidateSessionCreateInput.targetDayOfWeek input)
           && (ValidateSessionCreateInput.targetDayOfWeek input <=? 5))
    with true
    by (symmetry; apply andb_true_intro; split; apply Z.leb_le; lia).
  rewrite Hcls, Hblk; cbn [zod orThrow bind]; cbv beta zeta.
  run_bind; [apply including_total; auto with includes |].
  run_bind; [apply including_total; auto with includes |].
  run_bind.
  { destruct (truthy (Class.gradeId classToSchedule)); [| eauto].
    destruct (including_total (classOf db)
                (fun s =>
                   inSlot (ValidateSessionCreateInput.targetBlockId input)
                     (ValidateSessionCreateInput.targetDayOfWeek input)
                     (ValidateSessionCreateInput.semesterId input) s
                   && classGradeIs db (Class.gradeId classToSchedule) s)
                (DB.classSession db)) as [hc Hhc]; [auto with includes |].
    rewrite Hhc; simpl; eauto. }
  run_bind; [apply includingAll_total; auto with includes |].
  run_bind; [apply includingAll_total; auto with includes |].
  eauto.
Qed.

Lemma validateSessionMove_total input session targetBlock :
  1 <= ValidateSessionMoveInput.targetDayOfWeek input <= 5 ->
  findUnique ClassSession.id (ValidateSessionMoveInput.classSessionId input)
    (DB.classSession db) = Some session ->
  findUnique Block.id (ValidateSessionMoveInput.targetBlockId input)
    (DB.block db) = Some targetBlock ->
  exists v, validateSessionMove db input = Ok v.
Proof.
  intros Hday Hsession Hblk; unfold validateSessionMove; cbv zeta.
  replace ((1 <=? ValidateSessionMoveInput.targetDayOfWeek input)
           && (ValidateSessionMoveInput.targetDayOfWeek input <=? 5))
    with true
    by (symmetry; apply andb_true_intro; split; apply Z.leb_le; lia).
  rewrite Hsession, Hblk; cbn [zod including bind]; cbv beta zeta.
  destruct (teachersAndClassOf_total session) as [[teachers cls] Hinc].
  { apply findUnique_Some in Hsession; tauto. }
  rewrite Hinc; cbn [orThrow bind]; cbv beta zeta.
  run_bind; [apply foldM_teacherStep_total |].
  run_bind; [apply including_total; auto with includes |].
  run_bind; [apply including_total; auto with includes |].
  run_bind.
  { destruct (truthy (Class.gradeId cls)); [| eauto].
    destruct (including_total (classOf db)
                (fun s =>
                   notSession (ValidateSessionMoveInput.classSessionId input) s
                   && inSlot (ValidateSessionMoveInput.targetBlockId input)
                        (ValidateSessionMoveInput.targetDayOfWeek input)
                        (ValidateSessionMoveInput.semesterId input) s
                   && classGradeIs db (Class.gradeId cls) s)
                (DB.classSession db)) as [hc Hhc]; [auto with includes |].
    rewrite Hhc; simpl; eauto. }
  run_bind; [apply includingAll_total; auto with includes |].
  run_bind; [apply includingAll_total; auto with includes |].
  eauto.
Qed.

(** The outcome of [validateSessionCreate] on an input the schema accepts. *)
Lemma validateSessionCreate_outcome input :
  1 <= ValidateSessionCreateInput.targetDayOfWeek input <= 5 ->
  match findUnique Class.id (ValidateSessionCreateInput.classId input)
          (DB.class db),
        findUnique Block.id (ValidateSessionCreateInput.targetBlockId input)
          (DB.block db) with
  | None, _ =>
      validateSessionCreate db input
      = Err (Thrown NOT_FOUND "Class not found")
  | Some _, None =>
      validateSessionCreate db input
      = Err (Thrown NOT_FOUND "Target block not found")
  | Some _, Some _ => exists v, validateSessionCreate db input = Ok v
  end.
Proof.
  intros Hday.
  assert (Hzod : (1 <=? ValidateSessionCreateInput.targetDayOfWeek input)
                 && (ValidateSessionCreateInput.targetDayOfWeek input <=? 5)
                 = true)
    by (apply andb_true_intro; split; apply Z.leb_le; lia).
  destruct (findUnique Class.id _ (DB.class db)) as [cls|] eqn:Hcls.
  - destruct (findUnique Block.id _ (DB.block db)) as [blk|] eqn:Hblk.
    + eapply validateSessionCreate_total; eauto.
    + unfold validateSessionCreate; cbv zeta.
      rewrite Hzod, Hcls, Hblk; reflexivity.
  - unfold validateSessionCreate; cbv zeta.
    rewrite Hzod, Hcls; reflexivity.
Qed.

(** The outcome of [validateSessionMove] on an input the schema accepts. *)
Lemma validateSessionMove_outcome input :
  1 <= ValidateSessionMoveInput.targetDayOfWeek input <= 5 ->
  match findUnique ClassSession.id
          (ValidateSessionMoveInput.classSessionId input)
          (DB.classSession db),
        findUnique Block.id (ValidateSessionMoveInput.targetBlockId input)
          (DB.block db) with
  | None, _ =>
      validateSessionMove db input
      = Err (Thrown NOT_FOUND "Class session not found")
  | Some _, None =>
      validateSessionMove db input
      = Err (Thrown NOT_FOUND "Target block not found")
  | Some _, Some _ => exists v, validateSessionMove db input = Ok v
  end.
Proof.
  intros Hday.
  assert (Hzod : (1 <=? ValidateSessionMoveInput.targetDayOfWeek input)
                 && (ValidateSessionMoveInput.targetDayOfWeek input <=? 5)
                 = true)
    by (apply andb_true_intro; split; apply Z.leb_le; lia).
  destruct (findUnique ClassSession.id _ (DB.classSession db))
    as [session|] eqn:Hsession.
  - destruct (findUnique Block.id _ (DB.block db)) as [blk|] eqn:Hblk.
    + eapply validateSessionMove_total; eauto.
    + unfold validateSessionMove; cbv zeta.
      rewrite Hzod, Hsession, Hblk; cbn [zod including bind].
      destruct (teachersAndClassOf_total session) as [[teachers cls] ->];
        [| reflexivity].
      apply findUnique_Some in Hsession; tauto.
  - unfold validateSessionMove; cbv zeta.
    rewrite Hzod, Hsession; reflexivity.
Qed.

End ReferentialIntegrity.

(** ** The errors of the validations *)

Lemma bind_Err {A B} (m : Result A) (k : A -> Result B) (e : Error) :
  bind m k = Err e -> m = Err e \/ exists a, m = Ok a /\ k a = Err e.
Proof.
  destruct m as [a|e']; simpl; intros H; [eauto | left; congruence].
Qed.

Lemma zod_Err accepted e : zod accepted = Err e -> validationError e.
Proof.
  destruct accepted; simpl; intros H; [discriminate |].
  injection H as <-; constructor.
Qed.

Lemma orThrow_Err {A} (row : option A) message e :
  orThrow row NOT_FOUND message = Err e -> validationError e.
Proof.
  destruct row; simpl; intros H; [discriminate |].
  injection H as <-; constructor.
Qed.

Lemma required_Err {A} (row : option A) e :
  required row = Err e -> validationError e.
Proof.
  destruct row; simpl; intros H; [discriminate |].
  injection H as <-; constructor.
Qed.

Lemma including_Err {A B} (inc : A -> Result B) row e :
  (forall r e', inc r = Err e' -> validationError e') ->
  including inc row = Err e -> validationError e.
Proof.
  intros Hinc; destruct row as [r|]; simpl; [| discriminate].
  intros H; apply bind_Err in H; destruct H as [H | (i & _ & H)];
    [eauto | discriminate].
Qed.

Lemma includingAll_Err {A B} (inc : A -> Result B) rows e :
  (forall r e', inc r = Err e' -> validationError e') ->
  includingAll inc rows = Err e -> validationError e.
Proof.
  intros Hinc; unfold includingAll.
  induction rows as [|r rows IH]; simpl; [discriminate |].
  intros H; apply bind_Err in H; destruct H as [H | (p & _ & H)].
  - apply bind_Err in H; destruct H as [H | (i & _ & H)];
      [eauto | discriminate].
  - apply bind_Err in H; destruct H as [H | (ps & _ & H)];
      [auto | discriminate].
Qed.

(** Closes a goal [validationError e] from the failing include [H]. *)
Ltac include_failed H :=
  repeat
    (apply bind_Err in H;
     destruct H as [H | (?a & _ & H)];
     [solve [eapply required_Err; exact H] | cbv beta in H]);
  solve [discriminate H | eapply required_Err; exact H].

Lemma classOf_Err db s e : classOf db s = Err e -> validationError e.
Proof. apply required_Err. Qed.

Lemma classAndRoom_Err db s e :
  (c <- classOf db s ;; r <- roomOf db s ;; Ok (c, r))%result = Err e ->
  validationError e.
Proof. intros H; include_failed H. Qed.

Lemma classAndBlock_Err db s e :
  (c <- classOf db s ;; b <- blockOf db s ;; Ok (c, b))%result = Err e ->
  validationError e.
Proof. intros H; include_failed H. Qed.

Lemma dutyIncludes_Err db du e :
  (dt <- dutyTypeOf db du ;; r <- dutyRoomOf db du ;;
   t <- dutyTeacherOf db du ;; Ok (dt, r, t))%result = Err e ->
  validationError e.
Proof. intros H; include_failed H. Qed.

Lemma teacherStep_Err db sid b d sem blk acc x e :
  teacherStep db sid b d sem blk acc x = Err e -> validationError e.
Proof.
  destruct x as [link t]; unfold teacherStep; intros H.
  apply bind_Err in H; destruct H as [H | (tc & _ & H)].
  - eapply including_Err; [| exact H].
    intros l e' Hl; include_failed Hl.
  - cbv beta zeta in H.
    apply bind_Err in H; destruct H as [H | (dc & _ & H)]; [| discriminate].
    eapply including_Err; [| exact H].
    intros du e'; apply required_Err.
Qed.

Lemma foldM_teacherStep_Err db sid b d sem blk teachers acc e :
  foldM (teacherStep db sid b d sem blk) teachers acc = Err e ->
  validationError e.
Proof.
  revert acc; induction teachers as [|x teachers IH]; intros acc; simpl;
    [discriminate |].
  intros H; apply bind_Err in H; destruct H as [H | (a & _ & H)]; eauto.
  eapply teacherStep_Err; eauto.
Qed.

Lemma teachersAndClassOf_Err db s e :
  teachersAndClassOf db s = Err e -> validationError e.
Proof.
  unfold teachersAndClassOf; intros H.
  apply bind_Err in H; destruct H as [H | (teachers & _ & H)].
  - eapply includingAll_Err; [| exact H].
    intros l e'; apply required_Err.
  - include_failed H.
Qed.

(** Splits a failing chain of binds [H : m = Err e] into the step that
    failed. *)
Ltac failing_step H :=
  cbv beta zeta in H;
  apply bind_Err in H;
  destruct H as [H | (?a & _ & H)]; [| cbv beta zeta in H].

Lemma validateSessionCreate_Err db input e :
  validateSessionCreate db input = Err e -> validationError e.
Proof.
  unfold validateSessionCreate; intros H.
  failing_step H; [eapply zod_Err; exact H |].
  failing_step H; [eapply orThrow_Err; exact H |].
  failing_step H; [eapply orThrow_Err; exact H |].
  failing_step H;
    [eapply including_Err; [| exact H]; intros ? ? Hr; eapply classAndRoom_Err; exact Hr
    |].
  failing_step H;
    [eapply including_Err; [| exact H]; intros ? ? Hr; eapply dutyIncludes_Err; exact Hr
    |].
  failing_step H.
  { destruct (truthy _); [| discriminate].
    failing_step H; [| discriminate].
    eapply including_Err; [| exact H]; intros ? ? Hr; eapply classOf_Err; exact Hr. }
  failing_step H;
    [eapply includingAll_Err; [| exact H]; intros ? ? Hr; eapply classOf_Err; exact Hr
    |].
  failing_step H; [| discriminate].
  eapply includingAll_Err; [| exact H]; intros ? ? Hr; eapply classAndBlock_Err; exact Hr.
Qed.

Lemma validateSessionMove_Err db input e :
  validateSessionMove db input = Err e -> validationError e.
Proof.
  unfold validateSessionMove; intros H.
  failing_step H; [eapply zod_Err; exact H |].
  failing_step H;
    [eapply including_Err; [| exact H]; intros ? ? Hr;
     eapply teachersAndClassOf_Err; exact Hr |].
  failing_step H; [eapply orThrow_Err; exact H |].
  destruct a1 as [session [sessionTeachers sessionClass]].
  failing_step H; [eapply orThrow_Err; exact H |].
  failing_step H; [eapply foldM_teacherStep_Err; exact H |].
  failing_step H;
    [eapply including_Err; [| exact H]; intros ? ? Hr; eapply classAndRoom_Err; exact Hr
    |].
  failing_step H;
    [eapply including_Err; [| exact H]; intros ? ? Hr; eapply dutyIncludes_Err; exact Hr
    |].
  failing_step H.
  { destruct (truthy _); [| discriminate].
    failing_step H; [| discriminate].
    eapply including_Err; [| exact H]; intros ? ? Hr; eapply classOf_Err; exact Hr. }
  failing_step H;
    [eapply includingAll_Err; [| exact H]; intros ? ? Hr; eapply classOf_Err; exact Hr
    |].
  failing_step H; [| discriminate].
  eapply includingAll_Err; [| exact H]; intros ? ? Hr; eapply classAndBlock_Err; exact Hr.
Qed.

Lemma validationError_code e :
  validationError e ->
  errorCode e = BAD_REQUEST \/ errorCode e = NOT_FOUND
  \/ errorCode e = INTERNAL_SERVER_ERROR.
Proof. intros []; simpl; auto. Qed.

(** C3, as the code has it. Over a store with referential integrity, a
    validation whose input the schema accepts fails with [NOT_FOUND] when
    the class to schedule (the session to move, for a move) is absent, and
    with [NOT_FOUND] when that row is present and the target block is absent;
    otherwise it returns a verdict, so no scheduling conflict makes it fail.
    The target room is looked up nowhere: its absence changes nothing of
    this. *)
Theorem validation_fails_only_with_not_found (db : DB.t) :
  refsOk db = true ->
  (forall input,
     1 <= ValidateSessionCreateInput.targetDayOfWeek input <= 5 ->
     match findUnique Class.id (ValidateSessionCreateInput.classId input)
             (DB.class db),
           findUnique Block.id (ValidateSessionCreateInput.targetBlockId input)
             (DB.block db) with
     | None, _ =>
         validateSessionCreate db input
         = Err (Thrown NOT_FOUND "Class not found")
     | Some _, None =>
         validateSessionCreate db input
         = Err (Thrown NOT_FOUND "Target block not found")
     | Some _, Some _ => exists v, validateSessionCreate db input = Ok v
     end)
  /\ (forall input,
        1 <= ValidateSessionMoveInput.targetDayOfWeek input <= 5 ->
        match findUnique ClassSession.id
                (ValidateSessionMoveInput.classSessionId input)
                (DB.classSession db),
              findUnique Block.id
                (ValidateSessionMoveInput.targetBlockId input)
                (DB.block db) with
        | None, _ =>
            validateSessionMove db input
            = Err (Thrown NOT_FOUND "Class session not found")
        | Some _, None =>
            validateSessionMove db input
            = Err (Thrown NOT_FOUND "Target block not found")
        | Some _, Some _ => exists v, validateSessionMove db input = Ok v
        end)
  /\ (forall input e,
        validateSessionCreate db input = Err e -> errorCode e <> CONFLICT)
  /\ (forall input e,
        validateSessionMove db input = Err e -> errorCode e <> CONFLICT).
Proof.
  intros H.
  split; [exact (validateSessionCreate_outcome db H) |].
  split; [exact (validateSessionMove_outcome db H) |].
  split; intros input e He.
  - apply validateSessionCreate_Err, validationError_code in He.
    destruct He as [-> | [-> | ->]]; discriminate.
  - apply validateSessionMove_Err, validationError_code in He.
    destruct He as [-> | [-> | ->]]; discriminate.
Qed.

Lemma validation_fails_only_with_not_found_witness :
  refsOk school = true
  /\ validateSessionCreate school (ValidateSessionCreateInput.mk 9 1 2 1 1)
     = Err (Thrown NOT_FOUND "Class not found")
  /\ validateSessionMove school (ValidateSessionMoveInput.mk 3 9 2 1 1)
     = Err (Thrown NOT_FOUND "Target block not found")
  /\ (exists v,
        validateSessionCreate school (ValidateSessionCreateInput.mk 2 1 2 99 1)
        = Ok v).
Proof.
  split; [reflexivity |].
  destruct (validation_fails_only_with_not_found school eq_refl)
    as (Hcreate & Hmove & _).
  split; [| split].
  - apply (Hcreate (ValidateSessionCreateInput.mk 9 1 2 1 1)); simpl; lia.
  - apply (Hmove (ValidateSessionMoveInput.mk 3 9 2 1 1)); simpl; lia.
  - apply (Hcreate (ValidateSessionCreateInput.mk 2 1 2 99 1)); simpl; lia.
Defined.

(** C3, as stated, fails for the room: room 99 is not in the store, and both
    validations into it return a verdict instead of failing with
    [NOT_FOUND]. *)
Lemma missing_room_is_not_reported :
  findUnique Room.id 99 (DB.room school) = None
  /\ validateSessionCreate school (ValidateSessionCreateInput.mk 2 1 2 99 1)
     = Ok {| ValidationResult.valid := true;
             ValidationResult.conflicts := [];
             ValidationResult.warnings := [] |}
  /\ validateSessionMove school (ValidateSessionMoveInput.mk 3 1 2 99 1)
     = Ok {| ValidationResult.valid := true;
             ValidationResult.conflicts := [];
             ValidationResult.warnings := [] |}.
Proof. repeat split. Qed.

(** ** Two placements in the small school *)

(** T1 teaches Math10 in (B1, Monday): moving T1's Math11 session there, into
    another room, is refused with one [teacher] conflict, related to the
    Math10 session. *)
Example move_into_a_slot_of_the_same_teacher :
  validateSessionMove school (ValidateSessionMoveInput.mk 2 1 1 2 1)
  = Ok {| ValidationResult.valid := false;
          ValidationResult.conflicts :=
            [{| Conflict.type := ConflictType.teacher;
                Conflict.message :=
                  "T1 is already teaching Math10 in B1 (Monday).";
                Conflict.relatedSessionId := Some 1 |}];
          ValidationResult.warnings := [] |}.
Proof. reflexivity. Qed.

(** Bio10 is in (B2, Tuesday, R3): creating a session of the shared class
    Spanish in (B2, Tuesday, R2) is refused with a [homeroom] conflict, the
    rooms differing. *)
Example create_shared_beside_grade_specific :
  validateSessionCreate school (ValidateSessionCreateInput.mk 3 2 2 2 1)
  = Ok {| ValidationResult.valid := false;
          ValidationResult.conflicts :=
            [{| Conflict.type := ConflictType.homeroom;
                Conflict.message :=
                  "Cannot schedule shared class. Bio10 (grade-specific) is already scheduled in B2 (Tuesday).";
                Conflict.relatedSessionId := Some 3 |}];
          ValidationResult.warnings := [] |}.
Proof. reflexivity. Qed.

(** ** Transactions and writes *)

Lemma txBind_Ok {A B} (m : Tx A) (k : A -> Tx B) db b db' :
  txBind m k db = (Ok b, db') ->
  exists a db1, m db = (Ok a, db1) /\ k a db1 = (Ok b, db').
Proof.
  unfold txBind; destruct (m db) as [[a|e] db1]; intros H;
    [eauto | discriminate].
Qed.

Lemma forOf_app {A B} (body : A -> B -> Tx A) xs ys a db :
  forOf body (xs ++ ys) a db
  = match forOf body xs a db with
    | (Ok a', db') => forOf body ys a' db'
    | (Err e, db') => (Err e, db')
    end.
Proof.
  revert a db; induction xs as [|x xs IH]; intros a db; simpl;
    [reflexivity |].
  unfold txBind; destruct (body a x db) as [[a'|e] db']; [apply IH |].
  reflexivity.
Qed.

Lemma classSession_update_Ok id data db updated db' :
  classSession_update id data db = (Ok updated, db') ->
  exists row,
    findUnique ClassSession.id id (DB.classSession db) = Some row
    /\ updated = data row
    /\ slotRefsOk db updated = true
    /\ slotTaken (findMany (notSession id) (DB.classSession db)) updated
       = false
    /\ db' = setClassSessions db
               (replaceRow id updated (DB.classSession db))
               (DB.classSessionSeq db).
Proof.
  unfold classSession_update.
  destruct (findUnique ClassSession.id id (DB.classSession db)) as [row|];
    [| discriminate].
  destruct (slotRefsOk db (data row)) eqn:Hrefs; simpl;
    [| discriminate].
  destruct (slotTaken _ (data row)) eqn:Hslot; [discriminate |].
  intros H; injection H as <- <-; eauto 6.
Qed.

Lemma classSession_create_Ok classId blockId dayOfWeek roomId semesterId
  homeroomId db created db' :
  classSession_create classId blockId dayOfWeek roomId semesterId homeroomId db
  = (Ok created, db') ->
  created = {| ClassSession.id := DB.classSessionSeq db;
               ClassSession.classId := classId;
               ClassSession.blockId := blockId;
               ClassSession.dayOfWeek := dayOfWeek;
               ClassSession.roomId := roomId;
               ClassSession.semesterId := semesterId;
               ClassSession.homeroomId := homeroomId |}
  /\ classSessionRefsOk db created = true
  /\ slotTaken (DB.classSession db) created = false
  /\ db' = setClassSessions db (DB.classSession db ++ [created])
             (DB.classSessionSeq db + 1).
Proof.
  unfold classSession_create.
  match goal with
  | |- context [classSessionRefsOk db ?c] =>
      destruct (slotTaken (DB.classSession db) c) eqn:Hslot; [discriminate |];
      destruct (classSessionRefsOk db c) eqn:Hrefs; simpl; [| discriminate]
  end.
  intros H; injection H as <- <-; auto.
Qed.

Lemma replaceRow_ids id updated rows :
  ClassSession.id updated = id ->
  map ClassSession.id (replaceRow id updated rows) = map ClassSession.id rows.
Proof.
  intros Hid; unfold replaceRow; rewrite map_map; apply map_ext_in.
  intros r _; destruct (ClassSession.id r =? id) eqn:E; [| reflexivity].
  apply Z.eqb_eq in E; congruence.
Qed.

Lemma findUnique_replaceRow id updated rows row :
  findUnique ClassSession.id id rows = Some row ->
  ClassSession.id updated = id ->
  findUnique ClassSession.id id (replaceRow id updated rows) = Some updated.
Proof.
  intros Hrow Hid; unfold findUnique, replaceRow in *.
  induction rows as [|r rows IH]; simpl in *; [discriminate |].
  destruct (ClassSession.id r =? id) eqn:E.
  - rewrite Hid, Z.eqb_refl; reflexivity.
  - rewrite E; auto.
Qed.

Lemma In_replaceRow_other id updated rows s :
  ClassSession.id updated = id ->
  ClassSession.id s <> id ->
  In s (replaceRow id updated rows) <-> In s rows.
Proof.
  intros Hid Hs; unfold replaceRow; rewrite in_map_iff; split.
  - intros (r & Hr & Hin).
    destruct (ClassSession.id r =? id); congruence.
  - intros Hin; exists s; split; [| exact Hin].
    destruct (ClassSession.id s =? id) eqn:E; [| reflexivity].
    apply Z.eqb_eq in E; contradiction.
Qed.

(** Inverts the binds of a hypothesis [H : m db = (Ok v, db')] on the
    transaction client, from the outside in. *)
Ltac invert_tx H :=
  repeat
    (cbv beta zeta in H;
     match type of H with
     | txBind _ _ _ = (Ok _, _) =>
         let a := fresh "a" in
         let db1 := fresh "db" in
         let E := fresh "E" in
         apply txBind_Ok in H; destruct H as (a & db1 & E & H)
     end).

Lemma txRead_Ok {A} (query : DB.t -> Result A) db a db' :
  txRead query db = (Ok a, db') -> query db = Ok a /\ db' = db.
Proof. unfold txRead; intros H; injection H as -> ->; auto. Qed.

Lemma gradeConflictCheck_Ok where_ grade gradeId db u db' :
  gradeConflictCheck where_ grade gradeId db = (Ok u, db') ->
  findFirst (where_ db) (DB.classSession db) = None /\ db' = db.
Proof.
  unfold gradeConflictCheck; intros H; invert_tx H.
  apply txRead_Ok in E; destruct E as [E ->].
  apply including_Ok in E.
  destruct a as [[s c]|]; [discriminate |].
  injection H as _ <-; auto.
Qed.

(** ** One change of a batch *)

Lemma truthy_narrowed (x : option Z) :
  truthy x = true -> x = Some (narrowed x) /\ narrowed x <> 0.
Proof.
  destruct x as [v|]; simpl; [| discriminate].
  rewrite negb_true_iff, Z.eqb_neq; auto.
Qed.

(** What a move that returns has done. *)
Lemma applyChange_move_Ok results change db results' db' :
  Change.type change = ChangeType.move ->
  applyChange results change db = (Ok results', db') ->
  let sessionId := Change.sessionId change in
  let blockId := narrowed (Change.blockId change) in
  let dayOfWeek := narrowed (Change.dayOfWeek change) in
  let roomId := narrowed (Change.roomId change) in
  exists session sessionClass updated,
    findUnique ClassSession.id sessionId (DB.classSession db) = Some session
    /\ findUnique Class.id (ClassSession.classId session) (DB.class db)
       = Some sessionClass
    /\ (truthy (Class.gradeId sessionClass) = true ->
        findFirst
          (fun s =>
             notSession sessionId s
             && inSlot blockId dayOfWeek (ClassSession.semesterId session) s
             && classGradeIs db (Class.gradeId sessionClass) s)
          (DB.classSession db) = None)
    /\ classSession_update sessionId (setSlot blockId dayOfWeek roomId) db
       = (Ok updated, db')
    /\ results' = push results
                    {| BatchResult.type := ChangeType.move;
                       BatchResult.id := ClassSession.id updated |}.
Proof.
  intros Htype H; cbv zeta.
  unfold applyChange in H; rewrite Htype in H.
  destruct (negb (truthy (Change.blockId change))
            || negb (truthy (Change.dayOfWeek change))
            || negb (truthy (Change.roomId change))
            || negb (truthy (Some (Change.sessionId change))));
    [discriminate |].
  invert_tx H.
  apply txRead_Ok in E; destruct E as [E ->].
  apply including_Ok in E.
  destruct a as [[session sessionClass]|]; [| discriminate].
  destruct E as [Hsession Hclass]; apply classOf_Ok in Hclass.
  invert_tx H.
  apply txRead_Ok in E; destruct E as [_ ->].
  injection H as <- <-.
  exists session, sessionClass, a1; repeat split; auto.
  - intros Hg; rewrite Hg in E0.
    apply gradeConflictCheck_Ok in E0; tauto.
  - destruct (truthy (Class.gradeId sessionClass)).
    + apply gradeConflictCheck_Ok in E0; destruct E0 as [_ ->]; exact E1.
    + injection E0 as _ <-; exact E1.
Qed.

(** C10. A move applied by a batch changes, in the store, only the block,
    the day and the room of the moved session: the row keeps its identifier,
    class, semester and homeroom, every other class session and every teacher
    link is as before. The [semesterId] field of the change is not read; the
    grade conflict check that let the move through ran in the session's own
    semester. *)
Theorem batch_move_changes_only_the_slot (results : list BatchResult.t)
  (change : Change.t) (db : DB.t) (results' : list BatchResult.t)
  (db' : DB.t) :
  Change.type change = ChangeType.move ->
  applyChange results change db = (Ok results', db') ->
  let sessionId := Change.sessionId change in
  let blockId := narrowed (Change.blockId change) in
  let dayOfWeek := narrowed (Change.dayOfWeek change) in
  let roomId := narrowed (Change.roomId change) in
  exists session sessionClass,
    findUnique ClassSession.id sessionId (DB.classSession db) = Some session
    /\ findUnique Class.id (ClassSession.classId session) (DB.class db)
       = Some sessionClass
    /\ findUnique ClassSession.id sessionId (DB.classSession db')
       = Some {| ClassSession.id := ClassSession.id session;
                 ClassSession.classId := ClassSession.classId session;
                 ClassSession.blockId := blockId;
                 ClassSession.dayOfWeek := dayOfWeek;
                 ClassSession.roomId := roomId;
                 ClassSession.semesterId := ClassSession.semesterId session;
                 ClassSession.homeroomId := ClassSession.homeroomId session |}
    /\ (forall s,
          ClassSession.id s <> sessionId ->
          (In s (DB.classSession db') <-> In s (DB.classSession db)))
    /\ DB.classSessionTeacher db' = DB.classSessionTeacher db
    /\ DB.class db' = DB.class db
    /\ (forall semesterId,
          applyChange results (withSemesterId semesterId change) db
          = applyChange results change db)
    /\ (truthy (Class.gradeId sessionClass) = true ->
        forall other,
          In other (DB.classSession db) ->
          ClassSession.id other <> sessionId ->
          inSlot blockId dayOfWeek (ClassSession.semesterId session) other
          = true ->
          classGradeIs db (Class.gradeId sessionClass) other = false).
Proof.
  intros Htype H; cbv zeta.
  pose proof (applyChange_move_Ok _ _ _ _ _ Htype H) as Hmove.
  cbv zeta in Hmove.
  destruct Hmove as (session & cls & updated & Hsession & Hcls & Hgrade
                     & Hupdate & _).
  apply classSession_update_Ok in Hupdate.
  destruct Hupdate as (row & Hrow & -> & _ & _ & ->).
  assert (row = session) by congruence; subst row.
  assert (Hid : ClassSession.id session = Change.sessionId change)
    by (apply findUnique_Some in Hsession; tauto).
  exists session, cls; repeat split; auto.
  - simpl; eapply findUnique_replaceRow; eauto.
  - simpl; apply In_replaceRow_other; auto.
  - simpl; apply In_replaceRow_other; auto.
  - intros semesterId; unfold applyChange, withSemesterId; simpl.
    rewrite Htype; reflexivity.
  - intros Hg other Hother Hneq Hslot.
    pose proof (findFirst_None _ _ (Hgrade Hg) other Hother) as Hnone.
    simpl in Hnone; rewrite Hslot in Hnone.
    apply notSession_true in Hneq; rewrite Hneq in Hnone.
    exact Hnone.
Qed.

Lemma batch_move_changes_only_the_slot_witness :
  exists results' db',
    applyChange []
      (Change.mk ChangeType.move 3 (Some 1) (Some 2) (Some 3) None (Some 7)
         None None)
      school = (Ok results', db')
    /\ findUnique ClassSession.id 3 (DB.classSession db')
       = Some (ClassSession.mk 3 4 1 2 3 1 None)
    /\ DB.classSessionTeacher db' = DB.classSessionTeacher school.
Proof.
  eexists _, _; split; [cbv; reflexivity |].
  destruct (batch_move_changes_only_the_slot []
              (Change.mk ChangeType.move 3 (Some 1) (Some 2) (Some 3) None
                 (Some 7) None None)
              school _ _ eq_refl eq_refl)
    as (session & cls & Hsession & _ & Hmoved & _ & Hlinks & _).
  injection Hsession as <-.
  split; [exact Hmoved | exact Hlinks].
Defined.

Lemma classSessionTeacher_create_Ok classSessionId teacherId role db created
  db' :
  classSessionTeacher_create classSessionId teacherId role db
  = (Ok created, db') ->
  created = {| ClassSessionTeacher.id := DB.classSessionTeacherSeq db;
               ClassSessionTeacher.classSessionId := classSessionId;
               ClassSessionTeacher.teacherId := teacherId;
               ClassSessionTeacher.role := role |}
  /\ hasKey ClassSession.id classSessionId (DB.classSession db) = true
  /\ hasKey Teacher.id teacherId (DB.teacher db) = true
  /\ db' = setClassSessionTeachers db (DB.classSessionTeacher db ++ [created])
             (DB.classSessionTeacherSeq db + 1).
Proof.
  unfold classSessionTeacher_create.
  destruct (hasKey ClassSession.id classSessionId (DB.classSession db));
    [| discriminate].
  destruct (hasKey Teacher.id teacherId (DB.teacher db)); [| discriminate].
  simpl.
  destruct (existsb _ (DB.classSessionTeacher db)); [discriminate |].
  intros H; injection H as <- <-; auto.
Qed.

Lemma filter_filter_negb {A} (p : A -> bool) (xs : list A) :
  filter p (filter (fun x => negb (p x)) xs) = [].
Proof.
  induction xs as [|x xs IH]; simpl; [reflexivity |].
  destruct (p x) eqn:E; simpl; [exact IH |].
  rewrite E; exact IH.
Qed.

Lemma filter_idempotent {A} (p : A -> bool) (xs : list A) :
  filter p (filter p xs) = filter p xs.
Proof.
  induction xs as [|x xs IH]; simpl; [reflexivity |].
  destruct (p x) eqn:E; simpl; [rewrite E, IH |]; auto.
Qed.

(** C9. An update_teacher applied by a batch leaves the session with exactly
    one teacher link, that of the supplied teacher with role "Primary":
    whatever links the session had are gone. The links of the other
    sessions and the class sessions themselves are as before. *)
Theorem update_teacher_replaces_every_link (results : list BatchResult.t)
  (change : Change.t) (db : DB.t) (results' : list BatchResult.t)
  (db' : DB.t) :
  Change.type change = ChangeType.update_teacher ->
  applyChange results change db = (Ok results', db') ->
  exists teacherId,
    Change.teacherId change = Some teacherId
    /\ linksOf db' (Change.sessionId change)
       = [{| ClassSessionTeacher.id := DB.classSessionTeacherSeq db;
             ClassSessionTeacher.classSessionId := Change.sessionId change;
             ClassSessionTeacher.teacherId := teacherId;
             ClassSessionTeacher.role := "Primary" |}]
    /\ linksElsewhere db' (Change.sessionId change)
       = linksElsewhere db (Change.sessionId change)
    /\ DB.classSession db' = DB.classSession db.
Proof.
  intros Htype H.
  unfold applyChange in H; rewrite Htype in H.
  destruct (truthy (Change.teacherId change)) eqn:Ht; [| discriminate].
  destruct (truthy (Some (Change.sessionId change))); [| discriminate].
  simpl in H; invert_tx H.
  unfold classSessionTeacher_deleteMany in E; injection E as _ <-.
  apply classSessionTeacher_create_Ok in E0.
  destruct E0 as (-> & _ & _ & ->).
  injection H as _ <-.
  apply truthy_narrowed in Ht; destruct Ht as [Ht _].
  exists (narrowed (Change.teacherId change)); split; [exact Ht |].
  unfold linksOf, linksElsewhere, findMany; simpl.
  rewrite !filter_app; simpl; rewrite Z.eqb_refl; simpl.
  rewrite (filter_filter_negb
             (fun l =>
                ClassSessionTeacher.classSessionId l
                =? Change.sessionId change)).
  rewrite filter_idempotent, app_nil_r; auto.
Qed.

Lemma update_teacher_replaces_every_link_witness :
  linksOf school 1
  = [ClassSessionTeacher.mk 1 1 1 "Primary";
     ClassSessionTeacher.mk 2 1 2 "Assistant"]
  /\ exists results' db',
       applyChange []
         (Change.mk ChangeType.update_teacher 1 None None None None None None
            (Some 2))
         school = (Ok results', db')
       /\ linksOf db' 1 = [ClassSessionTeacher.mk 5 1 2 "Primary"]
       /\ linksElsewhere db' 1 = linksElsewhere school 1.
Proof.
  split; [reflexivity |].
  eexists _, _; split; [cbv; reflexivity |].
  destruct (update_teacher_replaces_every_link []
              (Change.mk ChangeType.update_teacher 1 None None None None None
                 None (Some 2))
              school _ _ eq_refl eq_refl)
    as (teacherId & Hteacher & Hlinks & Helsewhere & _).
  injection Hteacher as <-.
  split; [exact Hlinks | exact Helsewhere].
Defined.

(** ** The results of a batch *)

Lemma skipped_class db db' change :
  DB.class db' = DB.class db -> skipped db' change = skipped db change.
Proof. unfold skipped; intros ->; reflexivity. Qed.

Lemma classSession_update_frame id data db updated db' :
  (forall row, ClassSession.id (data row) = ClassSession.id row) ->
  classSession_update id data db = (Ok updated, db') ->
  ClassSession.id updated = id
  /\ DB.class db' = DB.class db
  /\ DB.classSessionSeq db' = DB.classSessionSeq db
  /\ map ClassSession.id (DB.classSession db')
     = map ClassSession.id (DB.classSession db).
Proof.
  intros Hdata H; apply classSession_update_Ok in H.
  destruct H as (row & Hrow & -> & _ & _ & ->).
  apply findUnique_Some in Hrow; destruct Hrow as [_ Hid].
  assert (ClassSession.id (data row) = id) by (rewrite Hdata; exact Hid).
  repeat split; auto.
  simpl; apply replaceRow_ids; assumption.
Qed.

(** What one iteration of the loop does to the results, the classes, the
    identifier counter and the identifiers in use. *)
Lemma applyChange_Ok results change db results' db' :
  applyChange results change db = (Ok results', db') ->
  DB.class db' = DB.class db
  /\ DB.classSessionSeq db <= DB.classSessionSeq db'
  /\ incl (map ClassSession.id (DB.classSession db))
       (map ClassSession.id (DB.classSession db'))
  /\ ((skipped db change = true /\ results' = results)
      \/ (skipped db change = false
          /\ exists r,
               results' = push results r
               /\ BatchResult.type r = Change.type change
               /\ match Change.type change with
                  | ChangeType.create =>
                      BatchResult.id r = DB.classSessionSeq db
                      /\ DB.classSessionSeq db' = DB.classSessionSeq db + 1
                      /\ In (BatchResult.id r)
                           (map ClassSession.id (DB.classSession db'))
                  | _ => BatchResult.id r = Change.sessionId change
                  end)).
Proof.
  intros H.
  destruct (Change.type change) eqn:Htype.
  - (* move *)
    pose proof (applyChange_move_Ok _ _ _ _ _ Htype H) as Hmove.
    cbv zeta in Hmove.
    destruct Hmove as (session & cls & updated & _ & _ & _ & Hupdate & ->).
    apply classSession_update_frame in Hupdate; [| reflexivity].
    destruct Hupdate as (Hid & Hclass & Hseq & Hids).
    repeat split; auto; [lia | rewrite Hids; apply incl_refl |].
    right; split; [unfold skipped; rewrite Htype; reflexivity |].
    eexists; split; [reflexivity |]; simpl; auto.
  - (* create *)
    unfold applyChange in H; rewrite Htype in H.
    destruct (negb (truthy (Change.classId change))
              || negb (truthy (Change.blockId change))
              || negb (truthy (Change.dayOfWeek change))
              || negb (truthy (Change.roomId change))
              || negb (truthy (Change.semesterId change)));
      [discriminate |].
    invert_tx H.
    apply txRead_Ok in E; destruct E as [E ->].
    injection E as <-.
    destruct (findUnique Class.id (narrowed (Change.classId change))
                (DB.class db)) as [cls|] eqn:Hcls.
    + invert_tx H.
      apply txRead_Ok in E; destruct E as [_ ->].
      assert (db1 = db).
      { destruct (truthy (Class.gradeId cls)).
        - apply gradeConflictCheck_Ok in E0; tauto.
        - injection E0 as _ <-; reflexivity. }
      subst db1.
      apply classSession_create_Ok in E1.
      destruct E1 as (-> & _ & _ & ->).
      injection H as <- <-; simpl.
      repeat split; auto; [lia | rewrite map_app; apply incl_appl, incl_refl |].
      right; split; [unfold skipped; rewrite Htype, Hcls; reflexivity |].
      eexists; split; [reflexivity |]; simpl.
      repeat split; auto.
      rewrite map_app; apply in_or_app; right; left; reflexivity.
    + injection H as <- <-.
      repeat split; auto; [lia | apply incl_refl |].
      left; split; [unfold skipped; rewrite Htype, Hcls |]; reflexivity.
  - (* update_room *)
    unfold applyChange in H; rewrite Htype in H.
    destruct (negb (truthy (Change.roomId change))
              || negb (truthy (Some (Change.sessionId change))));
      [discriminate |].
    invert_tx H.
    apply classSession_update_frame in E; [| reflexivity].
    destruct E as (Hid & Hclass & Hseq & Hids).
    injection H as <- <-.
    repeat split; auto; [lia | rewrite Hids; apply incl_refl |].
    right; split; [unfold skipped; rewrite Htype; reflexivity |].
    eexists; split; [reflexivity |]; simpl; auto.
  - (* update_teacher *)
    unfold applyChange in H; rewrite Htype in H.
    destruct (negb (truthy (Change.teacherId change))
              || negb (truthy (Some (Change.sessionId change))));
      [discriminate |].
    invert_tx H.
    unfold classSessionTeacher_deleteMany in E; injection E as _ <-.
    apply classSessionTeacher_create_Ok in E0.
    destruct E0 as (_ & _ & _ & ->).
    injection H as <- <-; simpl.
    repeat split; auto; [lia | apply incl_refl |].
    right; split; [unfold skipped; rewrite Htype; reflexivity |].
    eexists; split; [reflexivity |]; simpl; auto.
Qed.

Lemma forOf_applyChange_Ok changes acc db results db' :
  forOf applyChange changes acc db = (Ok results, db') ->
  DB.class db' = DB.class db
  /\ DB.classSessionSeq db <= DB.classSessionSeq db'
  /\ incl (map ClassSession.id (DB.classSession db))
       (map ClassSession.id (DB.classSession db'))
  /\ exists new,
       results = acc ++ new
       /\ Forall2
            (fun change r =>
               BatchResult.type r = Change.type change
               /\ match Change.type change with
                  | ChangeType.create =>
                      DB.classSessionSeq db <= BatchResult.id r
                      < DB.classSessionSeq db'
                      /\ In (BatchResult.id r)
                           (map ClassSession.id (DB.classSession db'))
                  | _ => BatchResult.id r = Change.sessionId change
                  end)
            (filter (fun change => negb (skipped db change)) changes) new.
Proof.
  revert acc db; induction changes as [|change changes IH]; intros acc db H.
  - simpl in H; injection H as <- <-.
    repeat split; [lia | apply incl_refl |].
    exists []; split; [symmetry; apply app_nil_r | constructor].
  - simpl in H; apply txBind_Ok in H; destruct H as (acc1 & db1 & H1 & H).
    apply applyChange_Ok in H1; destruct H1 as (Hc1 & Hs1 & Hi1 & Hr1).
    apply IH in H; destruct H as (Hc & Hs & Hi & new & -> & Hnew).
    repeat split; [congruence | lia | eapply incl_tran; eauto |].
    assert (Hnew' :
      Forall2
        (fun change r =>
           BatchResult.type r = Change.type change
           /\ match Change.type change with
              | ChangeType.create =>
                  DB.classSessionSeq db <= BatchResult.id r
                  < DB.classSessionSeq db'
                  /\ In (BatchResult.id r)
                       (map ClassSession.id (DB.classSession db'))
              | _ => BatchResult.id r = Change.sessionId change
              end)
        (filter (fun change => negb (skipped db change)) changes) new).
    { rewrite (filter_ext _ (fun change => negb (skipped db1 change)))
        by (intros c; rewrite (skipped_class db db1 c Hc1); reflexivity).
      eapply Forall2_impl; [| exact Hnew].
      intros c r [Ht Hr]; split; [exact Ht |].
      destruct (Change.type c); auto.
      destruct Hr; split; [lia | assumption]. }
    simpl.
    destruct Hr1 as [[Hskip ->] | (Hskip & r & -> & Ht & Hr)]; rewrite Hskip;
      simpl.
    + exists new; auto.
    + exists (r :: new); split; [unfold push; rewrite <- app_assoc; reflexivity |].
      constructor; [| exact Hnew'].
      split; [exact Ht |].
      destruct (Change.type change); auto.
      destruct Hr as (Hid & Hseq & Hin); split; [lia |].
      apply Hi; exact Hin.
Qed.

Lemma batchSaveChanges_Ok db changes results db' :
  batchSaveChanges db changes = (Ok results, db') ->
  forallb (fun change => dayAccepted (Change.dayOfWeek change)) changes = true
  /\ batchBody changes db = (Ok results, db').
Proof.
  unfold batchSaveChanges, transaction.
  destruct (forallb _ changes); [| discriminate].
  destruct (batchBody changes db) as [[r|e] db1]; [| discriminate].
  intros H; injection H as <- <-; auto.
Qed.

Lemma applyChange_create_Ok results change db results' db' :
  Change.type change = ChangeType.create ->
  applyChange results change db = (Ok results', db') ->
  let classId := narrowed (Change.classId change) in
  let blockId := narrowed (Change.blockId change) in
  let dayOfWeek := narrowed (Change.dayOfWeek change) in
  let roomId := narrowed (Change.roomId change) in
  let semesterId := narrowed (Change.semesterId change) in
  (findUnique Class.id classId (DB.class db) = None
   /\ results' = results /\ db' = db)
  \/ exists cls created,
       findUnique Class.id classId (DB.class db) = Some cls
       /\ (truthy (Class.gradeId cls) = true ->
           findFirst
             (fun s =>
                inSlot blockId dayOfWeek semesterId s
                && classGradeIs db (Class.gradeId cls) s)
             (DB.classSession db) = None)
       /\ classSession_create classId blockId dayOfWeek roomId semesterId
            (Change.homeroomId change) db = (Ok created, db')
       /\ results' = push results
                       {| BatchResult.type := ChangeType.create;
                          BatchResult.id := ClassSession.id created |}.
Proof.
  intros Htype H; cbv zeta.
  unfold applyChange in H; rewrite Htype in H.
  destruct (negb (truthy (Change.classId change))
            || negb (truthy (Change.blockId change))
            || negb (truthy (Change.dayOfWeek change))
            || negb (truthy (Change.roomId change))
            || negb (truthy (Change.semesterId change)));
    [discriminate |].
  invert_tx H.
  apply txRead_Ok in E; destruct E as [E ->].
  injection E as <-.
  destruct (findUnique Class.id (narrowed (Change.classId change))
              (DB.class db)) as [cls|] eqn:Hcls.
  - right; invert_tx H.
    apply txRead_Ok in E; destruct E as [_ ->].
    injection H as <- <-.
    exists cls; eexists; split; [reflexivity |].
    split; [| split; [| reflexivity]].
    + intros Hg; rewrite Hg in E0.
      apply gradeConflictCheck_Ok in E0; tauto.
    + destruct (truthy (Class.gradeId cls)).
      * apply gradeConflictCheck_Ok in E0; destruct E0 as [_ ->]; exact E1.
      * injection E0 as _ <-; exact E1.
  - left; injection H as <- <-; auto.
Qed.

(** One iteration of the loop, case by case: what it appends to the
    results, what it does to the counter and to the class sessions. *)
Lemma applyChange_cases results change db results' db' :
  applyChange results change db = (Ok results', db') ->
  (skipped db change = true /\ results' = results /\ db' = db)
  \/ (Change.type change = ChangeType.create
      /\ skipped db change = false
      /\ results' = push results
                      {| BatchResult.type := ChangeType.create;
                         BatchResult.id := DB.classSessionSeq db |}
      /\ db' = setClassSessions db
                 (DB.classSession db ++ [batchRowOf db change])
                 (DB.classSessionSeq db + 1))
  \/ (Change.type change <> ChangeType.create
      /\ skipped db change = false
      /\ results' = push results
                      {| BatchResult.type := Change.type change;
                         BatchResult.id := Change.sessionId change |}
      /\ DB.classSessionSeq db' = DB.classSessionSeq db
      /\ DB.class db' = DB.class db
      /\ (DB.classSession db' = DB.classSession db
          \/ exists row updated,
               findUnique ClassSession.id (Change.sessionId change)
                 (DB.classSession db) = Some row
               /\ ClassSession.id updated = Change.sessionId change
               /\ ClassSession.classId updated = ClassSession.classId row
               /\ ClassSession.semesterId updated
                  = ClassSession.semesterId row
               /\ ClassSession.homeroomId updated
                  = ClassSession.homeroomId row
               /\ DB.classSession db'
                  = replaceRow (Change.sessionId change) updated
                      (DB.classSession db))).
Proof.
  intros H.
  destruct (Change.type change) eqn:Htype.
  - (* move *)
    pose proof (applyChange_move_Ok _ _ _ _ _ Htype H) as Hmove.
    cbv zeta in Hmove.
    destruct Hmove as (session & cls & updated & Hsession & _ & _ & Hupdate
                       & ->).
    apply classSession_update_Ok in Hupdate.
    destruct Hupdate as (row & Hrow & -> & _ & _ & ->).
    assert (Hid : ClassSession.id row = Change.sessionId change)
      by (apply findUnique_Some in Hrow; tauto).
    right; right.
    split; [discriminate |].
    split; [unfold skipped; rewrite Htype; reflexivity |].
    split; [simpl; rewrite Hid; reflexivity |].
    split; [reflexivity |].
    split; [reflexivity |].
    right.
    exists row,
      (setSlot (narrowed (Change.blockId change))
         (narrowed (Change.dayOfWeek change))
         (narrowed (Change.roomId change)) row).
    repeat split; simpl; auto.
  - (* create *)
    pose proof (applyChange_create_Ok _ _ _ _ _ Htype H) as Hcreate.
    cbv zeta in Hcreate.
    destruct Hcreate as [(Hnone & -> & ->) | Hcreate].
    + left; unfold skipped; rewrite Htype, Hnone; auto.
    + destruct Hcreate as (cls & created & Hcls & _ & Hcreate & ->).
      apply classSession_create_Ok in Hcreate.
      destruct Hcreate as (Hcreated & _ & _ & ->).
      change (created = batchRowOf db change) in Hcreated; subst created.
      right; left.
      split; [reflexivity |].
      split; [unfold skipped; rewrite Htype, Hcls; reflexivity |].
      split; reflexivity.
  - (* update_room *)
    unfold applyChange in H; rewrite Htype in H.
    destruct (negb (truthy (Change.roomId change))
              || negb (truthy (Some (Change.sessionId change))));
      [discriminate |].
    invert_tx H.
    apply classSession_update_Ok in E.
    destruct E as (row & Hrow & Hupdated & _ & _ & ->).
    injection H as <- <-; subst a.
    assert (Hid : ClassSession.id row = Change.sessionId change)
      by (apply findUnique_Some in Hrow; tauto).
    right; right.
    split; [discriminate |].
    split; [unfold skipped; rewrite Htype; reflexivity |].
    split; [simpl; rewrite Hid; reflexivity |].
    split; [reflexivity |].
    split; [reflexivity |].
    right; exists row, (setRoom (narrowed (Change.roomId change)) row).
    repeat split; simpl; auto.
  - (* update_teacher *)
    unfold applyChange in H; rewrite Htype in H.
    destruct (negb (truthy (Change.teacherId change))
              || negb (truthy (Some (Change.sessionId change))));
      [discriminate |].
    invert_tx H.
    unfold classSessionTeacher_deleteMany in E; injection E as _ <-.
    apply classSessionTeacher_create_Ok in E0.
    destruct E0 as (_ & _ & _ & ->).
    injection H as <- <-.
    right; right.
    split; [discriminate |].
    split; [unfold skipped; rewrite Htype; reflexivity |].
    repeat split; left; reflexivity.
Qed.

Lemma resultsOf_class db db' next changes :
  DB.class db' = DB.class db ->
  resultsOf db' next changes = resultsOf db next changes.
Proof.
  intros Hclass; revert next.
  induction changes as [|change changes IH]; intros next; simpl;
    [reflexivity |].
  rewrite (skipped_class db db' change Hclass), !IH; reflexivity.
Qed.

(** The results of the loop are those read off the changes. *)
Lemma forOf_applyChange_exact changes acc db results db' :
  forOf applyChange changes acc db = (Ok results, db') ->
  results = acc ++ resultsOf db (DB.classSessionSeq db) changes.
Proof.
  revert acc db; induction changes as [|change changes IH]; intros acc db H.
  - simpl in H; injection H as <- _; symmetry; apply app_nil_r.
  - simpl in H; apply txBind_Ok in H; destruct H as (acc1 & db1 & H1 & H).
    apply IH in H; subst results.
    apply applyChange_cases in H1; cbn [resultsOf].
    destruct H1 as [(Hskip & -> & ->)
                   | [(Htype & Hskip & -> & ->)
                     | (Htype & Hskip & -> & Hseq & Hclass & _)]];
      rewrite Hskip.
    + reflexivity.
    + rewrite Htype; unfold push; rewrite <- app_assoc; simpl.
      rewrite (resultsOf_class db) by reflexivity; reflexivity.
    + rewrite Hseq, (resultsOf_class db db1) by exact Hclass.
      unfold push; rewrite <- app_assoc; simpl.
      destruct (Change.type change); [| contradiction | |]; reflexivity.
Qed.

(** *** The session a create has added *)

Lemma findUnique_app_Some {A} (key : A -> Z) (k : Z) rows more (r : A) :
  findUnique key k rows = Some r -> findUnique key k (rows ++ more) = Some r.
Proof.
  unfold findUnique; induction rows as [|a rows IH]; simpl; [discriminate |].
  destruct (key a =? k); auto.
Qed.

Lemma findUnique_app_None {A} (key : A -> Z) (k : Z) rows (c : A) :
  findUnique key k rows = None ->
  key c = k ->
  findUnique key k (rows ++ [c]) = Some c.
Proof.
  unfold findUnique; intros Hnone Hc.
  induction rows as [|a rows IH]; simpl in *.
  - rewrite Hc, Z.eqb_refl; reflexivity.
  - destruct (key a =? k); [discriminate | auto].
Qed.

Lemma findUnique_replaceRow_other id updated rows k :
  ClassSession.id updated = id ->
  k <> id ->
  findUnique ClassSession.id k (replaceRow id updated rows)
  = findUnique ClassSession.id k rows.
Proof.
  intros Hid Hk; unfold findUnique, replaceRow.
  induction rows as [|r rows IH]; simpl; [reflexivity |].
  destruct (ClassSession.id r =? id) eqn:E.
  - apply Z.eqb_eq in E.
    replace (ClassSession.id updated =? k) with false
      by (symmetry; apply Z.eqb_neq; congruence).
    replace (ClassSession.id r =? k) with false
      by (symmetry; apply Z.eqb_neq; congruence).
    exact IH.
  - destruct (ClassSession.id r =? k); [reflexivity | exact IH].
Qed.

(** No change of a batch takes a session away, or gives it another class,
    semester or homeroom. *)
Lemma applyChange_tracks results change db results' db' k row :
  applyChange results change db = (Ok results', db') ->
  findUnique ClassSession.id k (DB.classSession db) = Some row ->
  exists row',
    findUnique ClassSession.id k (DB.classSession db') = Some row'
    /\ ClassSession.classId row' = ClassSession.classId row
    /\ ClassSession.semesterId row' = ClassSession.semesterId row
    /\ ClassSession.homeroomId row' = ClassSession.homeroomId row.
Proof.
  intros H Hrow; apply applyChange_cases in H.
  destruct H as [(_ & _ & ->)
                | [(_ & _ & _ & ->)
                  | (_ & _ & _ & _ & _ & [-> | Hupdate])]].
  - exists row; auto.
  - exists row; split; [| auto].
    simpl; apply findUnique_app_Some; exact Hrow.
  - exists row; auto.
  - destruct Hupdate as (row0 & updated & Hrow0 & Hid & Hc & Hs & Hh & ->).
    destruct (Z.eq_dec k (Change.sessionId change)) as [-> | Hk].
    + exists updated; split;
        [eapply findUnique_replaceRow; eassumption |].
      assert (row0 = row) by congruence; subst row0; auto.
    + exists row; split; [| auto].
      rewrite findUnique_replaceRow_other by assumption; exact Hrow.
Qed.

Lemma forOf_applyChange_tracks changes acc db results db' k row :
  forOf applyChange changes acc db = (Ok results, db') ->
  findUnique ClassSession.id k (DB.classSession db) = Some row ->
  exists row',
    findUnique ClassSession.id k (DB.classSession db') = Some row'
    /\ ClassSession.classId row' = ClassSession.classId row
    /\ ClassSession.semesterId row' = ClassSession.semesterId row
    /\ ClassSession.homeroomId row' = ClassSession.homeroomId row.
Proof.
  revert acc db row; induction changes as [|change changes IH];
    intros acc db row H Hrow.
  - simpl in H; injection H as _ <-; exists row; auto.
  - simpl in H; apply txBind_Ok in H; destruct H as (acc1 & db1 & H1 & H).
    destruct (applyChange_tracks _ _ _ _ _ _ _ H1 Hrow)
      as (row1 & Hrow1 & Hc1 & Hs1 & Hh1).
    destruct (IH _ _ _ H Hrow1) as (row' & Hrow' & Hc & Hs & Hh).
    exists row'; repeat split; congruence.
Qed.

Lemma findUnique_ahead rows k :
  (forall s, In s rows -> ClassSession.id s < k) ->
  forall k', k <= k' -> findUnique ClassSession.id k' rows = None.
Proof.
  intros Hrows k' Hk'.
  destruct (findUnique ClassSession.id k' rows) as [s|] eqn:E; [| reflexivity].
  apply findUnique_Some in E; destruct E as [Hin Hid].
  specialize (Hrows s Hin); lia.
Qed.

(** The counter stays ahead of the identifiers in use. *)
Lemma applyChange_ahead results change db results' db' :
  applyChange results change db = (Ok results', db') ->
  (forall s, In s (DB.classSession db) ->
             ClassSession.id s < DB.classSessionSeq db) ->
  forall s, In s (DB.classSession db') ->
            ClassSession.id s < DB.classSessionSeq db'.
Proof.
  intros H Hahead; apply applyChange_cases in H.
  destruct H as [(_ & _ & ->)
                | [(_ & _ & _ & ->)
                  | (_ & _ & _ & Hseq & _ & [Hrows | Hupdate])]].
  - exact Hahead.
  - simpl; intros s Hs; apply in_app_or in Hs.
    destruct Hs as [Hs | [<- | []]]; [specialize (Hahead s Hs) |]; simpl; lia.
  - rewrite Hrows, Hseq; exact Hahead.
  - destruct Hupdate as (row0 & updated & Hrow0 & Hid & _ & _ & _ & Hrows).
    rewrite Hrows, Hseq; intros s Hs.
    apply findUnique_Some in Hrow0; destruct Hrow0 as [Hin0 Hid0].
    unfold replaceRow in Hs; apply in_map_iff in Hs.
    destruct Hs as (r & <- & Hr).
    destruct (ClassSession.id r =? Change.sessionId change);
      [rewrite Hid, <- Hid0; apply Hahead; exact Hin0 | apply Hahead; exact Hr].
Qed.

(** Each create of the loop is recorded with the identifier of the session
    it has added, which the store holds at the end with the class, the
    semester and the homeroom of the change. *)
Lemma forOf_applyChange_identifies changes acc db results db' :
  forOf applyChange changes acc db = (Ok results, db') ->
  (forall s, In s (DB.classSession db) ->
             ClassSession.id s < DB.classSessionSeq db) ->
  exists new,
    results = acc ++ new
    /\ Forall2
         (fun change r =>
            Change.type change = ChangeType.create ->
            DB.classSessionSeq db <= BatchResult.id r
            /\ exists row,
                 findUnique ClassSession.id (BatchResult.id r)
                   (DB.classSession db') = Some row
                 /\ ClassSession.classId row
                    = narrowed (Change.classId change)
                 /\ ClassSession.semesterId row
                    = narrowed (Change.semesterId change)
                 /\ ClassSession.homeroomId row = Change.homeroomId change)
         (filter (fun change => negb (skipped db change)) changes) new.
Proof.
  revert acc db; induction changes as [|change changes IH];
    intros acc db H Hahead.
  - simpl in H; injection H as <- _.
    exists []; split; [symmetry; apply app_nil_r | constructor].
  - simpl in H; apply txBind_Ok in H; destruct H as (acc1 & db1 & H1 & H).
    pose proof (applyChange_ahead _ _ _ _ _ H1 Hahead) as Hahead1.
    pose proof H as Hrest.
    apply IH in H; [| exact Hahead1].
    destruct H as (new & -> & Hnew).
    pose proof (applyChange_cases _ _ _ _ _ H1) as Hcase.
    assert (Hclass : DB.class db1 = DB.class db).
    { destruct Hcase as [(_ & _ & ->)
                        | [(_ & _ & _ & ->) | (_ & _ & _ & _ & Hc & _)]];
        auto. }
    assert (Hseq : DB.classSessionSeq db <= DB.classSessionSeq db1).
    { destruct Hcase as [(_ & _ & ->)
                        | [(_ & _ & _ & ->) | (_ & _ & _ & Hs & _)]];
        simpl; lia. }
    assert (Hnew' :
      Forall2
        (fun change r =>
           Change.type change = ChangeType.create ->
           DB.classSessionSeq db <= BatchResult.id r
           /\ exists row,
                findUnique ClassSession.id (BatchResult.id r)
                  (DB.classSession db') = Some row
                /\ ClassSession.classId row = narrowed (Change.classId change)
                /\ ClassSession.semesterId row
                   = narrowed (Change.semesterId change)
                /\ ClassSession.homeroomId row = Change.homeroomId change)
        (filter (fun change => negb (skipped db change)) changes) new).
    { rewrite (filter_ext _ (fun change => negb (skipped db1 change)))
        by (intros c; rewrite (skipped_class db db1 c Hclass); reflexivity).
      eapply Forall2_impl; [| exact Hnew].
      intros c r Hr Ht; destruct (Hr Ht) as [Hle Hrow].
      split; [lia | exact Hrow]. }
    simpl.
    destruct Hcase as [(Hskip & -> & ->)
                      | [(Htype & Hskip & -> & ->)
                        | (Htype & Hskip & -> & _)]];
      rewrite Hskip; simpl.
    + exists new; auto.
    + eexists (_ :: new); split;
        [unfold push; rewrite <- app_assoc; reflexivity |].
      constructor; [| exact Hnew'].
      intros _; simpl; split; [lia |].
      assert (Hadded :
        findUnique ClassSession.id (DB.classSessionSeq db)
          (DB.classSession db ++ [batchRowOf db change])
        = Some (batchRowOf db change)).
      { apply findUnique_app_None; [| reflexivity].
        apply (findUnique_ahead _ (DB.classSessionSeq db)); [exact Hahead |].
        lia. }
      destruct (forOf_applyChange_tracks _ _ _ _ _ _ _ Hrest Hadded)
        as (row & Hrow & Hc & Hs & Hh).
      exists row; auto.
    + eexists (_ :: new); split;
        [unfold push; rewrite <- app_assoc; reflexivity |].
      constructor; [| exact Hnew'].
      intros Hcreate; contradiction.
Qed.

(** C4, as the code has it. A batch that commits returns one result record
    per change that is not a create of a class absent from the store, in the
    order of the input, and exactly the records read off the changes: each
    carries the type of its change and, for a move, an update_room or an
    update_teacher, the change's session identifier; for a create it carries
    the identifier the store gave the new session, the creates of the batch
    counting on from the counter of the store one by one. When the counter
    is ahead of the identifiers in use, the identifier of a create was that
    of no session before the batch, and after it is that of a session with
    the class, the semester and the homeroom of the change. A create of an
    absent class is passed over in silence; when the batch has none, the
    results are as many as the changes. *)
Theorem batch_results_follow_the_applied_changes (db : DB.t)
  (changes : list Change.t) (results : list BatchResult.t) (db' : DB.t) :
  batchSaveChanges db changes = (Ok results, db') ->
  results = resultsOf db (DB.classSessionSeq db) changes
  /\ Forall2
       (fun change r =>
          BatchResult.type r = Change.type change
          /\ match Change.type change with
             | ChangeType.create =>
                 DB.classSessionSeq db <= BatchResult.id r
                 < DB.classSessionSeq db'
                 /\ In (BatchResult.id r)
                      (map ClassSession.id (DB.classSession db'))
             | _ => BatchResult.id r = Change.sessionId change
             end)
       (filter (fun change => negb (skipped db change)) changes) results
  /\ (forallb (fun change => negb (skipped db change)) changes = true ->
      List.length results = List.length changes)
  /\ ((forall s, In s (DB.classSession db) ->
                 ClassSession.id s < DB.classSessionSeq db) ->
      Forall2
        (fun change r =>
           Change.type change = ChangeType.create ->
           findUnique ClassSession.id (BatchResult.id r) (DB.classSession db)
           = None
           /\ exists row,
                findUnique ClassSession.id (BatchResult.id r)
                  (DB.classSession db') = Some row
                /\ ClassSession.classId row = narrowed (Change.classId change)
                /\ ClassSession.semesterId row
                   = narrowed (Change.semesterId change)
                /\ ClassSession.homeroomId row = Change.homeroomId change)
        (filter (fun change => negb (skipped db change)) changes) results).
Proof.
  intros H; apply batchSaveChanges_Ok in H; destruct H as [_ H].
  unfold batchBody in H.
  pose proof (forOf_applyChange_exact _ _ _ _ _ H) as Hexact.
  pose proof (forOf_applyChange_identifies _ _ _ _ _ H) as Hident.
  apply forOf_applyChange_Ok in H.
  destruct H as (_ & _ & _ & new & -> & Hnew); simpl in *.
  split; [exact Hexact |].
  split; [exact Hnew |].
  split.
  - intros Hall; apply Forall2_length in Hnew; rewrite <- Hnew.
    f_equal; clear - Hall.
    induction changes as [|c changes IH]; simpl in *; [reflexivity |].
    apply andb_prop in Hall; destruct Hall as [-> Hall]; rewrite IH; auto.
  - intros Hahead; destruct (Hident Hahead) as (new' & -> & Hnew').
    eapply Forall2_impl; [| exact Hnew'].
    intros c r Hr Ht; destruct (Hr Ht) as [Hle Hrow].
    split; [| exact Hrow].
    apply (findUnique_ahead _ (DB.classSessionSeq db)); assumption.
Qed.

Lemma batch_results_follow_the_applied_changes_witness :
  exists db',
    batchSaveChanges school
      [Change.mk ChangeType.create 0 (Some 1) (Some 2) (Some 1) (Some 5)
         (Some 1) (Some 1) None;
       Change.mk ChangeType.update_room 4 None None (Some 3) None None None
         None;
       Change.mk ChangeType.create 0 (Some 3) (Some 2) (Some 2) (Some 3)
         (Some 1) None None;
       Change.mk ChangeType.move 5 (Some 3) (Some 1) (Some 1) None None None
         None]
    = (Ok [BatchResult.mk ChangeType.create 5;
           BatchResult.mk ChangeType.update_room 4;
           BatchResult.mk ChangeType.create 6;
           BatchResult.mk ChangeType.move 5],
       db')
    /\ (exists row,
          findUnique ClassSession.id 5 (DB.classSession db') = Some row
          /\ ClassSession.classId row = 5)
    /\ (exists row,
          findUnique ClassSession.id 6 (DB.classSession db') = Some row
          /\ ClassSession.classId row = 3).
Proof.
  eexists; split; [cbv; reflexivity |].
  destruct (batch_results_follow_the_applied_changes school
              [Change.mk ChangeType.create 0 (Some 1) (Some 2) (Some 1)
                 (Some 5) (Some 1) (Some 1) None;
               Change.mk ChangeType.update_room 4 None None (Some 3) None
                 None None None;
               Change.mk ChangeType.create 0 (Some 3) (Some 2) (Some 2)
                 (Some 3) (Some 1) None None;
               Change.mk ChangeType.move 5 (Some 3) (Some 1) (Some 1) None
                 None None None]
              _ _ eq_refl)
    as (_ & _ & _ & Hsessions).
  assert (Hahead :
    forall s, In s (DB.classSession school) ->
              ClassSession.id s < DB.classSessionSeq school).
  { intros s Hs; simpl in Hs.
    destruct Hs as [<- | [<- | [<- | [<- | []]]]]; simpl; lia. }
  specialize (Hsessions Hahead); simpl in Hsessions.
  inversion Hsessions as [|c1 r1 l1 l1' Hfirst Hrest]; subst.
  inversion Hrest as [|c2 r2 l2 l2' _ Hrest2]; subst.
  inversion Hrest2 as [|c3 r3 l3 l3' Hthird _]; subst.
  destruct (Hfirst eq_refl) as (_ & row5 & Hrow5 & Hclass5 & _).
  destruct (Hthird eq_refl) as (_ & row6 & Hrow6 & Hclass6 & _).
  split; [exists row5 | exists row6]; auto.
Defined.

(** C4, as stated, fails: class 99 is not in the store, and the batch of a
    create of it followed by a move of session 3 commits with a single
    result record, that of the move. *)
Lemma batch_passes_over_create_of_absent_class :
  exists db',
    batchSaveChanges school
      [Change.mk ChangeType.create 0 (Some 1) (Some 2) (Some 1) (Some 99)
         (Some 1) None None;
       Change.mk ChangeType.move 3 (Some 1) (Some 2) (Some 3) None None None
         None]
    = (Ok [BatchResult.mk ChangeType.move 3], db')
    /\ findUnique Class.id 99 (DB.class school) = None
    /\ List.length [BatchResult.mk ChangeType.move 3] <> 2%nat.
Proof.
  eexists; split; [cbv; reflexivity |].
  split; [reflexivity | discriminate].
Qed.

(** ** Atomicity *)

(** C1. Whenever [batchSaveChanges] fails, the store after the call is the
    store before it. In particular, when the changes before some change of
    the batch have been applied inside the transaction and that change then
    fails there, whatever the error (a [NOT_FOUND], a [BAD_REQUEST], a grade
    [CONFLICT], a constraint of the store), the call fails with that error and
    nothing of the batch is in the store. *)
Theorem batch_commit_is_atomic (db : DB.t) (changes : list Change.t) :
  (forall e db', batchSaveChanges db changes = (Err e, db') -> db' = db)
  /\ (forall applied change rest results db1 e db2,
        changes = applied ++ change :: rest ->
        forallb (fun change => dayAccepted (Change.dayOfWeek change)) changes
        = true ->
        batchBody applied db = (Ok results, db1) ->
        applyChange results change db1 = (Err e, db2) ->
        batchSaveChanges db changes = (Err e, db)).
Proof.
  split.
  - intros e db'; unfold batchSaveChanges, transaction.
    destruct (forallb _ changes).
    + destruct (batchBody changes db) as [[r|e'] db1]; intros H;
        [discriminate | injection H as _ <-; reflexivity].
    + intros H; injection H as _ <-; reflexivity.
  - intros applied change rest results db1 e db2 -> Hzod Happlied Hfail.
    unfold batchSaveChanges, transaction; rewrite Hzod.
    unfold batchBody in *; rewrite forOf_app, Happlied; simpl.
    unfold txBind; rewrite Hfail; reflexivity.
Qed.

Lemma batch_commit_is_atomic_witness :
  (exists results db1,
     batchBody
       [Change.mk ChangeType.move 3 (Some 1) (Some 2) (Some 3) None None None
          None;
        Change.mk ChangeType.update_teacher 4 None None None None None None
          (Some 2)]
       school = (Ok results, db1)
     /\ DB.classSession db1 <> DB.classSession school)
  /\ batchSaveChanges school
       [Change.mk ChangeType.move 3 (Some 1) (Some 2) (Some 3) None None None
          None;
        Change.mk ChangeType.update_teacher 4 None None None None None None
          (Some 2);
        Change.mk ChangeType.create 0 (Some 1) (Some 1) (Some 1) (Some 5)
          (Some 1) None None]
     = (Err (PrismaError UniqueConstraintFailed), school).
Proof.
  split.
  - eexists _, _; split; [cbv; reflexivity | discriminate].
  - destruct (batch_commit_is_atomic school
                [Change.mk ChangeType.move 3 (Some 1) (Some 2) (Some 3) None
                   None None None;
                 Change.mk ChangeType.update_teacher 4 None None None None
                   None None (Some 2);
                 Change.mk ChangeType.create 0 (Some 1) (Some 1) (Some 1)
                   (Some 5) (Some 1) None None]) as [_ Hfail].
    eapply (Hfail
              [Change.mk ChangeType.move 3 (Some 1) (Some 2) (Some 3) None
                 None None None;
               Change.mk ChangeType.update_teacher 4 None None None None None
                 None (Some 2)]);
      [reflexivity | reflexivity | cbv; reflexivity | cbv; reflexivity].
Defined.

(** * The single-session mutations *)

Lemma txBind_Err {A B} (m : Tx A) (k : A -> Tx B) db e db' :
  txBind m k db = (Err e, db') ->
  m db = (Err e, db')
  \/ exists a db1, m db = (Ok a, db1) /\ k a db1 = (Err e, db').
Proof.
  unfold txBind; destruct (m db) as [[a|e'] db1]; intros H; [eauto |].
  left; congruence.
Qed.

Lemma txRead_Err {A} (query : DB.t -> Result A) db e db' :
  txRead query db = (Err e, db') -> query db = Err e /\ db' = db.
Proof. unfold txRead; intros H; injection H as -> ->; auto. Qed.

Lemma txThrow_Err {A} code message db (r : Result A) db' :
  @txThrow A code message db = (r, db') ->
  r = Err (Thrown code message) /\ db' = db.
Proof. unfold txThrow; intros H; injection H as <- <-; auto. Qed.

Lemma returning_Err {A} write (inc : DB.t -> ClassSession.t -> Result A) db e
  db' :
  returning write inc db = (Err e, db') -> db' = db.
Proof.
  unfold returning; destruct (write db) as [[row|e'] db1].
  - destruct (inc db1 row); intros H; [discriminate |].
    injection H as _ <-; reflexivity.
  - intros H; injection H as _ <-; reflexivity.
Qed.

Lemma returning_Ok {A} write (inc : DB.t -> ClassSession.t -> Result A) db r
  db' :
  returning write inc db = (Ok r, db') ->
  write db = (Ok (fst r), db') /\ inc db' (fst r) = Ok (snd r).
Proof.
  unfold returning; destruct (write db) as [[row|e'] db1]; [| discriminate].
  destruct (inc db1 row) eqn:E; intros H; [| discriminate].
  injection H as <- <-; auto.
Qed.

(** Splits a failing chain of binds on the client [H : m db = (Err e, db')]
    into the step that failed. *)
Ltac failing_tx H :=
  cbv beta zeta in H;
  apply txBind_Err in H;
  destruct H as [H | (?a & ?db & ?E & H)]; [| cbv beta zeta in H].

(** ** moveClassSession *)

(** The conflicts the teacher loop of [moveClassSession] collects are as
    many as the queries that found a row. *)
Lemma moveTeacherStep_acc db sid b d sem acc x r :
  moveTeacherStep db sid b d sem acc x = Ok r ->
  exists out, moveTeacherStep db sid b d sem [] x = Ok out /\ r = acc ++ out.
Proof.
  destruct x as [link t]; unfold moveTeacherStep; intros H; invert_binds H.
  rewrite E; simpl.
  injection H as <-.
  eexists; split; [reflexivity |].
  destruct r0 as [[? [cs c]]|]; destruct (findFirst _ (DB.duty db));
    unfold push; simpl; rewrite <- ?app_assoc, ?app_nil_r; reflexivity.
Qed.

Lemma foldM_moveTeacherStep db sid b d sem l acc r :
  foldM (moveTeacherStep db sid b d sem) l acc = Ok r ->
  exists outs,
    Forall2 (fun x out => moveTeacherStep db sid b d sem [] x = Ok out) l outs
    /\ r = acc ++ List.concat outs.
Proof.
  revert acc; induction l as [|x l IH]; simpl; intros acc H.
  - injection H as <-. exists []; split; [constructor | symmetry; apply app_nil_r].
  - apply bind_Ok in H; destruct H as (a & Ha & H).
    apply moveTeacherStep_acc in Ha; destruct Ha as (out & Hout & ->).
    apply IH in H; destruct H as (outs & Houts & ->).
    exists (out :: outs); split; [constructor; auto |].
    simpl; rewrite app_assoc; reflexivity.
Qed.

(** One teacher of the moved session: the step of [moveClassSession] and the
    step of [validateSessionMove] find the same rows, so one collects a
    conflict exactly when the other does. *)
Lemma teacher_steps_agree db sid b d sem blk x out out' :
  moveTeacherStep db sid b d sem [] x = Ok out ->
  teacherStep db sid b d sem blk [] x = Ok out' ->
  List.length out = List.length out'
  /\ map Conflict.type out = map Conflict.type out'
  /\ map Conflict.relatedSessionId out = map Conflict.relatedSessionId out'.
Proof.
  destruct x as [link t]; intros Hm Hv.
  apply teacherStep_out in Hv; destruct Hv as (tc & dc & Htc & Hdc & ->).
  unfold moveTeacherStep in Hm; invert_binds Hm.
  assert (r = tc) by congruence; subst r.
  injection Hm as <-.
  apply including_Ok in Hdc.
  destruct dc as [[du dt]|]; [destruct Hdc as [Hdc _] |]; rewrite Hdc;
    destruct tc as [[? [cs c]]|]; repeat split.
Qed.

Lemma foldM_moveTeacherStep_Err db sid b d sem teachers acc e :
  foldM (moveTeacherStep db sid b d sem) teachers acc = Err e ->
  validationError e.
Proof.
  revert acc; induction teachers as [|[link t] teachers IH]; intros acc; simpl;
    [discriminate |].
  intros H; apply bind_Err in H; destruct H as [H | (a & _ & H)]; eauto.
  unfold moveTeacherStep in H.
  apply bind_Err in H; destruct H as [H | (tc & _ & H)]; [| discriminate].
  eapply including_Err; [| exact H].
  intros l e' Hl; include_failed Hl.
Qed.

(** What a [moveClassSession] that returns has done. *)
Lemma moveClassSession_Ok codeOf input db view db' :
  moveClassSession codeOf input db = (Ok view, db') ->
  let classSessionId := ValidateSessionMoveInput.classSessionId input in
  let targetBlockId := ValidateSessionMoveInput.targetBlockId input in
  let targetDayOfWeek := ValidateSessionMoveInput.targetDayOfWeek input in
  let targetRoomId := ValidateSessionMoveInput.targetRoomId input in
  let semesterId := ValidateSessionMoveInput.semesterId input in
  exists session sessionTeachers sessionClass targetBlock updated included,
    1 <= targetDayOfWeek <= 5
    /\ findUnique ClassSession.id classSessionId (DB.classSession db)
       = Some session
    /\ teachersAndClassOf db session = Ok (sessionTeachers, sessionClass)
    /\ findUnique Block.id targetBlockId (DB.block db) = Some targetBlock
    /\ foldM
         (moveTeacherStep db classSessionId targetBlockId targetDayOfWeek
            semesterId)
         sessionTeachers [] = Ok []
    /\ findFirst
         (fun s =>
            notSession classSessionId s
            && inRoomSlot targetBlockId targetDayOfWeek targetRoomId
                 semesterId s)
         (DB.classSession db) = None
    /\ classSession_update classSessionId
         (setSlot targetBlockId targetDayOfWeek targetRoomId) db
       = (Ok updated, db')
    /\ sessionIncludes db' updated = Ok included
    /\ view = sessionView codeOf updated included.
Proof.
  unfold moveClassSession; intros H; cbv zeta; invert_tx H.
  apply txRead_Ok in E; destruct E as [E ->].
  apply zod_Ok, andb_prop in E; destruct E as [Hlo Hhi].
  apply Z.leb_le in Hlo, Hhi.
  apply txRead_Ok in E0; destruct E0 as [E0 ->].
  destruct a0 as [[session [teachers cls]]|];
    [| apply txThrow_Err in H; destruct H; discriminate].
  apply including_Ok in E0; destruct E0 as [Hsession Hinc].
  invert_tx H.
  apply txRead_Ok in E; destruct E as [E ->]; injection E as <-.
  destruct (findUnique Block.id _ (DB.block db)) as [blk|] eqn:Hblk;
    [| apply txThrow_Err in H; destruct H; discriminate].
  invert_tx H.
  apply txRead_Ok in E; destruct E as [Hfold ->].
  match type of Hfold with _ = Ok ?cs => rename cs into conflicts end.
  apply txRead_Ok in E0; destruct E0 as [E0 ->]; injection E0 as <-.
  destruct (findFirst _ (DB.classSession db)) as [other|] eqn:Hroom.
  { unfold push in H; rewrite length_app in H; simpl in H.
    replace (0 <? List.length conflicts + 1)%nat with true in H
      by (symmetry; apply Nat.ltb_lt; lia).
    apply txThrow_Err in H; destruct H; discriminate. }
  destruct conflicts as [|c0 cs];
    [| apply txThrow_Err in H; destruct H; discriminate].
  simpl in H; invert_tx H.
  apply returning_Ok in E; destruct E as [Hupdate Hincluded].
  injection H as <- <-.
  eexists session, teachers, cls, blk, _, _.
  split; [lia |].
  repeat (split; [eassumption || reflexivity |]).
  reflexivity.
Qed.

(** How [moveClassSession] fails: before its checks are done, on a conflict
    they found, or in the update. In every case the store is as before. *)
Lemma moveClassSession_Err codeOf input db e db' :
  moveClassSession codeOf input db = (Err e, db') ->
  let classSessionId := ValidateSessionMoveInput.classSessionId input in
  let targetBlockId := ValidateSessionMoveInput.targetBlockId input in
  let targetDayOfWeek := ValidateSessionMoveInput.targetDayOfWeek input in
  let targetRoomId := ValidateSessionMoveInput.targetRoomId input in
  let semesterId := ValidateSessionMoveInput.semesterId input in
  db' = db
  /\ (validationError e
      \/ exists session sessionTeachers sessionClass conflicts,
           findUnique ClassSession.id classSessionId (DB.classSession db)
           = Some session
           /\ teachersAndClassOf db session
              = Ok (sessionTeachers, sessionClass)
           /\ foldM
                (moveTeacherStep db classSessionId targetBlockId
                   targetDayOfWeek semesterId)
                sessionTeachers [] = Ok conflicts
           /\ ((exists message,
                  e = Thrown CONFLICT message
                  /\ (conflicts <> []
                      \/ findFirst
                           (fun s =>
                              notSession classSessionId s
                              && inRoomSlot targetBlockId targetDayOfWeek
                                   targetRoomId semesterId s)
                           (DB.classSession db) <> None))
               \/ (conflicts = []
                   /\ findFirst
                        (fun s =>
                           notSession classSessionId s
                           && inRoomSlot targetBlockId targetDayOfWeek
                                targetRoomId semesterId s)
                        (DB.classSession db) = None
                   /\ returning
                        (classSession_update classSessionId
                           (setSlot targetBlockId targetDayOfWeek
                              targetRoomId))
                        sessionIncludes db = (Err e, db)))).
Proof.
  unfold moveClassSession; intros H; cbv zeta.
  failing_tx H.
  { apply txRead_Err in H; destruct H as [H ->].
    split; [reflexivity | left; eapply zod_Err; exact H]. }
  apply txRead_Ok in E; destruct E as [_ ->].
  failing_tx H.
  { apply txRead_Err in H; destruct H as [H ->].
    split; [reflexivity | left].
    eapply including_Err; [| exact H].
    intros ? ? Hr; eapply teachersAndClassOf_Err; exact Hr. }
  apply txRead_Ok in E; destruct E as [E ->].
  destruct a0 as [[session [teachers cls]]|].
  2:{ apply txThrow_Err in H; destruct H as [H ->]; injection H as ->.
      split; [reflexivity | left; constructor]. }
  apply including_Ok in E; destruct E as [Hsession Hinc].
  failing_tx H; [apply txRead_Err in H; destruct H; discriminate |].
  apply txRead_Ok in E; destruct E as [E ->]; injection E as <-.
  destruct (findUnique Block.id _ (DB.block db)) as [blk|].
  2:{ apply txThrow_Err in H; destruct H as [H ->]; injection H as ->.
      split; [reflexivity | left; constructor]. }
  failing_tx H.
  { apply txRead_Err in H; destruct H as [H ->].
    split; [reflexivity | left].
    eapply foldM_moveTeacherStep_Err; exact H. }
  apply txRead_Ok in E; destruct E as [Hfold ->].
  match type of Hfold with _ = Ok ?cs => rename cs into conflicts end.
  failing_tx H; [apply txRead_Err in H; destruct H; discriminate |].
  apply txRead_Ok in E; destruct E as [E ->]; injection E as <-.
  destruct (findFirst _ (DB.classSession db)) as [other|] eqn:Hroom.
  { unfold push in H; rewrite length_app in H; simpl in H.
    replace (0 <? List.length conflicts + 1)%nat with true in H
      by (symmetry; apply Nat.ltb_lt; lia).
    apply txThrow_Err in H; destruct H as [H ->]; injection H as ->.
    split; [reflexivity | right].
    exists session, teachers, cls, conflicts; repeat split; auto.
    left; eexists; split; [reflexivity | right; discriminate]. }
  destruct conflicts as [|c0 cs].
  - simpl in H.
    failing_tx H.
    + pose proof (returning_Err _ _ _ _ _ H) as ->.
      split; [reflexivity | right].
      exists session, teachers, cls, []; repeat split; auto.
    + discriminate.
  - apply txThrow_Err in H; destruct H as [H ->]; injection H as ->.
    split; [reflexivity | right].
    exists session, teachers, cls, (c0 :: cs); repeat split; auto.
    left; eexists; split; [reflexivity | left; discriminate].
Qed.

Lemma findUnique_hasKey {A} (key : A -> Z) (k : Z) (rows : list A) (r : A) :
  findUnique key k rows = Some r -> hasKey key k rows = true.
Proof.
  intros H; apply findUnique_Some in H; destruct H as [Hin Hk].
  unfold hasKey; apply existsb_exists; exists r; split; [exact Hin |].
  apply Z.eqb_eq; exact Hk.
Qed.

(** The room check of a move or of a room update is the uniqueness
    constraint of the store, seen from the row being written. *)
Lemma slotTaken_others id b d room sem rows :
  slotTaken (findMany (notSession id) rows)
    {| ClassSession.id := id;
       ClassSession.classId := 0;
       ClassSession.blockId := b;
       ClassSession.dayOfWeek := d;
       ClassSession.roomId := room;
       ClassSession.semesterId := sem;
       ClassSession.homeroomId := None |}
  = match findFirst
            (fun s => notSession id s && inRoomSlot b d room sem s) rows with
    | Some _ => true
    | None => false
    end.
Proof.
  unfold slotTaken, findMany, findFirst; simpl.
  induction rows as [|r rows IH]; simpl; [reflexivity |].
  destruct (notSession id r); simpl; [| exact IH].
  destruct (inRoomSlot b d room sem r); [reflexivity | exact IH].
Qed.

Lemma slotTaken_slot rows s s' :
  ClassSession.blockId s = ClassSession.blockId s' ->
  ClassSession.dayOfWeek s = ClassSession.dayOfWeek s' ->
  ClassSession.roomId s = ClassSession.roomId s' ->
  ClassSession.semesterId s = ClassSession.semesterId s' ->
  slotTaken rows s = slotTaken rows s'.
Proof. unfold slotTaken; intros -> -> -> ->; reflexivity. Qed.

Lemma slotTaken_setSlot id b d room row rows :
  slotTaken (findMany (notSession id) rows) (setSlot b d room row)
  = match findFirst
            (fun s =>
               notSession id s
               && inRoomSlot b d room (ClassSession.semesterId row) s)
            rows with
    | Some _ => true
    | None => false
    end.
Proof.
  rewrite <- slotTaken_others; apply slotTaken_slot; reflexivity.
Qed.

Lemma slotTaken_setRoom id room row rows :
  slotTaken (findMany (notSession id) rows) (setRoom room row)
  = match findFirst
            (fun s =>
               notSession id s
               && inRoomSlot (ClassSession.blockId row)
                    (ClassSession.dayOfWeek row) room
                    (ClassSession.semesterId row) s)
            rows with
    | Some _ => true
    | None => false
    end.
Proof.
  rewrite <- slotTaken_others; apply slotTaken_slot; reflexivity.
Qed.

Lemma classSession_update_Err id data db e db' :
  classSession_update id data db = (Err e, db') ->
  db' = db
  /\ (e = PrismaError RecordNotFound
      \/ e = PrismaError ForeignKeyConstraintFailed
      \/ (e = PrismaError UniqueConstraintFailed
          /\ exists row,
               findUnique ClassSession.id id (DB.classSession db) = Some row
               /\ slotTaken (findMany (notSession id) (DB.classSession db))
                    (data row) = true)).
Proof.
  unfold classSession_update.
  destruct (findUnique ClassSession.id id (DB.classSession db)) as [row|].
  - destruct (slotRefsOk db (data row)); simpl.
    + destruct (slotTaken _ (data row)) eqn:Hslot; intros H; [| discriminate].
      injection H as <- <-; split; [reflexivity |].
      right; right; split; [reflexivity | eauto].
    + intros H; injection H as <- <-; auto.
  - intros H; injection H as <- <-; auto.
Qed.

Lemma required_inconsistent {A} (row : option A) e :
  required row = Err e -> e = PrismaError InconsistentQueryResult.
Proof. destruct row; simpl; intros H; [discriminate | congruence]. Qed.

Lemma includingAll_failed {A B} (P : Error -> Prop) (inc : A -> Result B)
  rows e :
  (forall r e', inc r = Err e' -> P e') ->
  includingAll inc rows = Err e -> P e.
Proof.
  intros Hinc; unfold includingAll.
  induction rows as [|r rows IH]; simpl; [discriminate |].
  intros H; apply bind_Err in H; destruct H as [H | (p & _ & H)].
  - apply bind_Err in H; destruct H as [H | (i & _ & H)];
      [eauto | discriminate].
  - apply bind_Err in H; destruct H as [H | (ps & _ & H)];
      [auto | discriminate].
Qed.

Lemma sessionIncludes_Err db s e :
  sessionIncludes db s = Err e -> e = PrismaError InconsistentQueryResult.
Proof.
  unfold sessionIncludes; intros H.
  failing_step H; [eapply required_inconsistent; exact H |].
  failing_step H; [eapply required_inconsistent; exact H |].
  failing_step H; [eapply required_inconsistent; exact H |].
  failing_step H; [| discriminate].
  revert H.
  apply (includingAll_failed
           (fun e => e = PrismaError InconsistentQueryResult)).
  intros l e'; apply required_inconsistent.
Qed.

(** The errors of a write that returns its row with includes. *)
Lemma returning_update_Err id data db e db' :
  returning (classSession_update id data) sessionIncludes db = (Err e, db') ->
  e = PrismaError RecordNotFound
  \/ e = PrismaError ForeignKeyConstraintFailed
  \/ e = PrismaError InconsistentQueryResult
  \/ (e = PrismaError UniqueConstraintFailed
      /\ exists row,
           findUnique ClassSession.id id (DB.classSession db) = Some row
           /\ slotTaken (findMany (notSession id) (DB.classSession db))
                (data row) = true).
Proof.
  unfold returning.
  destruct (classSession_update id data db) as [[row|e'] db1] eqn:Hw.
  - destruct (sessionIncludes db1 row) eqn:Hi; intros H; [discriminate |].
    injection H as <- _.
    apply sessionIncludes_Err in Hi; auto.
  - intros H; injection H as <- _.
    apply classSession_update_Err in Hw; tauto.
Qed.

(** X1. [moveClassSession] either fails and leaves the store as it was, or
    returns the moved session: in the store only the block, the day and the
    room of that session have changed (every other session and every teacher
    link is as before), and the returned object carries the session's
    identifier, class and semester with the new block, day and room. *)
Theorem moveClassSession_changes_only_the_slot (codeOf : Class.t -> string)
  (input : ValidateSessionMoveInput.t) (db : DB.t) :
  (forall e db', moveClassSession codeOf input db = (Err e, db') -> db' = db)
  /\ (forall view db',
        moveClassSession codeOf input db = (Ok view, db') ->
        let classSessionId := ValidateSessionMoveInput.classSessionId input in
        let targetBlockId := ValidateSessionMoveInput.targetBlockId input in
        let targetDayOfWeek :=
          ValidateSessionMoveInput.targetDayOfWeek input in
        let targetRoomId := ValidateSessionMoveInput.targetRoomId input in
        exists session,
          findUnique ClassSession.id classSessionId (DB.classSession db)
          = Some session
          /\ findUnique ClassSession.id classSessionId (DB.classSession db')
             = Some (setSlot targetBlockId targetDayOfWeek targetRoomId
                       session)
          /\ (forall s,
                ClassSession.id s <> classSessionId ->
                (In s (DB.classSession db') <-> In s (DB.classSession db)))
          /\ DB.classSessionTeacher db' = DB.classSessionTeacher db
          /\ SessionView.id view = classSessionId
          /\ SessionView.classId view = ClassSession.classId session
          /\ SessionView.semesterId view = ClassSession.semesterId session
          /\ SessionView.blockId view = targetBlockId
          /\ SessionView.dayOfWeek view = targetDayOfWeek
          /\ SessionView.roomId view = targetRoomId).
Proof.
  split.
  - intros e db' H; apply moveClassSession_Err in H; tauto.
  - intros view db' H; cbv zeta.
    apply moveClassSession_Ok in H; cbv zeta in H.
    destruct H as (session & teachers & cls & blk & updated & included & _
                   & Hsession & _ & _ & _ & _ & Hupdate & _ & ->).
    apply classSession_update_Ok in Hupdate.
    destruct Hupdate as (row & Hrow & -> & _ & _ & ->).
    assert (row = session) by congruence; subst row.
    assert (Hid : ClassSession.id session
                  = ValidateSessionMoveInput.classSessionId input)
      by (apply findUnique_Some in Hsession; tauto).
    exists session.
    split; [exact Hsession |].
    split; [simpl; eapply findUnique_replaceRow; eauto |].
    split; [intros s Hs; simpl; apply In_replaceRow_other; auto |].
    destruct included as [[[c r] b] ts]; simpl; auto 10.
Qed.

Lemma moveClassSession_changes_only_the_slot_witness :
  (exists e,
     moveClassSession Class.name (ValidateSessionMoveInput.mk 2 1 1 2 1) school
     = (Err e, school))
  /\ (exists view db',
        moveClassSession Class.name (ValidateSessionMoveInput.mk 3 1 2 3 1)
          school = (Ok view, db')
        /\ findUnique ClassSession.id 3 (DB.classSession db')
           = Some (ClassSession.mk 3 4 1 2 3 1 None)
        /\ SessionView.blockId view = 1).
Proof.
  split.
  - eexists.
    destruct (moveClassSession Class.name
                (ValidateSessionMoveInput.mk 2 1 1 2 1) school)
      as [[view|e] db'] eqn:H; [discriminate H |].
    destruct (moveClassSession_changes_only_the_slot Class.name
                (ValidateSessionMoveInput.mk 2 1 1 2 1) school) as [Hfail _].
    rewrite (Hfail e db' H); injection H as <-; reflexivity.
  - eexists _, _; split; [cbv; reflexivity |].
    destruct (moveClassSession_changes_only_the_slot Class.name
                (ValidateSessionMoveInput.mk 3 1 2 3 1) school) as [_ Hmove].
    destruct (Hmove _ _ eq_refl)
      as (session & Hsession & Hmoved & _ & _ & _ & _ & _ & Hblock & _).
    injection Hsession as <-.
    split; [exact Hmoved | exact Hblock].
Defined.

Lemma teacher_loops_agree db sid b d sem blk teachers outs outs' :
  Forall2 (fun x out => moveTeacherStep db sid b d sem [] x = Ok out)
    teachers outs ->
  Forall2 (fun x out => teacherStep db sid b d sem blk [] x = Ok out)
    teachers outs' ->
  List.length (List.concat outs) = List.length (List.concat outs').
Proof.
  intros H; revert outs'.
  induction H as [|x out teachers outs Hx _ IH]; intros outs' H';
    inversion H' as [|x' out' teachers' outs'' Hx' Hrest]; subst;
    [reflexivity |].
  simpl; rewrite !length_app, (IH _ Hrest).
  destruct (teacher_steps_agree _ _ _ _ _ _ _ _ _ Hx Hx') as [-> _].
  reflexivity.
Qed.

Lemma valid_false db input v :
  validateSessionMove db input = Ok v ->
  ValidationResult.conflicts v <> [] ->
  ValidationResult.valid v = false.
Proof.
  intros H Hne; rewrite (validateSessionMove_valid _ _ _ H).
  destruct (ValidationResult.conflicts v); [contradiction | reflexivity].
Qed.

(** X2. When [moveClassSession] refuses a move with a [CONFLICT], the dry
    run of the same move on the same store does not return a valid verdict:
    the teacher and room checks of the mutation are among the checks of
    [validateSessionMove]. *)
Theorem moveClassSession_refusal_shows_in_dry_run (codeOf : Class.t -> string)
  (input : ValidateSessionMoveInput.t) (db db' : DB.t) (message : string)
  (v : ValidationResult.t) :
  moveClassSession codeOf input db = (Err (Thrown CONFLICT message), db') ->
  validateSessionMove db input = Ok v ->
  ValidationResult.valid v = false
  /\ exists c,
       In c (ValidationResult.conflicts v)
       /\ (Conflict.type c = ConflictType.teacher
           \/ Conflict.type c = ConflictType.room).
Proof.
  intros Hmove Hv.
  assert (Hsome :
    exists c,
      In c (ValidationResult.conflicts v)
      /\ (Conflict.type c = ConflictType.teacher
          \/ Conflict.type c = ConflictType.room)).
  { apply moveClassSession_Err in Hmove; cbv zeta in Hmove.
    destruct Hmove as [_ [Hbad | Hmove]]; [inversion Hbad |].
    destruct Hmove as (session & teachers & cls & conflicts & Hsession & Hinc
                       & Hfold & Hcase).
    apply validateSessionMove_Ok in Hv; cbv zeta in Hv.
    destruct Hv as (session' & teachers' & cls' & blk & outs' & rc & dc & hc
                    & confl & dups & _ & Hsession' & Hinc' & _ & Houts' & Hrc
                    & _ & _ & _ & _ & Hconf & _).
    assert (session' = session) by congruence; subst session'.
    assert (teachers' = teachers) by congruence; subst teachers'.
    apply foldM_moveTeacherStep in Hfold.
    destruct Hfold as (outs & Houts & ->); simpl in *.
    destruct Hcase as [(m & _ & [Hne | Hroom]) | (_ & _ & Hwrite)].
    - pose proof (teacher_loops_agree _ _ _ _ _ _ _ _ _ Houts Houts') as Hlen.
      destruct (List.concat outs') as [|c cs] eqn:Hc.
      + destruct (List.concat outs); [contradiction | discriminate].
      + exists c; split; [rewrite Hconf; left; reflexivity |].
        left.
        assert (Hin : In c (List.concat outs'))
          by (rewrite Hc; left; reflexivity).
        eapply In_teacherConflicts in Hin; eauto; tauto.
    - destruct (findFirst _ (DB.classSession db)) as [other|] eqn:Hother;
        [| contradiction].
      simpl in Hrc.
      apply bind_Ok in Hrc; destruct Hrc as ([c r] & _ & Hrc).
      injection Hrc as <-.
      eexists; split.
      + rewrite Hconf; apply in_or_app; right; left; reflexivity.
      + right; reflexivity.
    - apply returning_update_Err in Hwrite.
      destruct Hwrite as [H | [H | [H | [H _]]]]; discriminate. }
  split; [| exact Hsome].
  destruct Hsome as (c & Hin & _).
  eapply valid_false; eauto.
  intros Hnil; rewrite Hnil in Hin; destruct Hin.
Qed.

Lemma moveClassSession_refusal_shows_in_dry_run_witness :
  exists message v,
    moveClassSession Class.name (ValidateSessionMoveInput.mk 3 1 1 1 1) school
    = (Err (Thrown CONFLICT message), school)
    /\ validateSessionMove school (ValidateSessionMoveInput.mk 3 1 1 1 1)
       = Ok v
    /\ ValidationResult.valid v = false.
Proof.
  eexists _, _; split; [cbv; reflexivity |].
  split; [cbv; reflexivity |].
  eapply (moveClassSession_refusal_shows_in_dry_run Class.name
            (ValidateSessionMoveInput.mk 3 1 1 1 1) school school);
    cbv; reflexivity.
Defined.

(** Runs [moveClassSession] on a store where its checks find nothing. *)
Lemma moveClassSession_run codeOf input db session teachers cls blk updated
  included db' :
  1 <= ValidateSessionMoveInput.targetDayOfWeek input <= 5 ->
  findUnique ClassSession.id (ValidateSessionMoveInput.classSessionId input)
    (DB.classSession db) = Some session ->
  teachersAndClassOf db session = Ok (teachers, cls) ->
  findUnique Block.id (ValidateSessionMoveInput.targetBlockId input)
    (DB.block db) = Some blk ->
  foldM
    (moveTeacherStep db (ValidateSessionMoveInput.classSessionId input)
       (ValidateSessionMoveInput.targetBlockId input)
       (ValidateSessionMoveInput.targetDayOfWeek input)
       (ValidateSessionMoveInput.semesterId input))
    teachers [] = Ok [] ->
  findFirst
    (fun s =>
       notSession (ValidateSessionMoveInput.classSessionId input) s
       && inRoomSlot (ValidateSessionMoveInput.targetBlockId input)
            (ValidateSessionMoveInput.targetDayOfWeek input)
            (ValidateSessionMoveInput.targetRoomId input)
            (ValidateSessionMoveInput.semesterId input) s)
    (DB.classSession db) = None ->
  returning
    (classSession_update (ValidateSessionMoveInput.classSessionId input)
       (setSlot (ValidateSessionMoveInput.targetBlockId input)
          (ValidateSessionMoveInput.targetDayOfWeek input)
          (ValidateSessionMoveInput.targetRoomId input)))
    sessionIncludes db = (Ok (updated, included), db') ->
  moveClassSession codeOf input db
  = (Ok (sessionView codeOf updated included), db').
Proof.
  intros Hday Hsession Hinc Hblk Hfold Hroom Hwrite.
  unfold moveClassSession, txBind, txRead, txRet; cbv zeta.
  replace ((1 <=? ValidateSessionMoveInput.targetDayOfWeek input)
           && (ValidateSessionMoveInput.targetDayOfWeek input <=? 5))
    with true
    by (symmetry; apply andb_true_intro; split; apply Z.leb_le; lia).
  simpl zod; cbv iota beta.
  rewrite Hsession; simpl including; rewrite Hinc; simpl bind; cbv iota beta.
  rewrite Hblk, Hfold, Hroom; simpl.
  rewrite Hwrite; reflexivity.
Qed.

Lemma moveTeacherStep_quiet db sid b d sem blk x acc :
  teacherStep db sid b d sem blk [] x = Ok [] ->
  moveTeacherStep db sid b d sem acc x = Ok acc.
Proof.
  destruct x as [link t]; intros H.
  apply teacherStep_out in H; destruct H as (tc & dc & Htc & Hdc & Hout).
  destruct tc as [[? [cs c]]|]; [discriminate |].
  destruct dc as [[du dt]|]; [discriminate |].
  apply including_Ok in Hdc.
  unfold moveTeacherStep; rewrite Htc, Hdc; reflexivity.
Qed.

Lemma foldM_moveTeacherStep_quiet db sid b d sem blk teachers outs acc :
  Forall2 (fun x out => teacherStep db sid b d sem blk [] x = Ok out)
    teachers outs ->
  List.concat outs = [] ->
  foldM (moveTeacherStep db sid b d sem) teachers acc = Ok acc.
Proof.
  intros H; induction H as [|x out teachers outs Hx _ IH]; simpl;
    [reflexivity |].
  intros Hnil; apply app_eq_nil in Hnil; destruct Hnil as [-> Hnil].
  rewrite (moveTeacherStep_quiet _ _ _ _ _ _ _ _ Hx); simpl; auto.
Qed.

Lemma sessionIncludes_total db s :
  refsOk db = true ->
  (exists c, classOf db s = Ok c) ->
  (exists r, roomOf db s = Ok r) ->
  (exists b, blockOf db s = Ok b) ->
  exists included, sessionIncludes db s = Ok included.
Proof.
  intros H [c Hc] [r Hr] [b Hb]; unfold sessionIncludes.
  rewrite Hc, Hr, Hb; simpl.
  destruct (includingAll_total (teacherOf db)
              (fun l =>
                 ClassSessionTeacher.classSessionId l =? ClassSession.id s)
              (DB.classSessionTeacher db)) as [teachers ->].
  - intros l Hl; apply (refsOk_link db H l Hl).
  - simpl; eauto.
Qed.

(** Writing the sessions table leaves the includes of a row, which read the
    other tables, as they were. *)
Lemma sessionIncludes_setClassSessions db rows seq s :
  sessionIncludes (setClassSessions db rows seq) s = sessionIncludes db s.
Proof. reflexivity. Qed.

Lemma refsOk_setClassSessions db rows seq :
  refsOk db = true ->
  forallb (classSessionRefsOk db) rows = true ->
  (forall l, In l (DB.classSessionTeacher db) ->
             hasKey ClassSession.id (ClassSessionTeacher.classSessionId l) rows
             = true) ->
  refsOk (setClassSessions db rows seq) = true.
Proof.
  unfold refsOk; intros H Hrows Hlinks.
  apply andb_prop in H; destruct H as [H Hduty].
  apply andb_prop in H; destruct H as [_ Hl].
  apply andb_true_intro; split; [apply andb_true_intro; split |].
  - exact Hrows.
  - simpl; apply forallb_forall; intros l Hin.
    rewrite forallb_forall in Hl; specialize (Hl l Hin).
    unfold linkRefsOk in *; simpl.
    apply andb_prop in Hl; destruct Hl as [_ Ht].
    rewrite (Hlinks l Hin), Ht; reflexivity.
  - exact Hduty.
Qed.

Lemma app_nil_parts {A} (xs ys : list A) : xs ++ ys = [] -> xs = [] /\ ys = [].
Proof. apply app_eq_nil. Qed.

(** X3. A move that the dry run finds valid goes through: over a store with
    referential integrity, when [validateSessionMove] returns a valid
    verdict for a move within the session's own semester into a room that
    exists, [moveClassSession] on the same input succeeds. *)
Theorem moveClassSession_follows_valid_dry_run (codeOf : Class.t -> string)
  (input : ValidateSessionMoveInput.t) (db : DB.t) (v : ValidationResult.t)
  (session : ClassSession.t) :
  refsOk db = true ->
  validateSessionMove db input = Ok v ->
  ValidationResult.valid v = true ->
  findUnique ClassSession.id (ValidateSessionMoveInput.classSessionId input)
    (DB.classSession db) = Some session ->
  ClassSession.semesterId session = ValidateSessionMoveInput.semesterId input ->
  hasKey Room.id (ValidateSessionMoveInput.targetRoomId input) (DB.room db)
  = true ->
  exists view db', moveClassSession codeOf input db = (Ok view, db').
Proof.
  intros Hrefs Hv Hvalid Hsession Hsem Hroom.
  rewrite (validateSessionMove_valid _ _ _ Hv) in Hvalid.
  apply isEmpty_true in Hvalid.
  apply validateSessionMove_Ok in Hv; cbv zeta in Hv.
  destruct Hv as (session' & teachers & cls & blk & outs & rc & dc & hc
                  & confl & dups & Hday & Hsession' & Hinc & Hblk & Houts
                  & Hrc & _ & _ & _ & _ & Hconf & _).
  assert (session' = session) by congruence; subst session'.
  rewrite Hvalid in Hconf; symmetry in Hconf.
  apply app_nil_parts in Hconf; destruct Hconf as [Hteachers Hconf].
  apply app_nil_parts in Hconf; destruct Hconf as [Hrcnil _].
  assert (rc = None) by (destruct rc as [[s [c r]]|]; [discriminate | auto]).
  subst rc; apply including_Ok in Hrc.
  set (updated :=
         setSlot (ValidateSessionMoveInput.targetBlockId input)
           (ValidateSessionMoveInput.targetDayOfWeek input)
           (ValidateSessionMoveInput.targetRoomId input) session).
  assert (Hupdate :
    classSession_update (ValidateSessionMoveInput.classSessionId input)
      (setSlot (ValidateSessionMoveInput.targetBlockId input)
         (ValidateSessionMoveInput.targetDayOfWeek input)
         (ValidateSessionMoveInput.targetRoomId input)) db
    = (Ok updated,
       setClassSessions db
         (replaceRow (ValidateSessionMoveInput.classSessionId input) updated
            (DB.classSession db))
         (DB.classSessionSeq db))).
  { unfold classSession_update; rewrite Hsession; cbv zeta.
    rewrite slotTaken_setSlot, Hsem, Hrc.
    unfold slotRefsOk; simpl.
    rewrite (findUnique_hasKey _ _ _ _ Hblk), Hroom; reflexivity. }
  destruct (sessionIncludes_total db updated Hrefs) as [included Hincluded].
  { apply (refsOk_session db Hrefs session).
    apply findUnique_Some in Hsession; tauto. }
  { apply required_total; exact Hroom. }
  { apply required_total, (findUnique_hasKey _ _ _ _ Hblk). }
  eexists _, _.
  eapply moveClassSession_run; eauto.
  - eapply foldM_moveTeacherStep_quiet; eauto.
  - unfold returning; rewrite Hupdate, sessionIncludes_setClassSessions.
    rewrite Hincluded; reflexivity.
Qed.

Lemma moveClassSession_follows_valid_dry_run_witness :
  exists view db',
    moveClassSession Class.name (ValidateSessionMoveInput.mk 3 1 2 3 1) school
    = (Ok view, db').
Proof.
  apply (moveClassSession_follows_valid_dry_run Class.name
           (ValidateSessionMoveInput.mk 3 1 2 3 1) school
           {| ValidationResult.valid := true;
              ValidationResult.conflicts := [];
              ValidationResult.warnings := [] |}
           (ClassSession.mk 3 4 2 2 3 1 None));
    reflexivity.
Defined.

(** X4. Within the session's own semester the room check of
    [moveClassSession] covers the uniqueness constraint of the store: the
    move never fails on it. *)
Theorem moveClassSession_room_check_covers_uniqueness
  (codeOf : Class.t -> string) (input : ValidateSessionMoveInput.t)
  (db : DB.t) (session : ClassSession.t) :
  findUnique ClassSession.id (ValidateSessionMoveInput.classSessionId input)
    (DB.classSession db) = Some session ->
  ClassSession.semesterId session = ValidateSessionMoveInput.semesterId input ->
  fst (moveClassSession codeOf input db)
  <> Err (PrismaError UniqueConstraintFailed).
Proof.
  intros Hsession Hsem Hfail.
  destruct (moveClassSession codeOf input db) as [r db'] eqn:Hmove.
  simpl in Hfail; subst r.
  apply moveClassSession_Err in Hmove; cbv zeta in Hmove.
  destruct Hmove as [_ [Hbad | Hmove]]; [inversion Hbad |].
  destruct Hmove as (session' & teachers & cls & conflicts & _ & _ & _
                     & Hcase).
  destruct Hcase as [(m & Hm & _) | (_ & Hroom & Hwrite)]; [discriminate |].
  apply returning_update_Err in Hwrite.
  destruct Hwrite as [H | [H | [H | [_ (row & Hrow & Hslot)]]]];
    try discriminate.
  assert (row = session) by congruence; subst row.
  rewrite slotTaken_setSlot, Hsem, Hroom in Hslot; discriminate.
Qed.

Lemma moveClassSession_room_check_covers_uniqueness_witness :
  fst (moveClassSession Class.name (ValidateSessionMoveInput.mk 3 1 1 1 1)
         school)
  <> Err (PrismaError UniqueConstraintFailed)
  /\ fst (moveClassSession Class.name (ValidateSessionMoveInput.mk 3 1 1 1 2)
            school)
     = Err (PrismaError UniqueConstraintFailed).
Proof.
  split; [| reflexivity].
  apply (moveClassSession_room_check_covers_uniqueness Class.name
           (ValidateSessionMoveInput.mk 3 1 1 1 1) school
           (ClassSession.mk 3 4 2 2 3 1 None));
    reflexivity.
Defined.

(** ** updateSessionRoom *)

(** X5. [updateSessionRoom] on a store with referential integrity and a room
    that exists: a session that does not exist gives [NOT_FOUND]; when
    another session holds the room in the session's own (block, day,
    semester) the update is refused with a [CONFLICT] whose message is
    [Room is already booked for ], the name of that session's class and
    [ at this time.], and the store is as before; otherwise the update succeeds, and in
    the store only the room of the session has changed. The uniqueness
    constraint of the store is never what refuses it. *)
Theorem updateSessionRoom_outcome (codeOf : Class.t -> string)
  (classSessionId roomId : Z) (db : DB.t) :
  refsOk db = true ->
  hasKey Room.id roomId (DB.room db) = true ->
  match findUnique ClassSession.id classSessionId (DB.classSession db) with
  | None =>
      updateSessionRoom codeOf classSessionId roomId db
      = (Err (Thrown NOT_FOUND "Class session not found"), db)
  | Some session =>
      match findFirst
              (fun s =>
                 notSession classSessionId s
                 && inRoomSlot (ClassSession.blockId session)
                      (ClassSession.dayOfWeek session) roomId
                      (ClassSession.semesterId session) s)
              (DB.classSession db) with
      | Some other =>
          exists c,
            findUnique Class.id (ClassSession.classId other) (DB.class db)
            = Some c
            /\ updateSessionRoom codeOf classSessionId roomId db
               = (Err (Thrown CONFLICT
                         ("Room is already booked for " ++ Class.name c
                          ++ " at this time.")%string),
                  db)
      | None =>
          exists view,
            updateSessionRoom codeOf classSessionId roomId db
            = (Ok view,
               setClassSessions db
                 (replaceRow classSessionId (setRoom roomId session)
                    (DB.classSession db))
                 (DB.classSessionSeq db))
            /\ SessionView.id view = ClassSession.id session
            /\ SessionView.roomId view = roomId
            /\ SessionView.blockId view = ClassSession.blockId session
            /\ SessionView.dayOfWeek view = ClassSession.dayOfWeek session
      end
  end.
Proof.
  intros Hrefs Hroom.
  unfold updateSessionRoom, txBind, txRead, txThrow, txRet.
  destruct (findUnique ClassSession.id classSessionId (DB.classSession db))
    as [session|] eqn:Hsession; [| reflexivity].
  destruct (findFirst _ (DB.classSession db)) as [other|] eqn:Hother.
  - apply findFirst_Some in Hother; destruct Hother as [Hin _].
    destruct (refsOk_session db Hrefs other Hin) as ([c Hc] & [r Hr] & _).
    exists c; split; [apply classOf_Ok; exact Hc |].
    simpl; rewrite Hc, Hr; reflexivity.
  - simpl including; cbv iota beta.
    assert (Hupdate :
      classSession_update classSessionId (setRoom roomId) db
      = (Ok (setRoom roomId session),
         setClassSessions db
           (replaceRow classSessionId (setRoom roomId session)
              (DB.classSession db))
           (DB.classSessionSeq db))).
    { unfold classSession_update; rewrite Hsession; cbv zeta.
      rewrite slotTaken_setRoom, Hother.
      apply findUnique_Some in Hsession; destruct Hsession as [Hin _].
      pose proof Hrefs as H; unfold refsOk in H.
      apply andb_prop in H; destruct H as [H _].
      apply andb_prop in H; destruct H as [H _].
      rewrite forallb_forall in H; specialize (H session Hin).
      unfold classSessionRefsOk in H.
      repeat (apply andb_prop in H; destruct H as [H ?]).
      unfold slotRefsOk; simpl.
      match goal with Hb : hasKey Block.id _ _ = true |- _ => rewrite Hb end.
      rewrite Hroom; reflexivity. }
    destruct (sessionIncludes_total db (setRoom roomId session) Hrefs)
      as [[[[c r] b] ts] Hincluded].
    { apply (refsOk_session db Hrefs session).
      apply findUnique_Some in Hsession; tauto. }
    { apply required_total; exact Hroom. }
    { apply (refsOk_session db Hrefs session).
      apply findUnique_Some in Hsession; tauto. }
    unfold returning; rewrite Hupdate, sessionIncludes_setClassSessions.
    rewrite Hincluded.
    eexists; split; [reflexivity |].
    simpl; auto.
Qed.

Lemma updateSessionRoom_outcome_witness :
  (exists db',
     updateSessionRoom Class.name 99 1 school
     = (Err (Thrown NOT_FOUND "Class session not found"), db'))
  /\ (exists view db',
        updateSessionRoom Class.name 3 2 school = (Ok view, db')
        /\ SessionView.roomId view = 2)
  /\ updateSessionRoom Class.name 3 1
       (setClassSessions school
          (DB.classSession school ++ [ClassSession.mk 5 5 2 2 1 1 None]) 6)
     = (Err (Thrown CONFLICT "Room is already booked for Art at this time."),
        setClassSessions school
          (DB.classSession school ++ [ClassSession.mk 5 5 2 2 1 1 None]) 6).
Proof.
  split; [| split].
  - eexists.
    apply (updateSessionRoom_outcome Class.name 99 1 school); reflexivity.
  - destruct (updateSessionRoom_outcome Class.name 3 2 school eq_refl eq_refl)
      as (view & Hview & _ & Hroom & _).
    exists view; eexists; split; [exact Hview | exact Hroom].
  - destruct (updateSessionRoom_outcome Class.name 3 1
                (setClassSessions school
                   (DB.classSession school
                    ++ [ClassSession.mk 5 5 2 2 1 1 None]) 6)
                eq_refl eq_refl)
      as (c & Hc & Hrun).
    injection Hc as <-; exact Hrun.
Defined.

(** ** removeClassSession *)

Lemma hasKey_findMany {A} (key : A -> Z) (k : Z) (where_ : A -> bool) rows :
  hasKey key k rows = true ->
  (forall r, In r rows -> key r = k -> where_ r = true) ->
  hasKey key k (findMany where_ rows) = true.
Proof.
  unfold hasKey, findMany; intros H Hw.
  apply existsb_exists in H; destruct H as (r & Hin & Hk).
  apply existsb_exists; exists r; split; [| exact Hk].
  apply filter_In; split; [exact Hin |].
  apply Hw; [exact Hin | apply Z.eqb_eq; exact Hk].
Qed.

Lemma findUnique_findMany_notSession id rows :
  findUnique ClassSession.id id (findMany (notSession id) rows) = None.
Proof.
  unfold findUnique, findMany.
  destruct (find _ (filter (notSession id) rows)) as [r|] eqn:E;
    [| reflexivity].
  apply find_some in E; destruct E as [Hin Hid].
  apply filter_In in Hin; destruct Hin as [_ Hnot].
  unfold notSession in Hnot; rewrite Hid in Hnot; discriminate.
Qed.

(** X6. [removeClassSession] gives [NOT_FOUND] for a session that does not
    exist and leaves the store as it was; otherwise it succeeds: the session
    is gone and so are its teacher links, the other sessions and their links
    are as before, and a store with referential integrity keeps it. *)
Theorem removeClassSession_removes_the_session_and_its_links
  (classSessionId : Z) (db : DB.t) :
  match findUnique ClassSession.id classSessionId (DB.classSession db) with
  | None =>
      removeClassSession classSessionId db
      = (Err (Thrown NOT_FOUND "Class session not found"), db)
  | Some _ =>
      exists db',
        removeClassSession classSessionId db = (Ok true, db')
        /\ findUnique ClassSession.id classSessionId (DB.classSession db')
           = None
        /\ (forall s,
              In s (DB.classSession db')
              <-> In s (DB.classSession db)
                  /\ ClassSession.id s <> classSessionId)
        /\ linksOf db' classSessionId = []
        /\ linksElsewhere db' classSessionId
           = linksElsewhere db classSessionId
        /\ (refsOk db = true -> refsOk db' = true)
  end.
Proof.
  unfold removeClassSession, txBind, txRead, txThrow, txRet.
  destruct (findUnique ClassSession.id classSessionId (DB.classSession db))
    as [session|] eqn:Hsession; [| reflexivity].
  unfold classSession_delete; rewrite Hsession.
  eexists; split; [reflexivity |]; simpl.
  split; [apply findUnique_findMany_notSession |].
  split.
  { intros s; rewrite findMany_In, notSession_true; tauto. }
  split.
  { unfold linksOf; simpl.
    apply (filter_filter_negb
             (fun l => ClassSessionTeacher.classSessionId l =? classSessionId)). }
  split.
  { unfold linksElsewhere; simpl; apply filter_idempotent. }
  intros Hrefs; pose proof Hrefs as H; unfold refsOk in H |- *; simpl.
  apply andb_prop in H; destruct H as [H Hduty].
  apply andb_prop in H; destruct H as [Hs Hl].
  rewrite forallb_forall in Hs, Hl.
  apply andb_true_intro; split; [apply andb_true_intro; split |].
  - apply forallb_forall; intros s Hin.
    apply findMany_In in Hin; destruct Hin as [Hin _].
    exact (Hs s Hin).
  - apply forallb_forall; intros l Hin.
    apply findMany_In in Hin; destruct Hin as [Hin Hne].
    specialize (Hl l Hin); unfold linkRefsOk in *; simpl.
    apply andb_prop in Hl; destruct Hl as [Hcs Ht].
    rewrite Ht, andb_true_r.
    apply hasKey_findMany; [exact Hcs |].
    intros r _ Hr; unfold notSession; rewrite Hr; exact Hne.
  - exact Hduty.
Qed.

Lemma removeClassSession_removes_the_session_and_its_links_witness :
  exists db',
    removeClassSession 1 school = (Ok true, db')
    /\ findUnique ClassSession.id 1 (DB.classSession db') = None
    /\ linksOf db' 1 = []
    /\ refsOk db' = true.
Proof.
  destruct (removeClassSession_removes_the_session_and_its_links 1 school)
    as (db' & Hrun & Hgone & _ & Hlinks & _ & Hrefs).
  exists db'; repeat split; auto.
Defined.

(** ** createClassSession *)

Lemma exclusivityThrowStep_Ok gradeId u s c u' :
  exclusivityThrowStep gradeId u (s, c) = Ok u' <->
  isNull (Class.gradeId c) = isNull gradeId.
Proof.
  unfold exclusivityThrowStep.
  destruct (isNull gradeId), (isNull (Class.gradeId c)); simpl;
    split; intros H; try discriminate; try reflexivity.
  all: destruct u'; reflexivity.
Qed.

Lemma foldM_exclusivityThrowStep_Ok gradeId l u u' :
  foldM (exclusivityThrowStep gradeId) l u = Ok u' <->
  (forall s c, In (s, c) l -> isNull (Class.gradeId c) = isNull gradeId).
Proof.
  revert u; induction l as [|[s c] l IH]; intros u; cbn [foldM In].
  - split; [intros _ ? ? [] | intros _; destruct u, u'; reflexivity].
  - split.
    + intros H; apply bind_Ok in H; destruct H as (u1 & Hstep & H).
      apply exclusivityThrowStep_Ok in Hstep.
      intros s' c' [Heq | Hin].
      * injection Heq as <- <-; exact Hstep.
      * exact (proj1 (IH u1) H s' c' Hin).
    + intros H.
      assert (Hstep : exclusivityThrowStep gradeId u (s, c) = Ok tt)
        by (apply exclusivityThrowStep_Ok, (H s c); left; reflexivity).
      rewrite Hstep; simpl; apply IH.
      intros s' c' Hin; apply (H s' c'); right; exact Hin.
Qed.

Lemma foldM_exclusivityThrowStep_Err gradeId l u e :
  foldM (exclusivityThrowStep gradeId) l u = Err e ->
  exists s c message,
    In (s, c) l
    /\ isNull (Class.gradeId c) <> isNull gradeId
    /\ e = Thrown CONFLICT message.
Proof.
  revert u; induction l as [|[s c] l IH]; intros u; cbn [foldM];
    [discriminate |].
  intros H; apply bind_Err in H; destruct H as [H | (u1 & _ & H)].
  - exists s, c; unfold exclusivityThrowStep in H.
    destruct (isNull gradeId), (isNull (Class.gradeId c)); simpl in H;
      try discriminate; injection H as <-;
      eexists; (split; [left; reflexivity |]);
      (split; [discriminate | reflexivity]).
  - destruct (IH u1 H) as (s' & c' & m & Hin & Hne & He).
    exists s', c', m; split; [right; exact Hin | auto].
Qed.

Lemma flat_map_gradeExclusivityStep_nil gradeId blk day l :
  flat_map (gradeExclusivityStep gradeId blk day []) l = [] <->
  (forall s c, In (s, c) l -> isNull (Class.gradeId c) = isNull gradeId).
Proof.
  induction l as [|[s c] l IH]; simpl.
  - split; [intros _ ? ? [] | reflexivity].
  - split.
    + intros H; apply app_eq_nil in H; destruct H as [Hstep H].
      intros s' c' [Heq | Hin]; [| apply (proj1 IH H s' c' Hin)].
      injection Heq as <- <-.
      unfold gradeExclusivityStep, push in Hstep.
      destruct (isNull gradeId), (isNull (Class.gradeId c)); simpl in Hstep;
        try discriminate; reflexivity.
    + intros H.
      rewrite (proj2 IH) by (intros s' c' Hin; apply (H s' c'); right; auto).
      rewrite app_nil_r.
      unfold gradeExclusivityStep, push.
      rewrite (H s c) by (left; reflexivity).
      destruct (isNull gradeId); reflexivity.
Qed.

Lemma includingAll_classOf_In db where_ rows res s c :
  includingAll (classOf db) (findMany where_ rows) = Ok res ->
  In (s, c) res ->
  In s rows /\ where_ s = true
  /\ findUnique Class.id (ClassSession.classId s) (DB.class db) = Some c.
Proof.
  intros H Hin.
  destruct (includingAll_In _ _ _ _ _ H Hin) as [Hs Hc].
  apply findMany_In in Hs; destruct Hs as [Hs Hw].
  apply classOf_Ok in Hc; auto.
Qed.

(** What a [createClassSession] that returns has checked and written. *)
Lemma createClassSession_Ok codeOf input db view db' :
  createClassSession codeOf input db = (Ok view, db') ->
  let classId := CreateClassSessionInput.classId input in
  let blockId := CreateClassSessionInput.blockId input in
  let dayOfWeek := CreateClassSessionInput.dayOfWeek input in
  let roomId := CreateClassSessionInput.roomId input in
  let semesterId := CreateClassSessionInput.semesterId input in
  let homeroomId := CreateClassSessionInput.homeroomId input in
  exists classToSchedule conflictingSessions created included,
    1 <= dayOfWeek <= 5
    /\ findUnique Class.id classId (DB.class db) = Some classToSchedule
    /\ findFirst (inRoomSlot blockId dayOfWeek roomId semesterId)
         (DB.classSession db) = None
    /\ includingAll (classOf db)
         (findMany (inSlot blockId dayOfWeek semesterId) (DB.classSession db))
       = Ok conflictingSessions
    /\ foldM (exclusivityThrowStep (Class.gradeId classToSchedule))
         conflictingSessions tt = Ok tt
    /\ classSession_create classId blockId dayOfWeek roomId semesterId
         (Some homeroomId) db = (Ok created, db')
    /\ sessionIncludes db' created = Ok included
    /\ view = createdSessionView codeOf created included.
Proof.
  unfold createClassSession; intros H; cbv zeta; invert_tx H.
  apply txRead_Ok in E; destruct E as [E ->].
  apply zod_Ok, andb_prop in E; destruct E as [Hlo Hhi].
  apply Z.leb_le in Hlo, Hhi.
  apply txRead_Ok in E0; destruct E0 as [Hclass ->].
  apply orThrow_Ok in Hclass.
  apply txRead_Ok in E1; destruct E1 as [Hexisting ->].
  match type of Hexisting with _ = Ok ?x => rename x into existing end.
  destruct existing as [[existing [[[c grade] b] r]]|];
    [apply txThrow_Err in H; destruct H; discriminate |].
  apply including_Ok in Hexisting.
  invert_tx H.
  apply txRead_Ok in E; destruct E as [Hconfl ->].
  apply txRead_Ok in E0; destruct E0 as [Hfold ->].
  match type of Hfold with _ = Ok ?u => destruct u end.
  apply returning_Ok in E1; destruct E1 as [Hcreate Hincluded].
  injection H as <- <-.
  eexists _, _, _, _.
  split; [lia |].
  repeat (split; [eassumption |]).
  reflexivity.
Qed.

(** How [createClassSession] fails: before its checks are done, on the
    session that holds the room, on a session of the other kind in the block,
    or in the write. In every case the store is as before. *)
Lemma createClassSession_Err codeOf input db e db' :
  createClassSession codeOf input db = (Err e, db') ->
  let classId := CreateClassSessionInput.classId input in
  let blockId := CreateClassSessionInput.blockId input in
  let dayOfWeek := CreateClassSessionInput.dayOfWeek input in
  let roomId := CreateClassSessionInput.roomId input in
  let semesterId := CreateClassSessionInput.semesterId input in
  let homeroomId := CreateClassSessionInput.homeroomId input in
  db' = db
  /\ (validationError e
      \/ (exists existing message,
            findFirst (inRoomSlot blockId dayOfWeek roomId semesterId)
              (DB.classSession db) = Some existing
            /\ e = Thrown CONFLICT message)
      \/ exists classToSchedule conflictingSessions,
           findUnique Class.id classId (DB.class db) = Some classToSchedule
           /\ findFirst (inRoomSlot blockId dayOfWeek roomId semesterId)
                (DB.classSession db) = None
           /\ includingAll (classOf db)
                (findMany (inSlot blockId dayOfWeek semesterId)
                   (DB.classSession db))
              = Ok conflictingSessions
           /\ ((exists s c message,
                  In (s, c) conflictingSessions
                  /\ isNull (Class.gradeId c)
                     <> isNull (Class.gradeId classToSchedule)
                  /\ e = Thrown CONFLICT message)
               \/ returning
                    (classSession_create classId blockId dayOfWeek roomId
                       semesterId (Some homeroomId))
                    sessionIncludes db = (Err e, db))).
Proof.
  unfold createClassSession; intros H; cbv zeta.
  failing_tx H.
  { apply txRead_Err in H; destruct H as [H ->].
    split; [reflexivity | left; eapply zod_Err; exact H]. }
  apply txRead_Ok in E; destruct E as [_ ->].
  failing_tx H.
  { apply txRead_Err in H; destruct H as [H ->].
    split; [reflexivity | left; eapply orThrow_Err; exact H]. }
  apply txRead_Ok in E; destruct E as [Hclass ->].
  apply orThrow_Ok in Hclass.
  failing_tx H.
  { apply txRead_Err in H; destruct H as [H ->].
    split; [reflexivity | left].
    eapply including_Err; [| exact H].
    intros ? ? Hr; include_failed Hr. }
  apply txRead_Ok in E; destruct E as [Hexisting ->].
  match type of Hexisting with _ = Ok ?x => rename x into existing end.
  destruct existing as [[existing [[[c grade] b] r]]|].
  { apply txThrow_Err in H; destruct H as [H ->]; injection H as ->.
    apply including_Ok in Hexisting; destruct Hexisting as [Hexisting _].
    split; [reflexivity | right; left].
    exists existing; eexists; split; [exact Hexisting | reflexivity]. }
  apply including_Ok in Hexisting.
  failing_tx H.
  { apply txRead_Err in H; destruct H as [H ->].
    split; [reflexivity | left].
    eapply includingAll_Err; [| exact H].
    intros ? ? Hr; eapply classOf_Err; exact Hr. }
  apply txRead_Ok in E; destruct E as [Hconfl ->].
  failing_tx H.
  { apply txRead_Err in H; destruct H as [H ->].
    apply foldM_exclusivityThrowStep_Err in H.
    destruct H as (s & c' & m & Hin & Hne & ->).
    split; [reflexivity | right; right].
    eexists _, _; repeat (split; [eassumption |]).
    left; exists s, c', m; auto. }
  apply txRead_Ok in E; destruct E as [_ ->].
  failing_tx H; [| discriminate].
  pose proof (returning_Err _ _ _ _ _ H) as ->.
  split; [reflexivity | right; right].
  eexists _, _; repeat (split; [eassumption |]).
  right; exact H.
Qed.

Lemma findFirst_existsb {A} (where_ : A -> bool) rows :
  findFirst where_ rows = None -> existsb where_ rows = false.
Proof.
  intros H; destruct (existsb where_ rows) eqn:E; [| reflexivity].
  apply existsb_exists in E; destruct E as (r & Hin & Hr).
  rewrite (findFirst_None _ _ H r Hin) in Hr; discriminate.
Qed.

Lemma returning_create_Err classId blockId dayOfWeek roomId semesterId
  homeroomId db e db' :
  returning
    (classSession_create classId blockId dayOfWeek roomId semesterId
       homeroomId)
    sessionIncludes db = (Err e, db') ->
  e = PrismaError ForeignKeyConstraintFailed
  \/ e = PrismaError InconsistentQueryResult
  \/ (e = PrismaError UniqueConstraintFailed
      /\ existsb (inRoomSlot blockId dayOfWeek roomId semesterId)
           (DB.classSession db) = true).
Proof.
  unfold returning.
  destruct (classSession_create _ _ _ _ _ _ db) as [[row|e'] db1] eqn:Hw.
  - destruct (sessionIncludes db1 row) eqn:Hi; intros H; [discriminate |].
    injection H as <- _.
    apply sessionIncludes_Err in Hi; auto.
  - intros H; injection H as <- _.
    unfold classSession_create, slotTaken in Hw; simpl in Hw.
    destruct (existsb _ (DB.classSession db)) eqn:Htaken;
      [injection Hw as <- _; auto |].
    destruct (classSessionRefsOk db _); simpl in Hw; [discriminate |].
    injection Hw as <- _; auto.
Qed.

(** X7. [createClassSession] either fails and leaves the store as it was,
    never on the uniqueness constraint of the store, or returns the created
    session: the store has one more session, with the next identifier and
    the class, block, day, room, semester and homeroom of the input, and
    nothing else has changed. Before the write no session held the room in
    the (block, day, semester), and the sessions of the block were all of
    the same kind, shared or grade-specific, as the class. *)
Theorem createClassSession_adds_one_session (codeOf : Class.t -> string)
  (input : CreateClassSessionInput.t) (db db' : DB.t)
  (r : Result CreatedSessionView.t) :
  createClassSession codeOf input db = (r, db') ->
  match r with
  | Err e => db' = db /\ e <> PrismaError UniqueConstraintFailed
  | Ok view =>
      db' = setClassSessions db (DB.classSession db ++ [rowOf db input])
              (DB.classSessionSeq db + 1)
      /\ CreatedSessionView.id view = DB.classSessionSeq db
      /\ (forall s,
            In s (DB.classSession db) ->
            inRoomSlot (CreateClassSessionInput.blockId input)
              (CreateClassSessionInput.dayOfWeek input)
              (CreateClassSessionInput.roomId input)
              (CreateClassSessionInput.semesterId input) s = false)
      /\ exists classToSchedule,
           findUnique Class.id (CreateClassSessionInput.classId input)
             (DB.class db) = Some classToSchedule
           /\ CreatedSessionView.classGradeId view
              = Class.gradeId classToSchedule
           /\ forall s c,
                In s (DB.classSession db) ->
                inSlot (CreateClassSessionInput.blockId input)
                  (CreateClassSessionInput.dayOfWeek input)
                  (CreateClassSessionInput.semesterId input) s = true ->
                findUnique Class.id (ClassSession.classId s) (DB.class db)
                = Some c ->
                isNull (Class.gradeId c)
                = isNull (Class.gradeId classToSchedule)
  end.
Proof.
  intros H; destruct r as [view|e].
  - apply createClassSession_Ok in H; cbv zeta in H.
    destruct H as (cls & confl & created & included & _ & Hclass & Hfree
                   & Hconfl & Hfold & Hcreate & Hincluded & ->).
    apply classSession_create_Ok in Hcreate.
    destruct Hcreate as (Hcreated & _ & _ & ->).
    change (created = rowOf db input) in Hcreated; subst created.
    rewrite sessionIncludes_setClassSessions in Hincluded.
    destruct included as [[[c r] b] ts].
    split; [reflexivity |].
    split; [reflexivity |].
    split; [exact (findFirst_None _ _ Hfree) |].
    exists cls; split; [exact Hclass |].
    split.
    + unfold sessionIncludes in Hincluded; invert_binds Hincluded.
      injection Hincluded as <- _ _ _.
      apply classOf_Ok in E; simpl in E.
      simpl; congruence.
    + intros s c' Hin Hslot Hc'.
      apply (proj1 (foldM_exclusivityThrowStep_Ok _ _ _ _) Hfold s c').
      destruct (includingAll_complete _ _ _ s Hconfl) as (c'' & Hc'' & Hin'').
      { apply findMany_In; auto. }
      apply classOf_Ok in Hc''.
      assert (c'' = c') by congruence; subst c''; exact Hin''.
  - apply createClassSession_Err in H; cbv zeta in H.
    destruct H as [-> H]; split; [reflexivity |].
    destruct H as [H | [(existing & m & _ & ->) | H]];
      [inversion H; discriminate | discriminate |].
    destruct H as (cls & confl & _ & Hfree & _
                   & [(s & c & m & _ & _ & ->) | Hwrite]); [discriminate |].
    apply returning_create_Err in Hwrite.
    destruct Hwrite as [-> | [-> | [_ Htaken]]]; try discriminate.
    rewrite (findFirst_existsb _ _ Hfree) in Htaken; discriminate.
Qed.

Lemma createClassSession_adds_one_session_witness :
  exists view db',
    createClassSession Class.name (CreateClassSessionInput.mk 5 1 2 1 1 1)
      school = (Ok view, db')
    /\ CreatedSessionView.id view = 5
    /\ List.length (DB.classSession db') = 5%nat.
Proof.
  eexists _, _; split; [cbv; reflexivity |].
  destruct (createClassSession_adds_one_session Class.name
              (CreateClassSessionInput.mk 5 1 2 1 1 1) school _ _ eq_refl)
    as (Hdb & Hid & _).
  split; [exact Hid | reflexivity].
Defined.

Lemma validateSessionCreate_invalid db input v :
  validateSessionCreate db input = Ok v ->
  ValidationResult.conflicts v <> [] ->
  ValidationResult.valid v = false.
Proof.
  intros H Hne; rewrite (validateSessionCreate_valid _ _ _ H).
  destruct (ValidationResult.conflicts v); [contradiction | reflexivity].
Qed.

(** X8. When [createClassSession] refuses with a [CONFLICT], the dry run of
    the same creation on the same store does not return a valid verdict: it
    has a room conflict or a homeroom conflict. The checks of the mutation
    are among the checks of [validateSessionCreate]. *)
Theorem createClassSession_refusal_shows_in_dry_run
  (codeOf : Class.t -> string) (input : CreateClassSessionInput.t)
  (db db' : DB.t) (message : string) (v : ValidationResult.t) :
  createClassSession codeOf input db = (Err (Thrown CONFLICT message), db') ->
  validateSessionCreate db (dryRunOf input) = Ok v ->
  ValidationResult.valid v = false
  /\ exists c,
       In c (ValidationResult.conflicts v)
       /\ (Conflict.type c = ConflictType.room
           \/ Conflict.type c = ConflictType.homeroom).
Proof.
  intros Hcreate Hv.
  assert (Hsome :
    exists c,
      In c (ValidationResult.conflicts v)
      /\ (Conflict.type c = ConflictType.room
          \/ Conflict.type c = ConflictType.homeroom)).
  { apply createClassSession_Err in Hcreate; cbv zeta in Hcreate.
    destruct Hcreate as [_ [Hbad | Hcreate]]; [inversion Hbad |].
    apply validateSessionCreate_Ok in Hv; cbv zeta in Hv; simpl in Hv.
    destruct Hv as (cls' & blk & rc & dc & hc & confl' & dups & _ & Hclass'
                    & _ & Hrc & _ & _ & Hconfl' & _ & Hconf & _).
    destruct Hcreate as [(existing & m & Hexisting & _) | Hcreate].
    - rewrite Hexisting in Hrc; simpl in Hrc.
      apply bind_Ok in Hrc; destruct Hrc as ([c r] & _ & Hrc).
      injection Hrc as <-.
      eexists; split; [rewrite Hconf; left; reflexivity | left; reflexivity].
    - destruct Hcreate as (cls & confl & Hclass & _ & Hconfl
                           & [(s & c & m & Hin & Hne & _) | Hwrite]).
      + assert (cls' = cls) by congruence; subst cls'.
        assert (confl' = confl) by congruence; subst confl'.
        destruct (flat_map
                    (gradeExclusivityStep (Class.gradeId cls) blk
                       (CreateClassSessionInput.dayOfWeek input) [])
                    confl) as [|c0 cs] eqn:Hflat.
        * elim Hne.
          exact (proj1 (flat_map_gradeExclusivityStep_nil _ _ _ _) Hflat
                   s c Hin).
        * exists c0; split.
          { rewrite Hconf; do 3 (apply in_or_app; right).
            left; reflexivity. }
          right.
          assert (Hc0 :
            In c0
              (flat_map
                 (gradeExclusivityStep (Class.gradeId cls) blk
                    (CreateClassSessionInput.dayOfWeek input) [])
                 confl)) by (rewrite Hflat; left; reflexivity).
          apply in_flat_map in Hc0; destruct Hc0 as ([s' c'] & _ & Hc0).
          apply gradeExclusivityStep_In in Hc0.
          destruct Hc0 as [(_ & _ & ->) | (_ & _ & ->)]; reflexivity.
      + apply returning_create_Err in Hwrite.
        destruct Hwrite as [H | [H | [H _]]]; discriminate. }
  split; [| exact Hsome].
  destruct Hsome as (c & Hin & _).
  eapply validateSessionCreate_invalid; [exact Hv |].
  intros Hnil; rewrite Hnil in Hin; destruct Hin.
Qed.

Lemma createClassSession_refusal_shows_in_dry_run_witness :
  exists message v,
    createClassSession Class.name (CreateClassSessionInput.mk 3 1 1 2 1 1)
      school = (Err (Thrown CONFLICT message), school)
    /\ validateSessionCreate school
         (dryRunOf (CreateClassSessionInput.mk 3 1 1 2 1 1)) = Ok v
    /\ ValidationResult.valid v = false.
Proof.
  eexists _, _; split; [cbv; reflexivity |].
  split; [cbv; reflexivity |].
  eapply (createClassSession_refusal_shows_in_dry_run Class.name
            (CreateClassSessionInput.mk 3 1 1 2 1 1) school school);
    cbv; reflexivity.
Defined.

(** X9. A creation that the dry run finds valid goes through: over a store
    with referential integrity, when [validateSessionCreate] returns a valid
    verdict and the room, the semester and the homeroom of the input exist,
    [createClassSession] succeeds and returns the session with the next
    identifier. *)
Theorem createClassSession_follows_valid_dry_run (codeOf : Class.t -> string)
  (input : CreateClassSessionInput.t) (db : DB.t) (v : ValidationResult.t) :
  refsOk db = true ->
  validateSessionCreate db (dryRunOf input) = Ok v ->
  ValidationResult.valid v = true ->
  hasKey Room.id (CreateClassSessionInput.roomId input) (DB.room db) = true ->
  existsb (Z.eqb (CreateClassSessionInput.semesterId input)) (DB.semester db)
  = true ->
  existsb (Z.eqb (CreateClassSessionInput.homeroomId input)) (DB.homeroom db)
  = true ->
  exists view,
    createClassSession codeOf input db
    = (Ok view,
       setClassSessions db (DB.classSession db ++ [rowOf db input])
         (DB.classSessionSeq db + 1))
    /\ CreatedSessionView.id view = DB.classSessionSeq db.
Proof.
  intros Hrefs Hv Hvalid Hroom Hsem Hhome.
  rewrite (validateSessionCreate_valid _ _ _ Hv) in Hvalid.
  apply isEmpty_true in Hvalid.
  apply validateSessionCreate_Ok in Hv; cbv zeta in Hv; simpl in Hv.
  destruct Hv as (cls & blk & rc & dc & hc & confl & dups & Hday & Hclass
                  & Hblk & Hrc & _ & _ & Hconfl & _ & Hconf & _).
  rewrite Hvalid in Hconf; symmetry in Hconf.
  apply app_nil_parts in Hconf; destruct Hconf as [Hrcnil Hconf].
  apply app_nil_parts in Hconf; destruct Hconf as [_ Hconf].
  apply app_nil_parts in Hconf; destruct Hconf as [_ Hflat].
  assert (rc = None) by (destruct rc as [[s [c r]]|]; [discriminate | auto]).
  subst rc; apply including_Ok in Hrc.
  pose proof (proj1 (flat_map_gradeExclusivityStep_nil _ _ _ _) Hflat)
    as Hkinds.
  assert (Hkeys : classSessionRefsOk db (rowOf db input) = true).
  { unfold classSessionRefsOk, rowOf; simpl.
    rewrite (findUnique_hasKey _ _ _ _ Hclass),
      (findUnique_hasKey _ _ _ _ Hblk), Hroom, Hsem, Hhome; reflexivity. }
  destruct (sessionIncludes_total db (rowOf db input) Hrefs)
    as [[[[c r] b] ts] Hincluded].
  { exists cls; apply classOf_Ok; exact Hclass. }
  { apply required_total; exact Hroom. }
  { apply required_total; exact (findUnique_hasKey _ _ _ _ Hblk). }
  unfold createClassSession, txBind, txRead, txThrow, txRet; cbv beta zeta.
  replace ((1 <=? CreateClassSessionInput.dayOfWeek input)
           && (CreateClassSessionInput.dayOfWeek input <=? 5)) with true
    by (symmetry; apply andb_true_intro; split; apply Z.leb_le; lia).
  simpl zod; cbv beta iota.
  rewrite Hclass; simpl orThrow; cbv beta iota.
  rewrite Hrc; simpl including; cbv beta iota.
  rewrite Hconfl.
  rewrite (proj2 (foldM_exclusivityThrowStep_Ok _ _ tt tt) Hkinds).
  unfold returning, classSession_create.
  change {| ClassSession.id := DB.classSessionSeq db;
            ClassSession.classId := CreateClassSessionInput.classId input;
            ClassSession.blockId := CreateClassSessionInput.blockId input;
            ClassSession.dayOfWeek := CreateClassSessionInput.dayOfWeek input;
            ClassSession.roomId := CreateClassSessionInput.roomId input;
            ClassSession.semesterId :=
              CreateClassSessionInput.semesterId input;
            ClassSession.homeroomId :=
              Some (CreateClassSessionInput.homeroomId input) |}
    with (rowOf db input).
  rewrite Hkeys; simpl negb; cbv beta iota.
  unfold slotTaken; simpl.
  rewrite (findFirst_existsb _ _ Hrc).
  rewrite sessionIncludes_setClassSessions, Hincluded.
  eexists; split; reflexivity.
Qed.

Lemma createClassSession_follows_valid_dry_run_witness :
  exists view db',
    createClassSession Class.name (CreateClassSessionInput.mk 5 1 2 1 1 1)
      school = (Ok view, db')
    /\ CreatedSessionView.id view = 5.
Proof.
  destruct (createClassSession_follows_valid_dry_run Class.name
              (CreateClassSessionInput.mk 5 1 2 1 1 1) school
              {| ValidationResult.valid := true;
                 ValidationResult.conflicts := [];
                 ValidationResult.warnings := [] |})
    as (view & Hrun & Hid); try (cbv; reflexivity).
  exists view; eexists; split; [exact Hrun | exact Hid].
Defined.

(** ** The grade conflict check of a batch *)

Lemma gradesApart_spec db :
  gradesApart db = true <->
  (forall s1 s2,
     In s1 (DB.classSession db) -> In s2 (DB.classSession db) ->
     sameGradeOverlap db s1 s2 = false).
Proof.
  unfold gradesApart; rewrite forallb_forall; split.
  - intros H s1 s2 H1 H2; specialize (H s1 H1).
    rewrite forallb_forall in H; apply negb_true_iff, H, H2.
  - intros H s1 H1; apply forallb_forall; intros s2 H2.
    apply negb_true_iff, H; assumption.
Qed.

Lemma strictEq_sym x y : strictEq x y = strictEq y x.
Proof. destruct x, y; simpl; auto using Z.eqb_sym. Qed.

Lemma strictEq_true x y : strictEq x y = true <-> x = y.
Proof.
  destruct x as [a|], y as [b|]; simpl; rewrite ?Z.eqb_eq;
    split; congruence.
Qed.

Lemma inSlot_true b d sem s :
  inSlot b d sem s = true <->
  ClassSession.blockId s = b /\ ClassSession.dayOfWeek s = d
  /\ ClassSession.semesterId s = sem.
Proof.
  unfold inSlot; rewrite !andb_true_iff, !Z.eqb_eq; tauto.
Qed.

Lemma sameGradeOverlap_true db s1 s2 :
  sameGradeOverlap db s1 s2 = true <->
  ClassSession.id s1 <> ClassSession.id s2
  /\ ClassSession.blockId s2 = ClassSession.blockId s1
  /\ ClassSession.dayOfWeek s2 = ClassSession.dayOfWeek s1
  /\ ClassSession.semesterId s2 = ClassSession.semesterId s1
  /\ exists c1 c2,
       findUnique Class.id (ClassSession.classId s1) (DB.class db) = Some c1
       /\ findUnique Class.id (ClassSession.classId s2) (DB.class db)
          = Some c2
       /\ truthy (Class.gradeId c1) = true
       /\ Class.gradeId c2 = Class.gradeId c1.
Proof.
  unfold sameGradeOverlap, classGradeIs.
  rewrite !andb_true_iff, negb_true_iff, Z.eqb_neq, inSlot_true.
  destruct (findUnique Class.id (ClassSession.classId s1) (DB.class db))
    as [c1|];
    destruct (findUnique Class.id (ClassSession.classId s2) (DB.class db))
      as [c2|];
    rewrite ?andb_true_iff, ?strictEq_true; split;
    try (intros [_ H]; discriminate H);
    try (intros [_ [_ H]]; discriminate H);
    try (intros (_ & _ & _ & _ & c1' & c2' & H1 & H2 & _);
         discriminate H1 || discriminate H2).
  - intros [[Hid (Hb & Hd & Hs)] [Hg Heq]].
    repeat (split; [assumption |]).
    exists c1, c2; auto.
  - intros (Hid & Hb & Hd & Hs & c1' & c2' & H1 & H2 & Hg & Heq).
    injection H1 as <-; injection H2 as <-; auto.
Qed.

Lemma sameGradeOverlap_sym db s1 s2 :
  sameGradeOverlap db s1 s2 = true -> sameGradeOverlap db s2 s1 = true.
Proof.
  rewrite !sameGradeOverlap_true.
  intros (Hid & Hb & Hd & Hs & c1 & c2 & H1 & H2 & Hg & Heq).
  repeat split; try congruence.
  exists c2, c1; repeat split; congruence.
Qed.

(** The overlap reads the identifier, the class, the block, the day and the
    semester of a session, and the classes of the store. *)
Lemma sameGradeOverlap_ext db db' s1 s1' s2 s2' :
  DB.class db' = DB.class db ->
  ClassSession.id s1' = ClassSession.id s1 ->
  ClassSession.classId s1' = ClassSession.classId s1 ->
  ClassSession.blockId s1' = ClassSession.blockId s1 ->
  ClassSession.dayOfWeek s1' = ClassSession.dayOfWeek s1 ->
  ClassSession.semesterId s1' = ClassSession.semesterId s1 ->
  ClassSession.id s2' = ClassSession.id s2 ->
  ClassSession.classId s2' = ClassSession.classId s2 ->
  ClassSession.blockId s2' = ClassSession.blockId s2 ->
  ClassSession.dayOfWeek s2' = ClassSession.dayOfWeek s2 ->
  ClassSession.semesterId s2' = ClassSession.semesterId s2 ->
  sameGradeOverlap db' s1' s2' = sameGradeOverlap db s1 s2.
Proof.
  intros Hc Hi1 Hc1 Hb1 Hd1 Hs1 Hi2 Hc2 Hb2 Hd2 Hs2.
  unfold sameGradeOverlap, classGradeIs, inSlot.
  rewrite Hc, Hi1, Hc1, Hb1, Hd1, Hs1, Hi2, Hc2, Hb2, Hd2, Hs2; reflexivity.
Qed.

Lemma In_replaceRow id updated rows s :
  In s (replaceRow id updated rows) ->
  (s = updated /\ exists r, In r rows /\ ClassSession.id r = id)
  \/ (In s rows /\ ClassSession.id s <> id).
Proof.
  unfold replaceRow; rewrite in_map_iff; intros (r & Hr & Hin).
  destruct (ClassSession.id r =? id) eqn:E.
  - apply Z.eqb_eq in E; left; split; [congruence | eauto].
  - apply Z.eqb_neq in E; right; subst s; auto.
Qed.

(** A session placed where the check found nothing overlaps with none. *)
Lemma checked_placement db placed where_ cls s :
  findUnique Class.id (ClassSession.classId placed) (DB.class db) = Some cls ->
  (truthy (Class.gradeId cls) = true ->
   findFirst
     (fun s =>
        where_ s
        && inSlot (ClassSession.blockId placed) (ClassSession.dayOfWeek placed)
             (ClassSession.semesterId placed) s
        && classGradeIs db (Class.gradeId cls) s)
     (DB.classSession db) = None) ->
  In s (DB.classSession db) ->
  where_ s = true ->
  sameGradeOverlap db placed s = false.
Proof.
  intros Hcls Hcheck Hin Hw.
  destruct (sameGradeOverlap db placed s) eqn:E; [| reflexivity].
  apply sameGradeOverlap_true in E.
  destruct E as (_ & Hb & Hd & Hs & c1 & c2 & H1 & H2 & Hg & Heq).
  assert (c1 = cls) by congruence; subst c1.
  pose proof (findFirst_None _ _ (Hcheck Hg) s Hin) as Hnone.
  cbv beta in Hnone.
  rewrite Hw in Hnone.
  rewrite (proj2 (inSlot_true _ _ _ s)) in Hnone by auto.
  unfold classGradeIs in Hnone; rewrite H2 in Hnone.
  rewrite (proj2 (strictEq_true _ _) Heq) in Hnone; discriminate.
Qed.

Lemma applyChange_gradesApart results change db results' db' :
  applyChange results change db = (Ok results', db') ->
  gradesApart db = true -> gradesApart db' = true.
Proof.
  intros H Hinv; rewrite gradesApart_spec in Hinv |- *.
  destruct (Change.type change) eqn:Htype.
  - (* move *)
    pose proof (applyChange_move_Ok _ _ _ _ _ Htype H) as Hmove.
    cbv zeta in Hmove.
    destruct Hmove as (session & cls & updated & Hsession & Hcls & Hcheck
                       & Hupdate & _).
    apply classSession_update_Ok in Hupdate.
    destruct Hupdate as (row & Hrow & Hupdated & _ & _ & ->).
    assert (row = session) by congruence; subst row.
    simpl DB.classSession.
    assert (Hplaced :
      forall s, In s (DB.classSession db) ->
                ClassSession.id s <> Change.sessionId change ->
                sameGradeOverlap db updated s = false).
    { intros s Hin Hne.
      apply (checked_placement db updated (notSession (Change.sessionId change))
               cls); auto.
      - subst updated; exact Hcls.
      - subst updated; exact Hcheck.
      - apply notSession_true; exact Hne. }
    intros s1 s2 H1 H2.
    apply findUnique_Some in Hsession; destruct Hsession as [_ Hid].
    assert (Hidu : ClassSession.id updated = Change.sessionId change)
      by (subst updated; exact Hid).
    rewrite (sameGradeOverlap_ext db _ s1 s1 s2 s2) by reflexivity.
    apply In_replaceRow in H1; apply In_replaceRow in H2.
    destruct H1 as [[-> _] | [H1 Hn1]]; destruct H2 as [[-> _] | [H2 Hn2]].
    + unfold sameGradeOverlap; rewrite Z.eqb_refl; reflexivity.
    + apply Hplaced; assumption.
    + destruct (sameGradeOverlap db s1 updated) eqn:E; [| reflexivity].
      apply sameGradeOverlap_sym in E.
      rewrite Hplaced in E by assumption; discriminate.
    + apply Hinv; assumption.
  - (* create *)
    pose proof (applyChange_create_Ok _ _ _ _ _ Htype H) as Hcreate.
    cbv zeta in Hcreate.
    destruct Hcreate as [(_ & _ & ->) | Hcreate]; [exact Hinv |].
    destruct Hcreate as (cls & created & Hcls & Hcheck & Hcreate & _).
    apply classSession_create_Ok in Hcreate.
    destruct Hcreate as (Hcreated & _ & _ & ->).
    simpl DB.classSession.
    assert (Hplaced :
      forall s, In s (DB.classSession db) ->
                sameGradeOverlap db created s = false).
    { intros s Hin.
      apply (checked_placement db created (fun _ => true) cls); auto;
        subst created; simpl; auto. }
    intros s1 s2 H1 H2.
    rewrite (sameGradeOverlap_ext db _ s1 s1 s2 s2) by reflexivity.
    apply in_app_or in H1; apply in_app_or in H2.
    destruct H1 as [H1 | [<- | []]]; destruct H2 as [H2 | [<- | []]].
    + apply Hinv; assumption.
    + destruct (sameGradeOverlap db s1 created) eqn:E; [| reflexivity].
      apply sameGradeOverlap_sym in E.
      rewrite Hplaced in E by assumption; discriminate.
    + apply Hplaced; assumption.
    + unfold sameGradeOverlap; rewrite Z.eqb_refl; reflexivity.
  - (* update_room *)
    unfold applyChange in H; rewrite Htype in H.
    destruct (negb (truthy (Change.roomId change))
              || negb (truthy (Some (Change.sessionId change))));
      [discriminate |].
    invert_tx H.
    apply classSession_update_Ok in E.
    destruct E as (row & Hrow & Hupdated & _ & _ & ->).
    injection H as _ <-.
    simpl DB.classSession.
    apply findUnique_Some in Hrow; destruct Hrow as [Hrow Hid].
    assert (Hsame :
      forall s, In s (replaceRow (Change.sessionId change)
                        (setRoom (narrowed (Change.roomId change)) row)
                        (DB.classSession db)) ->
                exists s0,
                  In s0 (DB.classSession db)
                  /\ ClassSession.id s = ClassSession.id s0
                  /\ ClassSession.classId s = ClassSession.classId s0
                  /\ ClassSession.blockId s = ClassSession.blockId s0
                  /\ ClassSession.dayOfWeek s = ClassSession.dayOfWeek s0
                  /\ ClassSession.semesterId s = ClassSession.semesterId s0).
    { intros s Hin; apply In_replaceRow in Hin.
      destruct Hin as [[-> _] | [Hin _]];
        [exists row | exists s]; simpl; auto 10. }
    intros s1 s2 H1 H2; subst a.
    destruct (Hsame s1 H1) as (r1 & Hr1 & ? & ? & ? & ? & ?).
    destruct (Hsame s2 H2) as (r2 & Hr2 & ? & ? & ? & ? & ?).
    rewrite (sameGradeOverlap_ext db _ r1 s1 r2 s2) by auto.
    apply Hinv; assumption.
  - (* update_teacher *)
    unfold applyChange in H; rewrite Htype in H.
    destruct (negb (truthy (Change.teacherId change))
              || negb (truthy (Some (Change.sessionId change))));
      [discriminate |].
    invert_tx H.
    unfold classSessionTeacher_deleteMany in E; injection E as _ <-.
    apply classSessionTeacher_create_Ok in E0.
    destruct E0 as (_ & _ & _ & ->).
    injection H as _ <-; simpl DB.classSession.
    intros s1 s2 H1 H2.
    rewrite (sameGradeOverlap_ext db _ s1 s1 s2 s2) by reflexivity.
    apply Hinv; assumption.
Qed.

Lemma forOf_applyChange_gradesApart changes acc db results db' :
  forOf applyChange changes acc db = (Ok results, db') ->
  gradesApart db = true -> gradesApart db' = true.
Proof.
  revert acc db; induction changes as [|change changes IH]; intros acc db H.
  - simpl in H; injection H as _ <-; auto.
  - simpl in H; apply txBind_Ok in H; destruct H as (acc1 & db1 & H1 & H).
    intros Hinv; eapply IH; [exact H |].
    eapply applyChange_gradesApart; eassumption.
Qed.

(** X10. [batchSaveChanges] keeps the grades apart: when no two sessions of
    the store sit in one (block, day, semester) with classes of one grade,
    the same holds of the store after the batch, whatever the changes and
    whether it commits or not. The grade conflict check of the create and
    move branches is what the other two branches cannot undo. *)
Theorem batchSaveChanges_keeps_grades_apart (db : DB.t)
  (changes : list Change.t) (r : Result (list BatchResult.t)) (db' : DB.t) :
  gradesApart db = true ->
  batchSaveChanges db changes = (r, db') ->
  gradesApart db' = true.
Proof.
  intros Hinv H; destruct r as [results|e].
  - apply batchSaveChanges_Ok in H; destruct H as [_ H].
    eapply forOf_applyChange_gradesApart; eassumption.
  - unfold batchSaveChanges, transaction in H.
    destruct (forallb _ changes); [| injection H as _ <-; exact Hinv].
    destruct (batchBody changes db) as [[results|e'] db1]; [discriminate |].
    injection H as _ <-; exact Hinv.
Qed.

Lemma batchSaveChanges_keeps_grades_apart_witness :
  exists results db',
    batchSaveChanges school
      [Change.mk ChangeType.move 3 (Some 3) (Some 1) (Some 3) None None None
         None]
    = (Ok results, db')
    /\ gradesApart db' = true.
Proof.
  eexists _, _; split; [cbv; reflexivity |].
  eapply (batchSaveChanges_keeps_grades_apart school
            [Change.mk ChangeType.move 3 (Some 3) (Some 1) (Some 3) None None
               None None]);
    [reflexivity | cbv; reflexivity].
Defined.

(** ** A change of a batch after its dry run *)

Lemma gradeConflictCheck_run where_ grade gradeId db :
  findFirst (where_ db) (DB.classSession db) = None ->
  gradeConflictCheck where_ grade gradeId db = (Ok tt, db).
Proof.
  intros H; unfold gradeConflictCheck, txBind, txRead, txRet.
  rewrite H; reflexivity.
Qed.

Lemma txBind_read {A B} (query : DB.t -> Result A) (k : A -> Tx B) db :
  txBind (txRead query) k db
  = match query db with
    | Ok a => k a db
    | Err e => (Err e, db)
    end.
Proof. reflexivity. Qed.

Lemma txBind_run {A B} (m : Tx A) (k : A -> Tx B) db a db' :
  m db = (Ok a, db') -> txBind m k db = k a db'.
Proof. unfold txBind; intros ->; reflexivity. Qed.

(** Runs a create of a batch on a store where its check finds nothing and
    the constraints of the table hold for the new row. *)
Lemma applyChange_create_run results change db cls :
  Change.type change = ChangeType.create ->
  truthy (Change.classId change) = true ->
  truthy (Change.blockId change) = true ->
  truthy (Change.dayOfWeek change) = true ->
  truthy (Change.roomId change) = true ->
  truthy (Change.semesterId change) = true ->
  findUnique Class.id (narrowed (Change.classId change)) (DB.class db)
  = Some cls ->
  (truthy (Class.gradeId cls) = true ->
   findFirst
     (fun s =>
        inSlot (narrowed (Change.blockId change))
          (narrowed (Change.dayOfWeek change))
          (narrowed (Change.semesterId change)) s
        && classGradeIs db (Class.gradeId cls) s)
     (DB.classSession db) = None) ->
  classSessionRefsOk db (batchRowOf db change) = true ->
  findFirst
    (inRoomSlot (narrowed (Change.blockId change))
       (narrowed (Change.dayOfWeek change)) (narrowed (Change.roomId change))
       (narrowed (Change.semesterId change)))
    (DB.classSession db) = None ->
  applyChange results change db
  = (Ok (push results
           {| BatchResult.type := ChangeType.create;
              BatchResult.id := DB.classSessionSeq db |}),
     setClassSessions db (DB.classSession db ++ [batchRowOf db change])
       (DB.classSessionSeq db + 1)).
Proof.
  intros Htype Hc Hb Hd Hr Hs Hcls Hcheck Hrefs Hfree.
  unfold applyChange; rewrite Htype, Hc, Hb, Hd, Hr, Hs; cbn [negb orb].
  cbv iota zeta.
  rewrite txBind_read, Hcls; cbv beta iota.
  rewrite txBind_read; cbv beta iota.
  assert (Hgrade :
    (if truthy (Class.gradeId cls)
     then
       gradeConflictCheck
         (fun db s =>
            inSlot (narrowed (Change.blockId change))
              (narrowed (Change.dayOfWeek change))
              (narrowed (Change.semesterId change)) s
            && classGradeIs db (Class.gradeId cls) s)
         (gradeOf db cls) (Class.gradeId cls)
     else txRet tt) db = (Ok tt, db)).
  { destruct (truthy (Class.gradeId cls)); [| reflexivity].
    apply gradeConflictCheck_run; auto. }
  rewrite (txBind_run _ _ _ _ _ Hgrade).
  unfold txBind, classSession_create.
  change {| ClassSession.id := DB.classSessionSeq db;
            ClassSession.classId := narrowed (Change.classId change);
            ClassSession.blockId := narrowed (Change.blockId change);
            ClassSession.dayOfWeek := narrowed (Change.dayOfWeek change);
            ClassSession.roomId := narrowed (Change.roomId change);
            ClassSession.semesterId := narrowed (Change.semesterId change);
            ClassSession.homeroomId := Change.homeroomId change |}
    with (batchRowOf db change).
  rewrite Hrefs; simpl negb; cbv iota.
  unfold slotTaken; simpl ClassSession.blockId; simpl ClassSession.dayOfWeek;
    simpl ClassSession.roomId; simpl ClassSession.semesterId.
  rewrite (findFirst_existsb _ _ Hfree).
  reflexivity.
Qed.

(** Runs a move of a batch on a store where its check finds nothing and the
    constraints of the table hold for the moved row. *)
Lemma applyChange_move_run results change db session cls :
  Change.type change = ChangeType.move ->
  truthy (Change.blockId change) = true ->
  truthy (Change.dayOfWeek change) = true ->
  truthy (Change.roomId change) = true ->
  Change.sessionId change <> 0 ->
  findUnique ClassSession.id (Change.sessionId change) (DB.classSession db)
  = Some session ->
  findUnique Class.id (ClassSession.classId session) (DB.class db) = Some cls ->
  (truthy (Class.gradeId cls) = true ->
   findFirst
     (fun s =>
        notSession (Change.sessionId change) s
        && inSlot (narrowed (Change.blockId change))
             (narrowed (Change.dayOfWeek change))
             (ClassSession.semesterId session) s
        && classGradeIs db (Class.gradeId cls) s)
     (DB.classSession db) = None) ->
  hasKey Block.id (narrowed (Change.blockId change)) (DB.block db) = true ->
  hasKey Room.id (narrowed (Change.roomId change)) (DB.room db) = true ->
  findFirst
    (fun s =>
       notSession (Change.sessionId change) s
       && inRoomSlot (narrowed (Change.blockId change))
            (narrowed (Change.dayOfWeek change))
            (narrowed (Change.roomId change))
            (ClassSession.semesterId session) s)
    (DB.classSession db) = None ->
  applyChange results change db
  = (Ok (push results
           {| BatchResult.type := ChangeType.move;
              BatchResult.id := Change.sessionId change |}),
     setClassSessions db
       (replaceRow (Change.sessionId change)
          (setSlot (narrowed (Change.blockId change))
             (narrowed (Change.dayOfWeek change))
             (narrowed (Change.roomId change)) session)
          (DB.classSession db))
       (DB.classSessionSeq db)).
Proof.
  intros Htype Hb Hd Hr Hsid Hsession Hcls Hcheck Hblock Hroom Hfree.
  unfold applyChange; rewrite Htype, Hb, Hd, Hr.
  replace (truthy (Some (Change.sessionId change))) with true
    by (symmetry; simpl; apply negb_true_iff, Z.eqb_neq; exact Hsid).
  cbn [negb orb]; cbv iota zeta.
  rewrite txBind_read, Hsession.
  simpl including; unfold classOf; rewrite Hcls; simpl bind; cbv beta iota.
  rewrite txBind_read; cbv beta iota.
  assert (Hgrade :
    (if truthy (Class.gradeId cls)
     then
       gradeConflictCheck
         (fun db s =>
            notSession (Change.sessionId change) s
            && inSlot (narrowed (Change.blockId change))
                 (narrowed (Change.dayOfWeek change))
                 (ClassSession.semesterId session) s
            && classGradeIs db (Class.gradeId cls) s)
         (gradeOf db cls) (Class.gradeId cls)
     else txRet tt) db = (Ok tt, db)).
  { destruct (truthy (Class.gradeId cls)); [| reflexivity].
    apply gradeConflictCheck_run; auto. }
  rewrite (txBind_run _ _ _ _ _ Hgrade).
  unfold txBind, classSession_update; rewrite Hsession; cbv zeta.
  unfold slotRefsOk; simpl ClassSession.blockId; simpl ClassSession.roomId.
  rewrite Hblock, Hroom; simpl negb; cbv iota.
  rewrite slotTaken_setSlot, Hfree.
  unfold txRet; simpl.
  apply findUnique_Some in Hsession; destruct Hsession as [_ ->].
  reflexivity.
Qed.

(** What a valid verdict of [validateSessionCreate] says of the store. *)
Lemma valid_create_verdict db input v :
  validateSessionCreate db input = Ok v ->
  ValidationResult.valid v = true ->
  let classId := ValidateSessionCreateInput.classId input in
  let targetBlockId := ValidateSessionCreateInput.targetBlockId input in
  let targetDayOfWeek := ValidateSessionCreateInput.targetDayOfWeek input in
  let targetRoomId := ValidateSessionCreateInput.targetRoomId input in
  let semesterId := ValidateSessionCreateInput.semesterId input in
  exists cls blk,
    1 <= targetDayOfWeek <= 5
    /\ findUnique Class.id classId (DB.class db) = Some cls
    /\ findUnique Block.id targetBlockId (DB.block db) = Some blk
    /\ findFirst
         (inRoomSlot targetBlockId targetDayOfWeek targetRoomId semesterId)
         (DB.classSession db) = None
    /\ (truthy (Class.gradeId cls) = true ->
        findFirst
          (fun s =>
             inSlot targetBlockId targetDayOfWeek semesterId s
             && classGradeIs db (Class.gradeId cls) s)
          (DB.classSession db) = None).
Proof.
  intros Hv Hvalid; cbv zeta.
  rewrite (validateSessionCreate_valid _ _ _ Hv) in Hvalid.
  apply isEmpty_true in Hvalid.
  apply validateSessionCreate_Ok in Hv; cbv zeta in Hv.
  destruct Hv as (cls & blk & rc & dc & hc & confl & dups & Hday & Hclass
                  & Hblk & Hrc & _ & Hhc & _ & _ & Hconf & _).
  rewrite Hvalid in Hconf; symmetry in Hconf.
  apply app_nil_parts in Hconf; destruct Hconf as [Hrcnil Hconf].
  apply app_nil_parts in Hconf; destruct Hconf as [_ Hconf].
  apply app_nil_parts in Hconf; destruct Hconf as [Hhcnil _].
  assert (rc = None) by (destruct rc as [[s [c r]]|]; [discriminate | auto]).
  assert (hc = None) by (destruct hc as [[s c]|]; [discriminate | auto]).
  subst rc hc; apply including_Ok in Hrc.
  exists cls, blk; repeat split; try tauto.
  intros Hg; rewrite Hg in Hhc; apply including_Ok in Hhc; exact Hhc.
Qed.

(** X11. A create of a batch goes through where its dry run is valid: when
    the change carries the fields a create requires,
    [validateSessionCreate] returns a valid verdict for them on the store
    the change finds, and the room, the semester and the homeroom exist, the
    change succeeds: it adds the session with the next identifier and
    records it in the results. *)
Theorem batch_create_follows_valid_dry_run (results : list BatchResult.t)
  (change : Change.t) (db : DB.t) (v : ValidationResult.t) :
  Change.type change = ChangeType.create ->
  truthy (Change.classId change) = true ->
  truthy (Change.blockId change) = true ->
  truthy (Change.roomId change) = true ->
  truthy (Change.semesterId change) = true ->
  validateSessionCreate db (dryRunOfCreate change) = Ok v ->
  ValidationResult.valid v = true ->
  hasKey Room.id (narrowed (Change.roomId change)) (DB.room db) = true ->
  existsb (Z.eqb (narrowed (Change.semesterId change))) (DB.semester db)
  = true ->
  hasOptionalKey (Change.homeroomId change) (DB.homeroom db) = true ->
  applyChange results change db
  = (Ok (push results
           {| BatchResult.type := ChangeType.create;
              BatchResult.id := DB.classSessionSeq db |}),
     setClassSessions db (DB.classSession db ++ [batchRowOf db change])
       (DB.classSessionSeq db + 1)).
Proof.
  intros Htype Hc Hb Hr Hs Hv Hvalid Hroom Hsem Hhome.
  destruct (valid_create_verdict _ _ _ Hv Hvalid)
    as (cls & blk & Hday & Hclass & Hblk & Hfree & Hgrade).
  simpl in Hday, Hclass, Hblk, Hfree, Hgrade.
  apply (applyChange_create_run results change db cls); auto.
  - destruct (Change.dayOfWeek change) as [d|]; simpl in *; [| lia].
    apply negb_true_iff, Z.eqb_neq; lia.
  - unfold classSessionRefsOk, batchRowOf; simpl.
    rewrite (findUnique_hasKey _ _ _ _ Hclass),
      (findUnique_hasKey _ _ _ _ Hblk), Hroom, Hsem, Hhome; reflexivity.
Qed.

Lemma batch_create_follows_valid_dry_run_witness :
  exists db',
    applyChange []
      (Change.mk ChangeType.create (-1) (Some 1) (Some 2) (Some 1) (Some 5)
         (Some 1) (Some 1) None)
      school
    = (Ok [BatchResult.mk ChangeType.create 5], db').
Proof.
  eexists.
  apply (batch_create_follows_valid_dry_run []
           (Change.mk ChangeType.create (-1) (Some 1) (Some 2) (Some 1)
              (Some 5) (Some 1) (Some 1) None)
           school
           {| ValidationResult.valid := true;
              ValidationResult.conflicts := [];
              ValidationResult.warnings := [] |});
    cbv; reflexivity.
Defined.

(** What a valid verdict of [validateSessionMove] says of the store. *)
Lemma valid_move_verdict db input v :
  validateSessionMove db input = Ok v ->
  ValidationResult.valid v = true ->
  let classSessionId := ValidateSessionMoveInput.classSessionId input in
  let targetBlockId := ValidateSessionMoveInput.targetBlockId input in
  let targetDayOfWeek := ValidateSessionMoveInput.targetDayOfWeek input in
  let targetRoomId := ValidateSessionMoveInput.targetRoomId input in
  let semesterId := ValidateSessionMoveInput.semesterId input in
  exists session cls blk,
    1 <= targetDayOfWeek <= 5
    /\ findUnique ClassSession.id classSessionId (DB.classSession db)
       = Some session
    /\ findUnique Class.id (ClassSession.classId session) (DB.class db)
       = Some cls
    /\ findUnique Block.id targetBlockId (DB.block db) = Some blk
    /\ findFirst
         (fun s =>
            notSession classSessionId s
            && inRoomSlot targetBlockId targetDayOfWeek targetRoomId
                 semesterId s)
         (DB.classSession db) = None
    /\ (truthy (Class.gradeId cls) = true ->
        findFirst
          (fun s =>
             notSession classSessionId s
             && inSlot targetBlockId targetDayOfWeek semesterId s
             && classGradeIs db (Class.gradeId cls) s)
          (DB.classSession db) = None).
Proof.
  intros Hv Hvalid; cbv zeta.
  rewrite (validateSessionMove_valid _ _ _ Hv) in Hvalid.
  apply isEmpty_true in Hvalid.
  apply validateSessionMove_Ok in Hv; cbv zeta in Hv.
  destruct Hv as (session & teachers & cls & blk & outs & rc & dc & hc
                  & confl & dups & Hday & Hsession & Hinc & Hblk & _
                  & Hrc & _ & Hhc & _ & _ & Hconf & _).
  rewrite Hvalid in Hconf; symmetry in Hconf.
  apply app_nil_parts in Hconf; destruct Hconf as [_ Hconf].
  apply app_nil_parts in Hconf; destruct Hconf as [Hrcnil Hconf].
  apply app_nil_parts in Hconf; destruct Hconf as [_ Hconf].
  apply app_nil_parts in Hconf; destruct Hconf as [Hhcnil _].
  assert (rc = None) by (destruct rc as [[s [c r]]|]; [discriminate | auto]).
  assert (hc = None) by (destruct hc as [[s c]|]; [discriminate | auto]).
  subst rc hc; apply including_Ok in Hrc.
  unfold teachersAndClassOf in Hinc; invert_binds Hinc.
  injection Hinc as _ <-.
  match goal with Hc : classOf db session = Ok _ |- _ =>
    apply classOf_Ok in Hc; rename Hc into Hcls end.
  exists session, r0, blk; repeat split; try tauto.
  intros Hg; rewrite Hg in Hhc; apply including_Ok in Hhc; exact Hhc.
Qed.

(** X12. A move of a batch goes through where its dry run is valid: when
    the change carries the fields a move requires, [validateSessionMove]
    returns a valid verdict for them, asked in the session's own semester on
    the store the change finds, and the room exists, the change succeeds: it
    sets the block, the day and the room of the session and records it in
    the results. *)
Theorem batch_move_follows_valid_dry_run (results : list BatchResult.t)
  (change : Change.t) (db : DB.t) (session : ClassSession.t)
  (v : ValidationResult.t) :
  Change.type change = ChangeType.move ->
  truthy (Change.blockId change) = true ->
  truthy (Change.roomId change) = true ->
  Change.sessionId change <> 0 ->
  findUnique ClassSession.id (Change.sessionId change) (DB.classSession db)
  = Some session ->
  validateSessionMove db (dryRunOfMove (ClassSession.semesterId session) change)
  = Ok v ->
  ValidationResult.valid v = true ->
  hasKey Room.id (narrowed (Change.roomId change)) (DB.room db) = true ->
  applyChange results change db
  = (Ok (push results
           {| BatchResult.type := ChangeType.move;
              BatchResult.id := Change.sessionId change |}),
     setClassSessions db
       (replaceRow (Change.sessionId change)
          (setSlot (narrowed (Change.blockId change))
             (narrowed (Change.dayOfWeek change))
             (narrowed (Change.roomId change)) session)
          (DB.classSession db))
       (DB.classSessionSeq db)).
Proof.
  intros Htype Hb Hr Hsid Hsession Hv Hvalid Hroom.
  destruct (valid_move_verdict _ _ _ Hv Hvalid)
    as (session' & cls & blk & Hday & Hsession' & Hcls & Hblk & Hfree
        & Hgrade).
  simpl in Hday, Hsession', Hblk, Hfree, Hgrade.
  assert (session' = session) by congruence; subst session'.
  apply (applyChange_move_run results change db session cls); auto.
  - destruct (Change.dayOfWeek change) as [d|]; simpl in *; [| lia].
    apply negb_true_iff, Z.eqb_neq; lia.
  - exact (findUnique_hasKey _ _ _ _ Hblk).
Qed.

Lemma batch_move_follows_valid_dry_run_witness :
  exists db',
    applyChange []
      (Change.mk ChangeType.move 3 (Some 3) (Some 1) (Some 3) None None None
         None)
      school
    = (Ok [BatchResult.mk ChangeType.move 3], db').
Proof.
  eexists.
  apply (batch_move_follows_valid_dry_run []
           (Change.mk ChangeType.move 3 (Some 3) (Some 1) (Some 3) None None
              None None)
           school (ClassSession.mk 3 4 2 2 3 1 None)
           {| ValidationResult.valid := true;
              ValidationResult.conflicts := [];
              ValidationResult.warnings := [] |});
    try (cbv; reflexivity).
  discriminate.
Defined.

(** * The scheduler page *)

(** ** The map of pending changes *)

Lemma In_mapSet {V} (m : JsMap V) key value e :
  In e (mapSet m key value) -> e = (key, value) \/ In e m.
Proof.
  induction m as [|[k v] m IH]; simpl.
  - intros [<- | []]; auto.
  - destruct (k =? key); simpl; intros [<- | H]; auto.
    destruct (IH H); auto.
Qed.

Lemma mapSet_keys {V} (m : JsMap V) key value :
  map fst (mapSet m key value)
  = if existsb (Z.eqb key) (map fst m) then map fst m
    else map fst m ++ [key].
Proof.
  induction m as [|[k v] m IH]; simpl; [reflexivity |].
  rewrite (Z.eqb_sym key k).
  destruct (k =? key) eqn:E; simpl.
  - apply Z.eqb_eq in E; subst k; reflexivity.
  - rewrite IH; destruct (existsb (Z.eqb key) (map fst m)); reflexivity.
Qed.

Lemma mapSet_NoDup {V} (m : JsMap V) key value :
  NoDup (map fst m) -> NoDup (map fst (mapSet m key value)).
Proof.
  intros H; rewrite mapSet_keys.
  destruct (existsb (Z.eqb key) (map fst m)) eqn:E; [exact H |].
  apply NoDup_app; [exact H | repeat constructor; intros [] |].
  intros k Hk [Heq | []]; subst k.
  assert (existsb (Z.eqb key) (map fst m) = true)
    by (apply existsb_exists; exists key; split;
        [exact Hk | apply Z.eqb_refl]).
  congruence.
Qed.

Lemma mapGet_mapSet {V} (m : JsMap V) key value :
  mapGet (mapSet m key value) key = Some value.
Proof.
  unfold mapGet; induction m as [|[k v] m IH]; simpl.
  - rewrite Z.eqb_refl; reflexivity.
  - destruct (k =? key) eqn:E; simpl; [rewrite Z.eqb_refl; reflexivity |].
    rewrite E; exact IH.
Qed.

Lemma mapSize_mapSet {V} (m : JsMap V) key value :
  (0 <? mapSize (mapSet m key value)) = true.
Proof.
  apply Z.ltb_lt; unfold mapSize.
  destruct m as [|[k v] m]; simpl; [lia |].
  destruct (k =? key); simpl List.length; lia.
Qed.

Lemma mapDelete_NoDup {V} (m : JsMap V) key :
  NoDup (map fst m) -> NoDup (map fst (mapDelete m key)).
Proof.
  unfold mapDelete; induction m as [|[k v] m IH]; simpl; [auto |].
  intros H; inversion H as [|? ? Hk Hm]; subst.
  destruct (k =? key); simpl; [auto |].
  constructor; [| auto].
  intros Hin; apply Hk.
  apply in_map_iff in Hin; destruct Hin as (e & He & Hin).
  apply filter_In in Hin; destruct Hin as [Hin _].
  apply in_map_iff; eauto.
Qed.

(** ** The states the store can be in *)

(** What every action keeps: the flag follows the map, the preview follows
    the drag, and the map holds each change under its session, once. *)
Lemma dispatch_keeps state action :
  (SchedulerState.hasUnsavedChanges state
   = (0 <? mapSize (SchedulerState.pendingChanges state))
   /\ SchedulerState.isDragging state
      = match SchedulerState.dragPreview state with
        | Some _ => true
        | None => false
        end
   /\ NoDup (map fst (SchedulerState.pendingChanges state))
   /\ Forall (fun e => PendingChange.sessionId (snd e) = fst e)
        (SchedulerState.pendingChanges state)) ->
  let state' := dispatch state action in
  SchedulerState.hasUnsavedChanges state'
  = (0 <? mapSize (SchedulerState.pendingChanges state'))
  /\ SchedulerState.isDragging state'
     = match SchedulerState.dragPreview state' with
       | Some _ => true
       | None => false
       end
  /\ NoDup (map fst (SchedulerState.pendingChanges state'))
  /\ Forall (fun e => PendingChange.sessionId (snd e) = fst e)
       (SchedulerState.pendingChanges state').
Proof.
  intros (Hflag & Hdrag & Hkeys & Hown); cbv zeta.
  destruct action; simpl; auto.
  - (* updateDragTarget *)
    repeat split; auto.
    rewrite Hdrag; destruct (SchedulerState.dragPreview state); reflexivity.
  - (* addPendingChange *)
    repeat split; auto.
    + symmetry; apply mapSize_mapSet.
    + apply mapSet_NoDup; exact Hkeys.
    + rewrite Forall_forall in Hown |- *.
      intros e He; apply In_mapSet in He.
      destruct He as [-> | He]; [reflexivity | exact (Hown e He)].
  - (* clearPendingChanges *)
    repeat split; auto; constructor.
  - (* removePendingChange *)
    repeat split; auto.
    + apply mapDelete_NoDup; exact Hkeys.
    + rewrite Forall_forall in Hown |- *.
      intros e He; apply filter_In in He; destruct He as [He _].
      exact (Hown e He).
  - (* reset *)
    repeat split; auto; constructor.
Qed.

(** X13. In every state the store reaches from its initial state, whatever
    the actions: [hasUnsavedChanges] is true exactly when there is a pending
    change, [isDragging] is true exactly when there is a drag preview, and
    the map of pending changes holds at most one change per session, each
    under the identifier of its own session. *)
Theorem store_flags_follow_the_state (actions : list Action) :
  let state := stateAfter actions in
  SchedulerState.hasUnsavedChanges state
  = (0 <? mapSize (SchedulerState.pendingChanges state))
  /\ SchedulerState.isDragging state
     = match SchedulerState.dragPreview state with
       | Some _ => true
       | None => false
       end
  /\ NoDup (map fst (SchedulerState.pendingChanges state))
  /\ Forall (fun e => PendingChange.sessionId (snd e) = fst e)
       (SchedulerState.pendingChanges state).
Proof.
  unfold stateAfter.
  assert (Hinit :
    SchedulerState.hasUnsavedChanges initialState
    = (0 <? mapSize (SchedulerState.pendingChanges initialState))
    /\ SchedulerState.isDragging initialState
       = match SchedulerState.dragPreview initialState with
         | Some _ => true
         | None => false
         end
    /\ NoDup (map fst (SchedulerState.pendingChanges initialState))
    /\ Forall (fun e => PendingChange.sessionId (snd e) = fst e)
         (SchedulerState.pendingChanges initialState))
    by (repeat split; constructor).
  revert Hinit; generalize initialState as state.
  induction actions as [|action actions IH]; intros state Hstate;
    [exact Hstate |].
  simpl; apply IH, dispatch_keeps, Hstate.
Qed.

(** ** getHomeroomsWithPendingChanges *)

Lemma setAdd_NoDup s x : NoDup s -> NoDup (setAdd s x).
Proof.
  intros H; unfold setAdd.
  destruct (existsb (Z.eqb x) s) eqn:E; [exact H |].
  apply NoDup_app; [exact H | repeat constructor; intros [] |].
  intros y Hy [Heq | []]; subst y.
  assert (existsb (Z.eqb x) s = true)
    by (apply existsb_exists; exists x; split; [exact Hy | apply Z.eqb_refl]).
  congruence.
Qed.

Lemma In_setAdd_iff s x y : In y (setAdd s x) <-> In y s \/ y = x.
Proof.
  unfold setAdd; destruct (existsb (Z.eqb x) s) eqn:E.
  - split; [auto | intros [H | ->]; [exact H |]].
    apply existsb_exists in E; destruct E as (z & Hz & Hxz).
    apply Z.eqb_eq in Hxz; subst z; exact Hz.
  - rewrite in_app_iff; simpl; intuition.
Qed.

Lemma homeroomIds_loop changes homeroomIds :
  NoDup homeroomIds ->
  let result :=
    fold_left
      (fun homeroomIds change =>
         match PendingChange.homeroomId change with
         | Some homeroomId => setAdd homeroomIds homeroomId
         | None => homeroomIds
         end)
      changes homeroomIds in
  NoDup result
  /\ forall h,
       In h result <->
       In h homeroomIds
       \/ exists change,
            In change changes /\ PendingChange.homeroomId change = Some h.
Proof.
  revert homeroomIds; induction changes as [|change changes IH];
    intros homeroomIds Hnodup; cbn [fold_left].
  - split; [exact Hnodup |].
    intros h; split; [auto | intros [H | (c & [] & _)]; exact H].
  - destruct (PendingChange.homeroomId change) as [h0|] eqn:Hh0.
    + destruct (IH (setAdd homeroomIds h0) (setAdd_NoDup _ _ Hnodup))
        as [Hres Hiff].
      split; [exact Hres |].
      intros h; rewrite Hiff, In_setAdd_iff; split.
      * intros [[H | ->] | (c & Hc & Hch)]; eauto 6 using in_eq, in_cons.
      * intros [H | (c & [<- | Hc] & Hch)]; eauto 6.
        left; right; congruence.
    + destruct (IH homeroomIds Hnodup) as [Hres Hiff].
      split; [exact Hres |].
      intros h; rewrite Hiff; split.
      * intros [H | (c & Hc & Hch)]; eauto 6 using in_cons.
      * intros [H | (c & [<- | Hc] & Hch)]; eauto 6.
        congruence.
Qed.

(** X20. [getHomeroomsWithPendingChanges] returns the homerooms of the
    pending changes, each once: a homeroom is in the set exactly when some
    pending change carries it, and a pending change without a homeroom adds
    nothing. *)
Theorem homerooms_with_pending_changes (state : SchedulerState.t) :
  NoDup (getHomeroomsWithPendingChanges state)
  /\ forall homeroomId,
       In homeroomId (getHomeroomsWithPendingChanges state) <->
       exists key change,
         In (key, change) (SchedulerState.pendingChanges state)
         /\ PendingChange.homeroomId change = Some homeroomId.
Proof.
  unfold getHomeroomsWithPendingChanges.
  destruct (homeroomIds_loop
              (mapValues (SchedulerState.pendingChanges state)) []
              (NoDup_nil Z)) as [Hnodup Hiff].
  split; [exact Hnodup |].
  intros h; rewrite Hiff; unfold mapValues; split.
  - intros [[] | (c & Hc & Hh)].
    apply in_map_iff in Hc; destruct Hc as ([k c'] & <- & Hin); eauto.
  - intros (k & c & Hin & Hh); right; exists c; split; [| exact Hh].
    apply in_map_iff; exists (k, c); auto.
Qed.

(** ** validateAllChanges *)

Lemma fetchValidation_valid db query v :
  fetchValidation db query = Ok v ->
  ValidationResult.valid v = isEmpty (ValidationResult.conflicts v).
Proof.
  destruct query as [input | input]; simpl;
    [apply validateSessionCreate_valid | apply validateSessionMove_valid].
Qed.

(** The conflicts one pending change adds to the list. *)
Lemma validateChange_conflicts db schedulerData selectedSemesterId conflicts
  warnings change :
  truthy selectedSemesterId = true ->
  exists entries,
    fst (validateChange db schedulerData selectedSemesterId
           (conflicts, warnings) change)
    = conflicts ++ entries
    /\ (entries = [] <->
        forall query v,
          validationQueryOf schedulerData (narrowed selectedSemesterId) change
          = Some query ->
          fetchValidation db query = Ok v ->
          ValidationResult.valid v = true).
Proof.
  intros Hsem; unfold validateChange; rewrite Hsem; simpl negb; cbv iota.
  destruct (validationQueryOf schedulerData (narrowed selectedSemesterId)
              change) as [query|].
  2:{ exists []; split; [symmetry; apply app_nil_r |].
      split; [intros _ ? ? H; discriminate H | reflexivity]. }
  destruct (fetchValidation db query) as [result|e] eqn:Hfetch.
  2:{ exists []; split; [symmetry; apply app_nil_r |].
      split; [| reflexivity].
      intros _ q v Hq Hv; injection Hq as <-; congruence. }
  pose proof (fetchValidation_valid _ _ _ Hfetch) as Hvalid.
  destruct (ValidationResult.valid result) eqn:Hv; simpl.
  - exists []; split; [symmetry; apply app_nil_r |].
    split; [| reflexivity].
    intros _ q v Hq Hr; injection Hq as <-.
    assert (v = result) by congruence; subst v; exact Hv.
  - eexists; split; [reflexivity |].
    split.
    + intros Hnil.
      destruct (ValidationResult.conflicts result); [discriminate Hvalid |].
      discriminate Hnil.
    + intros H; specialize (H query result eq_refl Hfetch); congruence.
Qed.

Lemma validateChanges_conflicts db schedulerData selectedSemesterId changes
  conflicts warnings :
  truthy selectedSemesterId = true ->
  exists entries,
    fst (fold_left (validateChange db schedulerData selectedSemesterId)
           changes (conflicts, warnings))
    = conflicts ++ entries
    /\ (entries = [] <->
        forall change query v,
          In change changes ->
          validationQueryOf schedulerData (narrowed selectedSemesterId) change
          = Some query ->
          fetchValidation db query = Ok v ->
          ValidationResult.valid v = true).
Proof.
  intros Hsem; revert conflicts warnings.
  induction changes as [|change changes IH]; intros conflicts warnings;
    cbn [fold_left fst In].
  - exists []; split; [symmetry; apply app_nil_r |].
    split; [intros _ ? ? ? [] | reflexivity].
  - destruct (validateChange_conflicts db schedulerData selectedSemesterId
                conflicts warnings change Hsem) as (here & Hhere & Hiff).
    destruct (validateChange db schedulerData selectedSemesterId
                (conflicts, warnings) change) as [conflicts1 warnings1].
    simpl in Hhere; subst conflicts1.
    destruct (IH (conflicts ++ here) warnings1) as (rest & Hrest & Hiff').
    exists (here ++ rest); split; [rewrite Hrest, app_assoc; reflexivity |].
    split.
    + intros Hnil; apply app_eq_nil in Hnil; destruct Hnil as [H1 H2].
      intros c q v [<- | Hin];
        [exact (proj1 Hiff H1 q v) | exact (proj1 Hiff' H2 c q v Hin)].
    + intros H.
      rewrite (proj2 Hiff) by (intros q v; apply H; left; reflexivity).
      rewrite (proj2 Hiff')
        by (intros c q v Hin; apply H; right; exact Hin).
      reflexivity.
Qed.

(** X14. The save button follows the dry runs: with a semester selected and
    the data of the page loaded, [validateAllChanges] reports no conflict,
    so that [hasConflicts] is false, exactly when no pending change has a
    dry run that returned an invalid verdict. A pending change whose session
    is not loaded, or whose dry run threw, counts for nothing. *)
Theorem save_is_enabled_iff_no_dry_run_is_invalid (db : DB.t)
  (schedulerData : SchedulerData.t) (state : SchedulerState.t) :
  truthy (SchedulerState.selectedSemesterId state) = true ->
  hasConflicts (fst (validateAllChanges db (Some schedulerData) state)) = false
  <->
  (forall change query v,
     In change (mapValues (SchedulerState.pendingChanges state)) ->
     validationQueryOf schedulerData
       (narrowed (SchedulerState.selectedSemesterId state)) change
     = Some query ->
     fetchValidation db query = Ok v ->
     ValidationResult.valid v = true).
Proof.
  intros Hsem; unfold validateAllChanges, hasConflicts.
  destruct (mapSize (SchedulerState.pendingChanges state) =? 0) eqn:Hsize.
  - apply Z.eqb_eq in Hsize; unfold mapSize in Hsize.
    destruct (SchedulerState.pendingChanges state); [| discriminate Hsize].
    simpl; split; [intros _ ? ? ? [] | reflexivity].
  - destruct (validateChanges_conflicts db schedulerData
                (SchedulerState.selectedSemesterId state)
                (mapValues (SchedulerState.pendingChanges state)) [] [] Hsem)
      as (entries & -> & Hiff).
    simpl app; rewrite <- Hiff.
    destruct entries; unfold Nat.ltb; simpl; split; intros H; congruence.
Qed.

Lemma save_is_enabled_iff_no_dry_run_is_invalid_witness :
  hasConflicts
    (fst (validateAllChanges school
            (Some (SchedulerData.mk (DB.room school) []))
            (addPendingChange
               (PendingChange.mk (-7) 0 0 1 2 None (Some 1) None None
                  (Some 1) (Some true) (Some 5) None None None)
               (setSelectedSemester (Some 1) initialState))))
  = false.
Proof.
  apply (save_is_enabled_iff_no_dry_run_is_invalid school
           (SchedulerData.mk (DB.room school) [])
           (addPendingChange
              (PendingChange.mk (-7) 0 0 1 2 None (Some 1) None None
                 (Some 1) (Some true) (Some 5) None None None)
              (setSelectedSemester (Some 1) initialState)));
    [reflexivity |].
  intros change query v [<- | []] Hq Hv.
  cbv in Hq; injection Hq as <-.
  cbv in Hv; injection Hv as <-; reflexivity.
Defined.

(** ** handleSaveChanges *)












(** ** The gestures that make a pending change *)

Lemma loadedSession_id schedulerData sessionId session :
  loadedSession schedulerData sessionId = Some session ->
  SessionData.id session = sessionId
  /\ In session (SchedulerData.sessions schedulerData).
Proof.
  unfold loadedSession; intros H; apply find_some in H.
  destruct H as [Hin Hid]; apply Z.eqb_eq in Hid; auto.
Qed.

(** X17. A room chosen for a loaded session replaces whatever was pending
    for it: after [handleRoomChange] the session has one pending change, and
    the operations [handleSaveChanges] makes of it are a single update_room
    to the chosen room, or none when that is the room the session has. A
    move that was pending for the session is not among them. *)
Theorem room_change_replaces_the_pending_change
  (schedulerData : SchedulerData.t) (sessionId newRoomId : Z)
  (state : SchedulerState.t) (session : SessionData.t)
  (selectedSemesterId : Z) (selectedHomeroomId : option Z) :
  loadedSession schedulerData sessionId = Some session ->
  exists change,
    mapGet
      (SchedulerState.pendingChanges
         (handleRoomChange (Some schedulerData) sessionId newRoomId state))
      sessionId = Some change
    /\ operationsOf schedulerData selectedSemesterId selectedHomeroomId change
       = if newRoomId =? SessionData.roomId session then []
         else [{| Change.type := ChangeType.update_room;
                  Change.sessionId := sessionId;
                  Change.blockId := None;
                  Change.dayOfWeek := None;
                  Change.roomId := Some newRoomId;
                  Change.classId := None;
                  Change.semesterId := None;
                  Change.homeroomId := None;
                  Change.teacherId := None |}].
Proof.
  intros Hloaded.
  destruct (loadedSession_id _ _ _ Hloaded) as [Hid _].
  unfold handleRoomChange; rewrite Hloaded.
  eexists; split.
  - unfold addPendingChange; simpl.
    rewrite Hid; apply mapGet_mapSet.
  - unfold operationsOf, isNewClass; simpl.
    rewrite ?Z.eqb_refl, ?Hid; simpl.
    destruct (newRoomId =? SessionData.roomId session); reflexivity.
Qed.

Lemma room_change_replaces_the_pending_change_witness :
  exists change,
    mapGet
      (SchedulerState.pendingChanges
         (handleRoomChange
            (Some
               (SchedulerData.mk (DB.room school)
                  [SessionData.mk 3 4 "BIO10" "Bio10" (Some 1) 2 "B2" 2 3
                     "R3" 1 []]))
            3 1
            (addPendingChange
               (PendingChange.mk 3 2 2 3 1 None None None None (Some 1) None
                  None None None None)
               initialState)))
      3 = Some change
    /\ map Change.type
         (operationsOf
            (SchedulerData.mk (DB.room school)
               [SessionData.mk 3 4 "BIO10" "Bio10" (Some 1) 2 "B2" 2 3 "R3"
                  1 []])
            1 (Some 1) change)
       = [ChangeType.update_room].
Proof.
  destruct (room_change_replaces_the_pending_change
              (SchedulerData.mk (DB.room school)
                 [SessionData.mk 3 4 "BIO10" "Bio10" (Some 1) 2 "B2" 2 3
                    "R3" 1 []])
              3 1
              (addPendingChange
                 (PendingChange.mk 3 2 2 3 1 None None None None (Some 1)
                    None None None None None)
                 initialState)
              (SessionData.mk 3 4 "BIO10" "Bio10" (Some 1) 2 "B2" 2 3 "R3" 1
                 [])
              1 (Some 1) eq_refl)
    as (change & Hget & Hops).
  exists change; split; [exact Hget | rewrite Hops; reflexivity].
Defined.

(** X18. A loaded session dropped on another cell replaces whatever was
    pending for it: after [handleDragEnd] the drag is over, the session has
    one pending change, and the operations [handleSaveChanges] makes of it
    are a single move to the cell, into the room the session has in the
    loaded data. A room that was pending for the session is not sent. *)
Theorem drag_replaces_the_pending_change (schedulerData : SchedulerData.t)
  (draggedSession : SessionData.t) (now blockId dayOfWeek : Z)
  (activeSessionId activeBlockId activeDayOfWeek : Z)
  (state : SchedulerState.t) (selectedSemesterId : Z)
  (selectedHomeroomId : option Z) :
  loadedSession schedulerData (SessionData.id draggedSession)
  = Some draggedSession ->
  truthy (SchedulerState.selectedSemesterId state) = true ->
  truthy (SchedulerState.selectedHomeroomId state) = true ->
  blockId <> SessionData.blockId draggedSession
  \/ dayOfWeek <> SessionData.dayOfWeek draggedSession ->
  let state' :=
    handleDragEnd (Some schedulerData) (Some draggedSession) now
      (Some (blockId, dayOfWeek))
      (SessionItem activeSessionId activeBlockId activeDayOfWeek) state in
  SchedulerState.isDragging state' = false
  /\ SchedulerState.dragPreview state' = None
  /\ exists change,
       mapGet (SchedulerState.pendingChanges state')
         (SessionData.id draggedSession) = Some change
       /\ operationsOf schedulerData selectedSemesterId selectedHomeroomId
            change
          = [{| Change.type := ChangeType.move;
                Change.sessionId := SessionData.id draggedSession;
                Change.blockId := Some blockId;
                Change.dayOfWeek := Some dayOfWeek;
                Change.roomId := Some (SessionData.roomId draggedSession);
                Change.classId := None;
                Change.semesterId := None;
                Change.homeroomId := None;
                Change.teacherId := None |}].
Proof.
  intros Hloaded Hsem Hhome Hmoved; cbv zeta.
  unfold handleDragEnd; rewrite Hsem, Hhome; simpl andb; cbv iota.
  replace (negb (blockId =? SessionData.blockId draggedSession)
           || negb (dayOfWeek =? SessionData.dayOfWeek draggedSession))
    with true.
  2:{ symmetry; apply orb_true_iff.
      destruct Hmoved as [H | H]; [left | right];
        apply negb_true_iff, Z.eqb_neq; exact H. }
  split; [reflexivity |].
  split; [reflexivity |].
  eexists; split.
  - unfold addPendingChange; simpl; apply mapGet_mapSet.
  - unfold operationsOf, isNewClass; simpl.
    rewrite Hloaded.
    replace (negb (blockId =? SessionData.blockId draggedSession)
             || negb (dayOfWeek =? SessionData.dayOfWeek draggedSession))
      with true.
    2:{ symmetry; apply orb_true_iff.
        destruct Hmoved as [H | H]; [left | right];
          apply negb_true_iff, Z.eqb_neq; exact H. }
    reflexivity.
Qed.

Lemma drag_replaces_the_pending_change_witness :
  exists change,
    mapGet
      (SchedulerState.pendingChanges
         (handleDragEnd
            (Some
               (SchedulerData.mk (DB.room school)
                  [SessionData.mk 3 4 "BIO10" "Bio10" (Some 1) 2 "B2" 2 3
                     "R3" 1 []]))
            (Some
               (SessionData.mk 3 4 "BIO10" "Bio10" (Some 1) 2 "B2" 2 3 "R3"
                  1 []))
            1000 (Some (3, 1)) (SessionItem 3 2 2)
            (setSelectedHomeroom (Some 1)
               (setSelectedSemester (Some 1) initialState))))
      3 = Some change
    /\ map Change.type
         (operationsOf
            (SchedulerData.mk (DB.room school)
               [SessionData.mk 3 4 "BIO10" "Bio10" (Some 1) 2 "B2" 2 3 "R3"
                  1 []])
            1 (Some 1) change)
       = [ChangeType.move].
Proof.
  destruct (drag_replaces_the_pending_change
              (SchedulerData.mk (DB.room school)
                 [SessionData.mk 3 4 "BIO10" "Bio10" (Some 1) 2 "B2" 2 3
                    "R3" 1 []])
              (SessionData.mk 3 4 "BIO10" "Bio10" (Some 1) 2 "B2" 2 3 "R3" 1
                 [])
              1000 3 1 3 2 2
              (setSelectedHomeroom (Some 1)
                 (setSelectedSemester (Some 1) initialState))
              1 (Some 1) eq_refl eq_refl eq_refl
              (or_introl (fun H : 3 = 2 => Z.neq_succ_diag_l 2 H)))
    as (_ & _ & change & Hget & Hops).
  exists change; split; [exact Hget | rewrite Hops; reflexivity].
Defined.

(** *** The room of a class dropped from the class bank *)








(** ** The other changes of a batch *)

(** X21. An update_room applied by a batch changes, in the store, only the
    room of the session: the row keeps its identifier, class, block, day,
    semester and homeroom, every other class session and every teacher link
    is as before. The branch runs no check of its own: that no other session
    holds the room in the session's (block, day, semester) is what the
    uniqueness constraint of the store has let through. *)
Theorem batch_update_room_changes_only_the_room
  (results : list BatchResult.t) (change : Change.t) (db : DB.t)
  (results' : list BatchResult.t) (db' : DB.t) :
  Change.type change = ChangeType.update_room ->
  applyChange results change db = (Ok results', db') ->
  let sessionId := Change.sessionId change in
  let roomId := narrowed (Change.roomId change) in
  exists session,
    findUnique ClassSession.id sessionId (DB.classSession db) = Some session
    /\ findUnique ClassSession.id sessionId (DB.classSession db')
       = Some {| ClassSession.id := ClassSession.id session;
                 ClassSession.classId := ClassSession.classId session;
                 ClassSession.blockId := ClassSession.blockId session;
                 ClassSession.dayOfWeek := ClassSession.dayOfWeek session;
                 ClassSession.roomId := roomId;
                 ClassSession.semesterId := ClassSession.semesterId session;
                 ClassSession.homeroomId := ClassSession.homeroomId session |}
    /\ (forall s,
          ClassSession.id s <> sessionId ->
          (In s (DB.classSession db') <-> In s (DB.classSession db)))
    /\ DB.classSessionTeacher db' = DB.classSessionTeacher db
    /\ results' = push results
                    {| BatchResult.type := ChangeType.update_room;
                       BatchResult.id := sessionId |}
    /\ (forall other,
          In other (DB.classSession db) ->
          ClassSession.id other <> sessionId ->
          inRoomSlot (ClassSession.blockId session)
            (ClassSession.dayOfWeek session) roomId
            (ClassSession.semesterId session) other = false).
Proof.
  intros Htype H; cbv zeta.
  unfold applyChange in H; rewrite Htype in H.
  destruct (negb (truthy (Change.roomId change))
            || negb (truthy (Some (Change.sessionId change))));
    [discriminate |].
  invert_tx H.
  apply classSession_update_Ok in E.
  destruct E as (row & Hrow & Hupdated & _ & Hfree & ->).
  injection H as <- <-; subst a.
  assert (Hid : ClassSession.id row = Change.sessionId change)
    by (apply findUnique_Some in Hrow; tauto).
  exists row; repeat split; auto.
  - simpl; eapply findUnique_replaceRow; eauto.
  - simpl; apply In_replaceRow_other; auto.
  - simpl; apply In_replaceRow_other; auto.
  - simpl; rewrite Hid; reflexivity.
  - intros other Hother Hneq.
    rewrite slotTaken_setRoom in Hfree.
    destruct (findFirst _ (DB.classSession db)) eqn:Hfind; [discriminate |].
    pose proof (findFirst_None _ _ Hfind other Hother) as Hnone.
    cbv beta in Hnone.
    apply notSession_true in Hneq; rewrite Hneq in Hnone; exact Hnone.
Qed.

Lemma batch_update_room_changes_only_the_room_witness :
  exists results' db',
    applyChange []
      (Change.mk ChangeType.update_room 3 None None (Some 1) None None None
         None)
      school = (Ok results', db')
    /\ findUnique ClassSession.id 3 (DB.classSession db')
       = Some (ClassSession.mk 3 4 2 2 1 1 None).
Proof.
  eexists _, _; split; [cbv; reflexivity |].
  destruct (batch_update_room_changes_only_the_room []
              (Change.mk ChangeType.update_room 3 None None (Some 1) None
                 None None None)
              school _ _ eq_refl eq_refl)
    as (session & Hsession & Hupdated & _).
  injection Hsession as <-; exact Hupdated.
Defined.

(** X22. A create applied by a batch either passes over the change, when its
    class is not in the store, and changes nothing, or adds to the store
    exactly one class session: the row with the next identifier and the
    class, block, day, room, semester and homeroom of the change. The
    sessions there were and every teacher link are as before; the
    [sessionId] of the change is not read. When the class has a grade, no
    session of a class of that grade was in the (block, day, semester). *)
Theorem batch_create_adds_one_session (results : list BatchResult.t)
  (change : Change.t) (db : DB.t) (results' : list BatchResult.t)
  (db' : DB.t) :
  Change.type change = ChangeType.create ->
  applyChange results change db = (Ok results', db') ->
  (forall sessionId,
     applyChange results
       {| Change.type := Change.type change;
          Change.sessionId := sessionId;
          Change.blockId := Change.blockId change;
          Change.dayOfWeek := Change.dayOfWeek change;
          Change.roomId := Change.roomId change;
          Change.classId := Change.classId change;
          Change.semesterId := Change.semesterId change;
          Change.homeroomId := Change.homeroomId change;
          Change.teacherId := Change.teacherId change |}
       db
     = applyChange results change db)
  /\ match findUnique Class.id (narrowed (Change.classId change))
             (DB.class db) with
     | None => results' = results /\ db' = db
     | Some cls =>
         results' = push results
                      {| BatchResult.type := ChangeType.create;
                         BatchResult.id := DB.classSessionSeq db |}
         /\ DB.classSession db' = DB.classSession db ++ [batchRowOf db change]
         /\ DB.classSessionSeq db' = DB.classSessionSeq db + 1
         /\ DB.classSessionTeacher db' = DB.classSessionTeacher db
         /\ (truthy (Class.gradeId cls) = true ->
             forall other,
               In other (DB.classSession db) ->
               inSlot (narrowed (Change.blockId change))
                 (narrowed (Change.dayOfWeek change))
                 (narrowed (Change.semesterId change)) other = true ->
               classGradeIs db (Class.gradeId cls) other = false)
     end.
Proof.
  intros Htype H; split.
  { intros sessionId; unfold applyChange; simpl; rewrite Htype; reflexivity. }
  pose proof (applyChange_create_Ok _ _ _ _ _ Htype H) as Hcreate.
  cbv zeta in Hcreate.
  destruct Hcreate as [(Hnone & -> & ->) | Hcreate];
    [rewrite Hnone; auto |].
  destruct Hcreate as (cls & created & Hcls & Hcheck & Hcreate & ->).
  rewrite Hcls.
  apply classSession_create_Ok in Hcreate.
  destruct Hcreate as (Hcreated & _ & _ & ->).
  change (created = batchRowOf db change) in Hcreated; subst created.
  repeat split.
  intros Hg other Hother Hslot.
  pose proof (findFirst_None _ _ (Hcheck Hg) other Hother) as Hnone.
  cbv beta in Hnone; rewrite Hslot in Hnone; exact Hnone.
Qed.

Lemma batch_create_adds_one_session_witness :
  exists results' db',
    applyChange []
      (Change.mk ChangeType.create (-1) (Some 1) (Some 2) (Some 1) (Some 5)
         (Some 1) (Some 1) None)
      school = (Ok results', db')
    /\ DB.classSession db'
       = DB.classSession school ++ [ClassSession.mk 5 5 1 2 1 1 (Some 1)].
Proof.
  eexists _, _; split; [cbv; reflexivity |].
  destruct (batch_create_adds_one_session []
              (Change.mk ChangeType.create (-1) (Some 1) (Some 2) (Some 1)
                 (Some 5) (Some 1) (Some 1) None)
              school _ _ eq_refl eq_refl)
    as (_ & _ & Hrows & _).
  exact Hrows.
Defined.
